(** * Session analyzer: a shallow embedding of [scripts/analyze-session.py]

    The development follows the script function by function:
    [parse_timestamp], [calculate_gaps], [analyze_session_file],
    [find_session_file] and [main].

    Modelling conventions.
    - Python exceptions are values of [exn]; a computation that may raise
      has type [result A].  [try ... except K: continue] is a [match] on the
      raised exception.
    - A [datetime] is the record of its wall-clock fields together with an
      optional UTC offset ([None] is a naive datetime).  Ordering and
      subtraction follow CPython: two naive or two aware values are
      compared on the absolute instant, mixing them raises [TypeError].
    - A [timedelta] is its exact number of microseconds (a [Z]).
    - Python floats are idealised as exact rationals ([Q]):
      [total_seconds()] is microseconds over [10^6].  Statements about float
      results are therefore stated up to [Qeq]; a division whose divisor is
      zero raises [ZeroDivisionError] as in Python.  Rounding is not
      modelled: the sum of the gaps, for one, is exact here where the script
      computes it up to rounding.
    - A [dict] is an association list in insertion order, because the
      script sorts [hourly_activity.items()] with a stable sort.
    - [json.loads], [datetime.fromisoformat], the file system and the
      report renderer are the fields of the class [Runtime], over which
      the I/O functions are defined. *)

From Stdlib Require Import String Ascii ZArith QArith Qfield Lia Lqa Bool List.
From Stdlib Require Import Permutation Sorting.Sorted Qround DecimalString.
Import ListNotations.

Local Open Scope string_scope.
Local Open Scope list_scope.
Local Open Scope Z_scope.

(** ** Exceptions and fallible computations *)

Inductive exn : Type :=
| JSONDecodeError (msg : string)
| ValueError (msg : string)
| TypeError (msg : string)
| KeyError (msg : string)
| AttributeError (msg : string)
| ZeroDivisionError (msg : string)
| FileNotFoundError (msg : string)
| OSError (msg : string).

(** [str(e)] as used by [print(f"... {e}")]. *)
Definition str_exn (e : exn) : string :=
  match e with
  | JSONDecodeError m | ValueError m | TypeError m | KeyError m
  | AttributeError m | ZeroDivisionError m | FileNotFoundError m
  | OSError m => m
  end.

Definition is_JSONDecodeError (e : exn) : bool :=
  match e with JSONDecodeError _ => true | _ => false end.

Definition is_KeyError (e : exn) : bool :=
  match e with KeyError _ => true | _ => false end.

Definition is_TypeError (e : exn) : bool :=
  match e with TypeError _ => true | _ => false end.

Inductive result (A : Type) : Type :=
| Ok (a : A)
| Raise (e : exn).

Arguments Ok {A} a.
Arguments Raise {A} e.

Definition bind {A B : Type} (c : result A) (k : A -> result B) : result B :=
  match c with
  | Ok a => k a
  | Raise e => Raise e
  end.

Declare Scope result_scope.
Delimit Scope result_scope with result.
Notation "x <- c ;; k" := (bind c (fun x => k))
  (at level 61, c at next level, right associativity) : result_scope.
Notation "' pat <- c ;; k" := (bind c (fun x => match x with pat => k end))
  (at level 61, pat pattern, c at next level, right associativity) : result_scope.
Local Open Scope result_scope.

(** ** Strings: the [str] methods the script calls *)

(** [s.replace(c, by)] for a one-character pattern. *)
Fixpoint replace (c : ascii) (by_ : string) (s : string) : string :=
  match s with
  | EmptyString => EmptyString
  | String a s' =>
      if Ascii.eqb a c then (by_ ++ replace c by_ s')%string
      else String a (replace c by_ s')
  end.

(** ASCII white space, the characters [str.strip()] removes. *)
Definition is_space (c : ascii) : bool :=
  let n := nat_of_ascii c in
  (Nat.leb 9 n && Nat.leb n 13) || (Nat.leb 28 n && Nat.leb n 32).

Fixpoint lstrip (s : string) : string :=
  match s with
  | EmptyString => EmptyString
  | String c s' => if is_space c then lstrip s' else s
  end.

Fixpoint rstrip (s : string) : string :=
  match s with
  | EmptyString => EmptyString
  | String c s' =>
      match rstrip s' with
      | EmptyString => if is_space c then EmptyString else String c EmptyString
      | r => String c r
      end
  end.

Definition strip (s : string) : string := rstrip (lstrip s).

(** Truthiness of a [str]: the empty string is falsy. *)
Definition truthy (s : string) : bool :=
  match s with EmptyString => false | _ => true end.

Definition newline : ascii := ascii_of_nat 10.

(** The lines of a text file, each with its terminating newline, as
    iterating a file object or [readlines()] yields them. *)
Fixpoint readlines (s : string) : list string :=
  match s with
  | EmptyString => []
  | String c s' =>
      if Ascii.eqb c newline then String c EmptyString :: readlines s'
      else match readlines s' with
           | [] => [String c EmptyString]
           | l :: ls => String c l :: ls
           end
  end.

(** [f.readline()] on a freshly opened file. *)
Definition readline (s : string) : string :=
  match readlines s with
  | [] => EmptyString
  | l :: _ => l
  end.

(** The text from offset [n] on ([f.seek(n)] then read). *)
Fixpoint seek (n : nat) (s : string) : string :=
  match n, s with
  | O, _ => s
  | S n', String _ s' => seek n' s'
  | S _, EmptyString => EmptyString
  end.

(** [Path.name]: the part after the last slash. *)
Fixpoint path_name (p : string) : string :=
  match p with
  | EmptyString => EmptyString
  | String c p' =>
      match String.index 0 "/" p' with
      | Some _ => path_name p'
      | None => if Ascii.eqb c "/"%char then p' else p
      end
  end.

(** ** JSON values as [json.loads] returns them *)

#[local] Unset Elimination Schemes.
Inductive json : Type :=
| JNull
| JBool (b : bool)
| JInt (n : Z)
| JFloat (q : Q)
| JStr (s : string)
| JList (l : list json)
| JDict (d : list (string * json)).
#[local] Set Elimination Schemes.

(** [key in entry].  A dict tests its keys, a list its elements, a string
    its substrings; the other JSON values are not iterable. *)
Definition contains (key : string) (entry : json) : result bool :=
  match entry with
  | JDict d => Ok (existsb (fun kv => String.eqb (fst kv) key) d)
  | JList l =>
      Ok (existsb (fun v => match v with
                            | JStr s => String.eqb s key
                            | _ => false
                            end) l)
  | JStr s => Ok (match String.index 0 key s with Some _ => true | None => false end)
  | _ => Raise (TypeError "argument is not iterable")
  end.

(** [entry[key]] for a string key. *)
Definition getitem (entry : json) (key : string) : result json :=
  match entry with
  | JDict d =>
      match find (fun kv => String.eqb (fst kv) key) d with
      | Some kv => Ok (snd kv)
      | None => Raise (KeyError key)
      end
  | JList _ => Raise (TypeError "list indices must be integers or slices, not str")
  | JStr _ => Raise (TypeError "string indices must be integers, not 'str'")
  | _ => Raise (TypeError "object is not subscriptable")
  end.

(** ** [datetime] and [timedelta] *)

Record datetime : Type := mk_datetime {
  year : Z;
  month : Z;
  day : Z;
  hour : Z;
  minute : Z;
  second : Z;
  microsecond : Z;
  tzinfo : option Z  (* utcoffset in microseconds; [None] when naive *)
}.

Definition is_leap (y : Z) : bool :=
  (y mod 4 =? 0) && (negb (y mod 100 =? 0) || (y mod 400 =? 0)).

Definition days_in_month (y m : Z) : Z :=
  if m =? 2 then (if is_leap y then 29 else 28)
  else if (m =? 4) || (m =? 6) || (m =? 9) || (m =? 11) then 30
  else 31.

Definition days_before_year (y : Z) : Z :=
  let y1 := y - 1 in y1 * 365 + y1 / 4 - y1 / 100 + y1 / 400.

Definition days_before_month (y m : Z) : Z :=
  fold_left (fun acc k => acc + days_in_month y (Z.of_nat k))
            (seq 1 (Z.to_nat (m - 1))) 0.

(** [datetime.toordinal()]. *)
Definition toordinal (dt : datetime) : Z :=
  days_before_year (year dt) + days_before_month (year dt) (month dt) + day dt.

(** The constructor's range checks: every [datetime] object satisfies them. *)
Definition valid_datetime (dt : datetime) : Prop :=
  1 <= year dt <= 9999 /\ 1 <= month dt <= 12 /\
  1 <= day dt <= days_in_month (year dt) (month dt) /\
  0 <= hour dt <= 23 /\ 0 <= minute dt <= 59 /\ 0 <= second dt <= 59 /\
  0 <= microsecond dt <= 999999 /\
  match tzinfo dt with
  | Some off => - 86400000000 < off < 86400000000
  | None => True
  end.

(** Microseconds of the wall-clock reading since the start of day 0. *)
Definition wall_us (dt : datetime) : Z :=
  ((toordinal dt * 86400 + hour dt * 3600 + minute dt * 60 + second dt)
   * 1000000) + microsecond dt.

Definition aware (dt : datetime) : bool :=
  match tzinfo dt with Some _ => true | None => false end.

(** The absolute position used when two values of the same kind are
    compared: wall clock minus the offset (no offset when naive). *)
Definition instant_us (dt : datetime) : Z :=
  match tzinfo dt with
  | Some off => wall_us dt - off
  | None => wall_us dt
  end.

(** [a - b] on datetimes, a timedelta in microseconds. *)
Definition dt_sub (a b : datetime) : result Z :=
  if Bool.eqb (aware a) (aware b) then Ok (instant_us a - instant_us b)
  else Raise (TypeError "can't subtract offset-naive and offset-aware datetimes").

Definition dt_cmp (op : Z -> Z -> bool) (a b : datetime) : result bool :=
  if Bool.eqb (aware a) (aware b) then Ok (op (instant_us a) (instant_us b))
  else Raise (TypeError "can't compare offset-naive and offset-aware datetimes").

Definition dt_lt : datetime -> datetime -> result bool := dt_cmp Z.ltb.
Definition dt_gt : datetime -> datetime -> result bool := dt_cmp Z.gtb.
Definition dt_le : datetime -> datetime -> result bool := dt_cmp Z.leb.


(** [timedelta.total_seconds()]. *)
Definition total_seconds (td : Z) : Q := td # 1000000.

(** ** Arithmetic on (idealised) floats *)

Local Open Scope Q_scope.

Definition Qltb (x y : Q) : bool := negb (Qle_bool y x).
Definition Qgeb (x y : Q) : bool := Qle_bool y x.

(** [a / b] where [b] is a run-time value: raises on a zero divisor. *)
Definition py_div (a b : Q) : result Q :=
  if Qeq_bool b 0 then Raise (ZeroDivisionError "float division by zero")
  else Ok (a / b).

(** [sum(xs)]: starts from [0] and adds from the left. *)
Definition py_sum (xs : list Q) : Q := fold_left Qplus xs 0.

(** [max(xs)] on a non-empty list headed by [x]. *)
Definition py_max (x : Q) (xs : list Q) : Q :=
  fold_left (fun m y => if Qltb m y then y else m) xs x.

(** [statistics.mean(xs)] on a non-empty list. *)
Definition mean (xs : list Q) : result Q :=
  py_div (py_sum xs) (inject_Z (Z.of_nat (length xs))).

(** ** [calculate_gaps] (lines 26-32)

    The loop over [i in range(1, len(timestamps))] visits the adjacent
    pairs from left to right; the recursion below does the same. *)
Fixpoint calculate_gaps (timestamps : list datetime) : result (list Q) :=
  match timestamps with
  | [] => Ok []
  | prev :: rest =>
      match rest with
      | [] => Ok []
      | cur :: _ =>
          td <- dt_sub cur prev ;;
          let gap := total_seconds td / 60 in
          gaps <- calculate_gaps rest ;;
          Ok (gap :: gaps)
      end
  end.

(** ** Dicts with integer keys, in insertion order *)

Local Open Scope Z_scope.

Definition dict : Type := list (Z * Z).

(** [d.get(k, default)]. *)
Fixpoint dict_get (d : dict) (k : Z) (default : Z) : Z :=
  match d with
  | [] => default
  | (k', v) :: d' => if k' =? k then v else dict_get d' k default
  end.

(** [d[k] = v]: an existing key keeps its position, a new key is appended. *)
Fixpoint dict_set (d : dict) (k v : Z) : dict :=
  match d with
  | [] => [(k, v)]
  | (k', v') :: d' =>
      if k' =? k then (k', v) :: d' else (k', v') :: dict_set d' k v
  end.

(** [dict(items)]. *)
Definition dict_of_items (items : list (Z * Z)) : dict :=
  fold_left (fun d kv => dict_set d (fst kv) (snd kv)) items [].

(** Lines 86-87, the body of the counting loop. *)
Definition hour_step (hourly_activity : dict) (ts : datetime) : dict :=
  let hour := hour ts in
  dict_set hourly_activity hour (dict_get hourly_activity hour 0 + 1).

(** Lines 84-87: one pass over the timestamps counting per [ts.hour]. *)
Definition count_hours (timestamps : list datetime) : dict :=
  fold_left hour_step timestamps [].

(** ** [sorted]

    CPython's sort is stable and only uses [<]; with [reverse=True] it
    reverses the list, sorts it and reverses the result, which keeps equal
    elements in their original order.  Any stable sort computes the same
    list; insertion sort is used here. *)

Section Sorted.
Context {A : Type} (lt : A -> A -> bool).

Fixpoint insert (x : A) (l : list A) : list A :=
  match l with
  | [] => [x]
  | y :: l' => if lt y x then y :: insert x l' else x :: l
  end.

Definition stable_sort (l : list A) : list A := fold_right insert [] l.

Definition sorted (reverse : bool) (l : list A) : list A :=
  if reverse then rev (stable_sort (rev l)) else stable_sort l.

(** [a] may stand before [b] in an ascending result. *)
Definition ascending (a b : A) : Prop := lt b a = false.
(** [a] may stand before [b] in a descending result. *)
Definition descending (a b : A) : Prop := lt a b = false.
(** Neither is smaller: the sort must not reorder them. *)
Definition tied (z y : A) : bool := negb (lt z y) && negb (lt y z).
End Sorted.

(** [<] on [(hour, count)] tuples: lexicographic. *)
Definition tuple_lt (a b : Z * Z) : bool :=
  (fst a <? fst b) || ((fst a =? fst b) && (snd a <? snd b)).

(** [key=lambda x: x[1]]. *)
Definition count_lt (a b : Z * Z) : bool := snd a <? snd b.

(** Line 112: [dict(sorted(hourly_activity.items()))]. *)
Definition hourly_activity_of (timestamps : list datetime) : dict :=
  dict_of_items (sorted tuple_lt false (count_hours timestamps)).

(** Line 113: [sorted(hourly_activity.items(), key=lambda x: x[1],
    reverse=True)[:3]], on the dict as the loop built it. *)
Definition peak_hours_of (timestamps : list datetime) : list (Z * Z) :=
  firstn 3 (sorted count_lt true (count_hours timestamps)).

(** ** The metrics object (lines 94-114) *)

Record GapAnalysis : Type := mk_gap_analysis {
  short_gaps : Z;
  moderate_gaps : Z;
  long_gaps : Z;
  avg_moderate_gap : Q;
  longest_gap : Q
}.

(** [session_start] and [session_end] hold the instants whose
    [isoformat()] text the script stores. *)
Record SessionMetrics : Type := mk_metrics {
  session_start : datetime;
  session_end : datetime;
  total_duration_hours : Q;
  total_events : Z;
  events_per_hour : Q;
  events_per_minute : Q;
  active_events_per_minute : Q;
  total_active_time_hours : Q;
  total_idle_time_hours : Q;
  activity_percentage : Q;
  gap_analysis : GapAnalysis;
  hourly_activity : dict;
  peak_hours : list (Z * Z)
}.

(** What [analyze_session_file] returns: the dict with the single key
    ["error"], or the metrics dict. *)
Inductive analysis : Type :=
| AnalysisError (error : string)
| Analysis (m : SessionMetrics).

Local Open Scope Q_scope.

(** The three comprehensions of lines 75-77. *)
Definition is_short (g : Q) : bool := Qltb g 5.
Definition is_moderate (g : Q) : bool := Qle_bool 5 g && Qltb g 30.
Definition is_long (g : Q) : bool := Qgeb g 30.

(** Lines 63-114 of [analyze_session_file]: everything after the read
    loop, as a function of the two accumulators the loop leaves. *)
Definition analyze_timestamps (timestamps : list datetime) (total_events : Z)
  : result analysis :=
  match timestamps with
  | [] => Ok (AnalysisError "No valid timestamps found in range")
  | session_start :: _ =>
      let session_end := last timestamps session_start in
      td <- dt_sub session_end session_start ;;
      let total_duration := total_seconds td in
      gaps <- calculate_gaps timestamps ;;
      let short_gaps := filter is_short gaps in
      let moderate_gaps := filter is_moderate gaps in
      let long_gaps := filter is_long gaps in
      let total_idle_time := py_sum long_gaps in
      let total_active_time := (total_duration / 60) - total_idle_time in
      let hourly_activity := count_hours timestamps in
      events_per_hour <-
        (if Qltb 0 total_duration
         then py_div (inject_Z total_events) (total_duration / 3600)
         else Ok 0) ;;
      events_per_minute <-
        (if Qltb 0 total_duration
         then py_div (inject_Z total_events) (total_duration / 60)
         else Ok 0) ;;
      active_events_per_minute <-
        (if Qltb 0 total_active_time
         then py_div (inject_Z total_events) total_active_time
         else Ok 0) ;;
      activity_percentage <-
        (if Qltb 0 total_duration
         then q <- py_div total_active_time (total_duration / 60) ;; Ok (q * 100)
         else Ok 0) ;;
      avg_moderate_gap <-
        (match moderate_gaps with
         | [] => Ok 0
         | _ :: _ => mean moderate_gaps
         end) ;;
      let longest_gap :=
        match gaps with
        | [] => 0
        | g :: gs => py_max g gs
        end in
      Ok (Analysis {|
        session_start := session_start;
        session_end := session_end;
        total_duration_hours := total_duration / 3600;
        total_events := total_events;
        events_per_hour := events_per_hour;
        events_per_minute := events_per_minute;
        active_events_per_minute := active_events_per_minute;
        total_active_time_hours := total_active_time / 60;
        total_idle_time_hours := total_idle_time / 60;
        activity_percentage := activity_percentage;
        gap_analysis := {|
          short_gaps := Z.of_nat (length short_gaps);
          moderate_gaps := Z.of_nat (length moderate_gaps);
          long_gaps := Z.of_nat (length long_gaps);
          avg_moderate_gap := avg_moderate_gap;
          longest_gap := longest_gap
        |};
        hourly_activity :=
          dict_of_items (sorted tuple_lt false hourly_activity);
        peak_hours := firstn 3 (sorted count_lt true hourly_activity)
      |})
  end.

(** ** The script's environment

    What the script takes from the Python library and the operating
    system: the JSON decoder, the ISO-8601 parser, the file system and the
    report renderer (lines 152-203, text formatting only). *)

Local Open Scope Z_scope.

Class Runtime : Type := {
  (** [json.loads(s)] *)
  json_loads : string -> result json;
  (** [datetime.fromisoformat(s)] *)
  fromisoformat : string -> result datetime;
  (** [open(path, 'r')] followed by reading the text *)
  open_text : string -> result string;
  (** [str(Path.home())] *)
  home : string;
  (** [Path(p).resolve()] *)
  resolve : string -> string;
  (** [Path(p).exists()] *)
  dir_exists : string -> bool;
  (** [Path(p).glob("*.jsonl")], in the order the directory yields them *)
  glob_jsonl : string -> list string;
  (** the lines [print_analysis_report] prints *)
  print_analysis_report : SessionMetrics -> list string
}.

Section Script.
Context {R : Runtime}.

(** Lines 15-17.  The argument is whatever the caller passes: only a
    [str] has [replace]. *)
Definition parse_timestamp (ts_str : json) : result datetime :=
  match ts_str with
  | JStr s => fromisoformat (replace "Z" "+00:00" s)
  | _ => Raise (AttributeError "object has no attribute 'replace'")
  end.

(** [parse_timestamp(t) if t else None] (lines 40-41). *)
Definition parse_bound (t : option string) : result (option datetime) :=
  match t with
  | None => Ok None
  | Some s =>
      if truthy s then dt <- parse_timestamp (JStr s) ;; Ok (Some dt)
      else Ok None
  end.

(** [start_dt and ts < start_dt] (line 53). *)
Definition before_start (start_dt : option datetime) (ts : datetime)
  : result bool :=
  match start_dt with
  | Some s => dt_lt ts s
  | None => Ok false
  end.

(** [end_dt and ts > end_dt] (line 55). *)
Definition after_end (end_dt : option datetime) (ts : datetime)
  : result bool :=
  match end_dt with
  | Some e => dt_gt ts e
  | None => Ok false
  end.

(** The body of the [try] of lines 47-59 on one line, from the
    accumulators before to the accumulators after. *)
Definition try_line (start_dt end_dt : option datetime)
           (acc : list datetime * Z) (line : string)
  : result (list datetime * Z) :=
  let '(timestamps, total_events) := acc in
  entry <- json_loads (strip line) ;;
  has_ts <- contains "timestamp" entry ;;
  if has_ts then
    v <- getitem entry "timestamp" ;;
    ts <- parse_timestamp v ;;
    too_early <- before_start start_dt ts ;;
    if too_early then Ok acc
    else
      too_late <- after_end end_dt ts ;;
      if too_late then Ok acc
      else Ok (timestamps ++ [ts], total_events + 1)
  else Ok acc.

(** One iteration of the loop of lines 46-61: [except
    json.JSONDecodeError: continue] catches that exception only. *)
Definition read_line (start_dt end_dt : option datetime)
           (acc : list datetime * Z) (line : string)
  : result (list datetime * Z) :=
  match try_line start_dt end_dt acc line with
  | Ok acc' => Ok acc'
  | Raise e => if is_JSONDecodeError e then Ok acc else Raise e
  end.

Fixpoint read_lines (start_dt end_dt : option datetime)
         (acc : list datetime * Z) (lines : list string)
  : result (list datetime * Z) :=
  match lines with
  | [] => Ok acc
  | line :: rest =>
      acc' <- read_line start_dt end_dt acc line ;;
      read_lines start_dt end_dt acc' rest
  end.

(** The line printed at line 43. *)
Definition reading_line (file_path : string) : string :=
  ("📖 Reading session file: " ++ path_name file_path)%string.

(** Lines 34-114.  The first component is what the function prints. *)
Definition analyze_session_file (file_path : string)
           (start_time end_time : option string)
  : list string * result analysis :=
  match (start_dt <- parse_bound start_time ;;
         end_dt <- parse_bound end_time ;;
         Ok (start_dt, end_dt)) with
  | Raise e => ([], Raise e)
  | Ok (start_dt, end_dt) =>
      ([reading_line file_path],
       content <- open_text file_path ;;
       acc <- read_lines start_dt end_dt ([], 0) (readlines content) ;;
       analyze_timestamps (fst acc) (snd acc))
  end.

(** Line 118. *)
Definition session_dir_of (project_path : string) : string :=
  (home ++ "/.claude/projects/-" ++ replace "/" "-" project_path)%string.

(** Lines 136-140: the last line of the trailing 1000 characters.
    Offsets count characters, which are bytes for ASCII logs. *)
Definition read_last_line (content first_line : string) : string :=
  let file_size := Z.of_nat (String.length content) in
  let lines :=
    readlines (seek (Z.to_nat (Z.max 0 (file_size - 1000))) content) in
  match lines with
  | [] => first_line
  | _ :: _ => strip (last lines EmptyString)
  end.

(** The body of the [try] of lines 127-146 for one candidate: [true]
    when the function returns this file. *)
Definition try_session_file (start_dt : datetime) (session_file : string)
  : result bool :=
  content <- open_text session_file ;;
  let first_line := strip (readline content) in
  if truthy first_line then
    first_entry <- json_loads first_line ;;
    v <- getitem first_entry "timestamp" ;;
    first_ts <- parse_timestamp v ;;
    let last_line := read_last_line content first_line in
    last_entry <- json_loads last_line ;;
    v' <- getitem last_entry "timestamp" ;;
    last_ts <- parse_timestamp v' ;;
    lower <- dt_le first_ts start_dt ;;
    if lower then dt_le start_dt last_ts else Ok false
  else Ok false.

(** The loop of lines 126-150: [except (json.JSONDecodeError, KeyError):
    continue]. *)
Fixpoint search_session_files (start_dt : datetime) (start_time : string)
         (session_files : list string) : result string :=
  match session_files with
  | [] =>
      Raise (FileNotFoundError
               ("No session file found containing timestamp " ++ start_time)%string)
  | session_file :: rest =>
      match try_session_file start_dt session_file with
      | Ok true => Ok session_file
      | Ok false => search_session_files start_dt start_time rest
      | Raise e =>
          if is_JSONDecodeError e || is_KeyError e
          then search_session_files start_dt start_time rest
          else Raise e
      end
  end.

(** Lines 116-150. *)
Definition find_session_file (project_path start_time : string)
  : result string :=
  let session_dir := session_dir_of project_path in
  if negb (dir_exists session_dir) then
    Raise (FileNotFoundError
             ("Session directory not found: " ++ session_dir)%string)
  else
    start_dt <- parse_timestamp (JStr start_time) ;;
    search_session_files start_dt start_time (glob_jsonl session_dir).

(** The parsed command line (lines 206-212); [--start] is required. *)
Record Args : Type := mk_args {
  arg_start : string;
  arg_end : option string;
  arg_session_file : option string;
  arg_project_path : string
}.

Definition error_line (msg : string) : string :=
  ("❌ Error: " ++ msg)%string.

(** The line printed at line 220. *)
Definition analyzing_line (session_file : string) : string :=
  ("🔍 Analyzing session: " ++ session_file)%string.

(** Lines 215-218 of [main]: the file to analyse. *)
Definition locate_session_file (args : Args) : result string :=
  match arg_session_file args with
  | Some p =>
      if truthy p then Ok p
      else find_session_file (resolve (arg_project_path args)) (arg_start args)
  | None => find_session_file (resolve (arg_project_path args)) (arg_start args)
  end.

(** Lines 205-232: the printed lines and the exit status. *)
Definition main (args : Args) : list string * Z :=
  match locate_session_file args with
  | Raise e => ([error_line (str_exn e)], 1)
  | Ok session_file =>
      let out := [analyzing_line session_file] in
      let '(printed, r) :=
        analyze_session_file session_file (Some (arg_start args)) (arg_end args) in
      match r with
      | Raise e => (out ++ printed ++ [error_line (str_exn e)], 1)
      | Ok (AnalysisError error) => (out ++ printed ++ [error_line error], 1)
      | Ok (Analysis m) => (out ++ printed ++ print_analysis_report m, 0)
      end
  end.
End Script.

(** ** Vocabulary of the specification *)

(** Instants that can be ordered and subtracted: all naive or all aware. *)
Definition comparable (ts : list datetime) : Prop :=
  forall a b, In a ts -> In b ts -> aware a = aware b.

(** Non-decreasing in source order, with Python's [<=]. *)
Fixpoint non_decreasing (ts : list datetime) : Prop :=
  match ts with
  | [] => True
  | a :: rest =>
      match rest with
      | [] => True
      | b :: _ => dt_le a b = Ok true /\ non_decreasing rest
      end
  end.

(** What a bound lets through. *)
Definition passes_start (start_dt : option datetime) (t : datetime) : Prop :=
  forall s, start_dt = Some s -> dt_le s t = Ok true.

Definition passes_end (end_dt : option datetime) (t : datetime) : Prop :=
  forall e, end_dt = Some e -> dt_le t e = Ok true.

(** The distinct values of a list in order of first occurrence. *)
Fixpoint first_seen (l : list Z) : list Z :=
  match l with
  | [] => []
  | x :: l' => x :: filter (fun y => negb (y =? x)) (first_seen l')
  end.

(** [h] is not among [keys]. *)
Definition absent_from (keys : list Z) (h : Z) : bool :=
  negb (existsb (Z.eqb h) keys).

(** Number of timestamps whose hour is [h]. *)
Definition events_in_hour (h : Z) (ts : list datetime) : Z :=
  Z.of_nat (length (filter (fun t => hour t =? h) ts)).

Definition sum_counts (d : dict) : Z :=
  fold_right (fun kv acc => snd kv + acc) 0 d.

(** Two list positions hold pairs that no key comparison separates. *)
Definition same_count (c : Z) (p : Z * Z) : bool := snd p =? c.

(** Spec wording of [peak_hours] (section 4.3): the stable descending sort
    applied to the ascending-hour [hourly_activity] mapping, so that equal
    counts come out by ascending hour. *)
Definition peak_hours_by_ascending_hour (timestamps : list datetime)
  : list (Z * Z) :=
  firstn 3 (sorted count_lt true (hourly_activity_of timestamps)).

(** ** A concrete runtime for examples

    A decoder for records with the single field [timestamp] and for [{}],
    a parser for [YYYY-MM-DDTHH:MM:SS] with an optional [+HH:MM] offset, and
    a two-file directory. *)

Definition dquote : string := String (ascii_of_nat 34) EmptyString.

Definition record_line (ts : string) : string :=
  ("{" ++ dquote ++ "timestamp" ++ dquote ++ ":" ++ dquote ++ ts ++ dquote ++ "}")%string.

Definition record_prefix : string :=
  ("{" ++ dquote ++ "timestamp" ++ dquote ++ ":" ++ dquote)%string.

Definition record_suffix : string := (dquote ++ "}")%string.

Definition sample_json_loads (s : string) : result json :=
  if String.eqb s "{}" then Ok (JDict [])
  else
    let n := String.length s in
    let p := String.length record_prefix in
    let q := String.length record_suffix in
    if Nat.leb (p + q) n
       && String.eqb (substring 0 p s) record_prefix
       && String.eqb (substring (n - q) q s) record_suffix
    then Ok (JDict [("timestamp", JStr (substring p (n - p - q) s))])
    else Raise (JSONDecodeError "Expecting value").

Definition digit_value (c : ascii) : option Z :=
  let n := nat_of_ascii c in
  if Nat.leb 48 n && Nat.leb n 57 then Some (Z.of_nat (n - 48)) else None.

Fixpoint digits_value (acc : Z) (s : string) : option Z :=
  match s with
  | EmptyString => Some acc
  | String c s' =>
      match digit_value c with
      | Some d => digits_value (acc * 10 + d) s'
      | None => None
      end
  end.

Definition digits_at (s : string) (pos len : nat) : option Z :=
  if Nat.eqb (String.length (substring pos len s)) len
  then digits_value 0 (substring pos len s) else None.

Definition sample_offset (s : string) : option (option Z) :=
  let n := String.length s in
  if Nat.eqb n 19 then Some None
  else if Nat.eqb n 25 && String.eqb (substring 22 1 s) ":" then
    match digits_at s 20 2, digits_at s 23 2 with
    | Some h, Some m =>
        let off := (h * 3600 + m * 60) * 1000000 in
        if String.eqb (substring 19 1 s) "+" then Some (Some off)
        else if String.eqb (substring 19 1 s) "-" then Some (Some (- off))
        else None
    | _, _ => None
    end
  else None.

Definition sample_fromisoformat (s : string) : result datetime :=
  let bad := Raise (ValueError ("Invalid isoformat string: '" ++ s ++ "'")%string) in
  match digits_at s 0 4, digits_at s 5 2, digits_at s 8 2,
        digits_at s 11 2, digits_at s 14 2, digits_at s 17 2, sample_offset s with
  | Some y, Some mo, Some d, Some h, Some mi, Some sec, Some tz =>
      if String.eqb (substring 4 1 s) "-" && String.eqb (substring 7 1 s) "-"
         && String.eqb (substring 10 1 s) "T"
         && String.eqb (substring 13 1 s) ":" && String.eqb (substring 16 1 s) ":"
         && (1 <=? mo) && (mo <=? 12) && (1 <=? d) && (d <=? days_in_month y mo)
         && (h <=? 23) && (mi <=? 59) && (sec <=? 59)
      then Ok (mk_datetime y mo d h mi sec 0 tz)
      else bad
  | _, _, _, _, _, _, _ => bad
  end.

Definition text_of_lines (lines : list string) : string :=
  fold_right (fun l acc => (l ++ String newline acc)%string) EmptyString lines.

(** A log with an unparseable timestamp on its second line. *)
Definition sample_bad_log : string :=
  text_of_lines [record_line "2024-01-01T10:00:00Z";
                 record_line "not-a-date";
                 record_line "2024-01-01T10:05:00Z"].

Definition sample_good_log : string :=
  text_of_lines [record_line "2024-01-01T10:00:00Z";
                 "not json at all";
                 record_line "2024-01-01T10:02:00Z";
                 record_line "2024-01-01T10:40:00Z"].

(** A log whose first timestamp is naive and whose second is in UTC. *)
Definition sample_mixed_log : string :=
  text_of_lines [record_line "2024-01-01T10:00:00";
                 record_line "2024-01-01T10:05:00Z"].

Definition sample_files : list (string * string) :=
  [("/logs/bad.jsonl", sample_bad_log);
   ("/logs/good.jsonl", sample_good_log);
   ("/logs/mixed.jsonl", sample_mixed_log);
   ("/home/u/.claude/projects/--work-app/a.jsonl",
     text_of_lines [record_line "not-a-date"]);
   ("/home/u/.claude/projects/--work-app/b.jsonl", sample_good_log);
   ("/home/u/.claude/projects/--work-lib/a.jsonl",
     text_of_lines ["not json at all"]);
   ("/home/u/.claude/projects/--work-lib/b.jsonl", text_of_lines ["{}"]);
   ("/home/u/.claude/projects/--work-lib/c.jsonl", sample_good_log)].

Definition sample_open_text (path : string) : result string :=
  match find (fun kv => String.eqb (fst kv) path) sample_files with
  | Some kv => Ok (snd kv)
  | None => Raise (FileNotFoundError ("No such file or directory: " ++ path)%string)
  end.

Definition sample_glob (dir : string) : list string :=
  map fst (filter (fun kv =>
                     String.eqb (substring 0 (String.length dir + 1) (fst kv))
                                (dir ++ "/")%string)
                  sample_files).

Definition sample_runtime : Runtime := {|
  json_loads := sample_json_loads;
  fromisoformat := sample_fromisoformat;
  open_text := sample_open_text;
  home := "/home/u";
  resolve := fun p => p;
  dir_exists := fun d => match sample_glob d with [] => false | _ :: _ => true end;
  glob_jsonl := sample_glob;
  print_analysis_report := fun _ => ["(report)"]
|}.

Definition sample_args (start_time session_file : string) : Args :=
  mk_args start_time None (Some session_file) ".".

Definition with_newline (s : string) : string := (s ++ String newline "")%string.

(** Instants of 2024 in UTC, and a naive one. *)
Definition utc (mo d h mi s : Z) : datetime :=
  mk_datetime 2024 mo d h mi s 0 (Some 0).

Definition naive (mo d h mi s : Z) : datetime :=
  mk_datetime 2024 mo d h mi s 0 None.

(** The gaps as exact differences of instants, for sequences on which
    subtraction is defined. *)
Fixpoint gaps_of (ts : list datetime) : list Q :=
  match ts with
  | [] => []
  | a :: rest =>
      match rest with
      | [] => []
      | b :: _ => (total_seconds (instant_us b - instant_us a) / 60)%Q :: gaps_of rest
      end
  end.

(** Spec wording of the activity percentage property (section 8): with no
    idle time the percentage is 100. *)
Definition full_activity_when_no_idle : Prop :=
  forall ts n m,
    ts <> [] -> non_decreasing ts ->
    analyze_timestamps ts n = Ok (Analysis m) ->
    (total_idle_time_hours m == 0)%Q ->
    (activity_percentage m == 100)%Q.

(** Spec wording of the rate guards (section 4.3): zero when the duration
    is zero, the quotient otherwise. *)
Definition rates_guarded_at_zero_only : Prop :=
  forall ts n m,
    ts <> [] ->
    analyze_timestamps ts n = Ok (Analysis m) ->
    ((total_duration_hours m == 0)%Q ->
       events_per_hour m = 0%Q /\ events_per_minute m = 0%Q) /\
    (~ (total_duration_hours m == 0)%Q ->
       (events_per_hour m == inject_Z n / total_duration_hours m)%Q /\
       (events_per_minute m == inject_Z n / (total_duration_hours m * 60))%Q).

(** Spec wording of the tie rule of [peak_hours] (section 4.3). *)
Definition peak_ties_by_ascending_hour : Prop :=
  forall ts n m,
    ts <> [] ->
    analyze_timestamps ts n = Ok (Analysis m) ->
    peak_hours m = peak_hours_by_ascending_hour ts.


(** [t] lies in the closed window of the bounds that are supplied. *)
Definition in_window (start_dt end_dt : option datetime) (t : datetime) : bool :=
  (match start_dt with
   | Some s => instant_us s <=? instant_us t
   | None => true
   end)
  && (match end_dt with
      | Some e => instant_us t <=? instant_us e
      | None => true
      end).

(** [t] can be compared with the bound, when there is one. *)
Definition same_kind (bound : option datetime) (t : datetime) : Prop :=
  match bound with
  | Some b => aware b = aware t
  | None => True
  end.

(** A line the read loop passes over: text that is not JSON, or a JSON
    object without a [timestamp] key. *)
Definition passed_over {R : Runtime} (line : string) : Prop :=
  (exists msg, json_loads (strip line) = Raise (JSONDecodeError msg)) \/
  (exists d, json_loads (strip line) = Ok (JDict d) /\
             existsb (fun kv => String.eqb (fst kv) "timestamp") d = false).

(** A second runtime for examples, whose decoder also reads unsigned
    integer literals. *)
Definition sample_json_loads_int (s : string) : result json :=
  match s with
  | EmptyString => sample_json_loads s
  | String _ _ =>
      match digits_value 0 s with
      | Some n => Ok (JInt n)
      | None => sample_json_loads s
      end
  end.

Definition sample_runtime_int : Runtime := {|
  json_loads := sample_json_loads_int;
  fromisoformat := sample_fromisoformat;
  open_text := sample_open_text;
  home := "/home/u";
  resolve := fun p => p;
  dir_exists := fun d => match sample_glob d with [] => false | _ :: _ => true end;
  glob_jsonl := sample_glob;
  print_analysis_report := fun _ => ["(report)"]
|}.

(** ** [format_duration] (lines 19-24) *)

Local Open Scope Q_scope.

(** [a // b] and [a % b] on floats, for a positive constant [b]: the
    quotient is rounded down and the remainder has the sign of [b].  Both
    are computed without rounding here.  CPython obtains them from the
    exact [fmod]; when [a] is negative and not a multiple of [b] it then
    adds [b] to the remainder, and that sum is rounded. *)
Definition py_floordiv (a b : Q) : Q := inject_Z (Qfloor (a / b)).
Definition py_mod (a b : Q) : Q := a - b * inject_Z (Qfloor (a / b)).

(** [int(x)]: truncation towards zero. *)
Definition py_int (x : Q) : Z := if Qle_bool 0 x then Qfloor x else Qceiling x.

(** [str(n)] for an [int], as an f-string renders it. *)
Definition str_int (n : Z) : string := NilZero.string_of_int (Z.to_int n).

(** Lines 21-23. *)
Definition duration_parts (seconds : Q) : Z * Z * Z :=
  let hours := py_int (py_floordiv seconds 3600) in
  let minutes := py_int (py_floordiv (py_mod seconds 3600) 60) in
  let secs := py_int (py_mod seconds 60) in
  (hours, minutes, secs).

Definition format_duration (seconds : Q) : string :=
  let '(hours, minutes, secs) := duration_parts seconds in
  (str_int hours ++ "h " ++ str_int minutes ++ "m " ++ str_int secs ++ "s")%string.

(** The durations on which the floor division and the remainder of
    binary floats involve no rounding, so that [duration_parts] computes
    what the script computes: magnitudes below [2^53] that are non-negative
    or a whole number of seconds. *)
Definition exact_duration (seconds : Q) : Prop :=
  (- inject_Z (2 ^ 53) < seconds /\ seconds < inject_Z (2 ^ 53)) /\
  (0 <= seconds \/ exists z : Z, seconds == inject_Z z).

(** ** The computations of [print_analysis_report] (lines 152-203)

    The renderer itself formats floats and is a field of [Runtime]; the
    numbers it derives from the metrics are modelled here. *)

(** [min(a, b)]: the first argument unless the second is smaller. *)
Definition py_min (a b : Q) : Q := if Qltb b a then b else a.

(** Lines 187-189. *)
Definition efficiency_score (analysis : SessionMetrics) : Q :=
  py_min 100 ((events_per_hour analysis / 400) * 100).

Definition endurance_score (analysis : SessionMetrics) : Q :=
  py_min 100 (activity_percentage analysis).

Definition overall_score (analysis : SessionMetrics) : Q :=
  (efficiency_score analysis + endurance_score analysis) / 2.

(** Lines 196-203: the line printed for an overall score. *)
Definition verdict (overall_score : Q) : string :=
  if Qle_bool 90 overall_score then "   🌟 EXCEPTIONAL PERFORMANCE!"
  else if Qle_bool 80 overall_score then "   🚀 EXCELLENT WORK!"
  else if Qle_bool 70 overall_score then "   ✅ SOLID PRODUCTIVITY"
  else "   📈 ROOM FOR IMPROVEMENT".

(** Line 184: [events/analysis['total_events']*100] for one peak hour. *)
Definition peak_hour_share (analysis : SessionMetrics) (entry : Z * Z)
  : result Q :=
  q <- py_div (inject_Z (snd entry)) (inject_Z (total_events analysis)) ;;
  Ok (q * 100).

(** Lines 183-184: the shares the loop over [peak_hours] prints. *)
Fixpoint peak_hour_shares (analysis : SessionMetrics) (entries : list (Z * Z))
  : result (list Q) :=
  match entries with
  | [] => Ok []
  | entry :: rest =>
      share <- peak_hour_share analysis entry ;;
      shares <- peak_hour_shares analysis rest ;;
      Ok (share :: shares)
  end.

Local Open Scope Z_scope.

(** * Proofs *)

(** ** Fallible computations *)

Lemma bind_Ok {A B : Type} (c : result A) (k : A -> result B) (b : B) :
  bind c k = Ok b -> exists a, c = Ok a /\ k a = Ok b.
Proof.
  destruct c as [a|e]; simpl; intros H; [eauto | discriminate].
Qed.

Lemma bind_Raise {A B : Type} (c : result A) (k : A -> result B) (e : exn) :
  bind c k = Raise e -> c = Raise e \/ exists a, c = Ok a /\ k a = Raise e.
Proof.
  destruct c as [a|e0]; simpl; intros H; [right; eauto | left; congruence].
Qed.

(** ** Comparisons on rationals *)

Local Open Scope Q_scope.

Lemma Qltb_true (x y : Q) : Qltb x y = true <-> x < y.
Proof.
  unfold Qltb. rewrite negb_true_iff. split; intros H.
  - apply Qnot_le_lt. intros Hle. apply Qle_bool_iff in Hle. congruence.
  - destruct (Qle_bool y x) eqn:E; [|reflexivity].
    apply Qle_bool_iff in E. exfalso. apply (Qlt_not_le _ _ H E).
Qed.

Lemma Qltb_false (x y : Q) : Qltb x y = false <-> y <= x.
Proof.
  unfold Qltb. rewrite negb_false_iff. apply Qle_bool_iff.
Qed.

Lemma Qgeb_true (x y : Q) : Qgeb x y = true <-> y <= x.
Proof. unfold Qgeb. apply Qle_bool_iff. Qed.

Lemma is_short_iff (g : Q) : is_short g = true <-> g < 5.
Proof. apply Qltb_true. Qed.

Lemma is_moderate_iff (g : Q) : is_moderate g = true <-> 5 <= g /\ g < 30.
Proof.
  unfold is_moderate. rewrite andb_true_iff, Qle_bool_iff, Qltb_true. tauto.
Qed.

Lemma is_long_iff (g : Q) : is_long g = true <-> 30 <= g.
Proof. apply Qgeb_true. Qed.

Ltac bucket_bool :=
  repeat match goal with
  | |- _ /\ _ => split
  | |- is_short _ = true => apply is_short_iff; lra
  | |- is_moderate _ = true => apply is_moderate_iff; lra
  | |- is_long _ = true => apply is_long_iff; lra
  | |- is_short ?g = false =>
      let E := fresh in
      destruct (is_short g) eqn:E; [apply is_short_iff in E; lra | reflexivity]
  | |- is_moderate ?g = false =>
      let E := fresh in
      destruct (is_moderate g) eqn:E; [apply is_moderate_iff in E; lra | reflexivity]
  | |- is_long ?g = false =>
      let E := fresh in
      destruct (is_long g) eqn:E; [apply is_long_iff in E; lra | reflexivity]
  end.

(** Every gap lands in exactly one bucket. *)
Lemma bucket_cases (g : Q) :
  (is_short g = true /\ is_moderate g = false /\ is_long g = false) \/
  (is_short g = false /\ is_moderate g = true /\ is_long g = false) \/
  (is_short g = false /\ is_moderate g = false /\ is_long g = true).
Proof.
  destruct (Qlt_le_dec g 5) as [H5|H5]; [left; bucket_bool|].
  destruct (Qlt_le_dec g 30) as [H30|H30]; [right; left | right; right];
    bucket_bool.
Qed.

Lemma bucket_lengths (gaps : list Q) :
  (length (filter is_short gaps) + length (filter is_moderate gaps)
   + length (filter is_long gaps) = length gaps)%nat.
Proof.
  induction gaps as [|g gaps IH]; simpl; [reflexivity|].
  destruct (bucket_cases g) as [(Hs & Hm & Hl)|[(Hs & Hm & Hl)|(Hs & Hm & Hl)]];
    rewrite Hs, Hm, Hl; simpl; lia.
Qed.

(** ** Datetimes *)

Lemma dt_sub_same_kind (a b : datetime) :
  aware a = aware b -> dt_sub a b = Ok (instant_us a - instant_us b)%Z.
Proof.
  intros H. unfold dt_sub. rewrite H, eqb_reflx. reflexivity.
Qed.

Lemma dt_sub_mixed (a b : datetime) :
  aware a <> aware b -> exists msg, dt_sub a b = Raise (TypeError msg).
Proof.
  intros H. unfold dt_sub. destruct (Bool.eqb (aware a) (aware b)) eqn:E.
  - apply eqb_prop in E. contradiction.
  - eauto.
Qed.

Lemma dt_cmp_Ok (op : Z -> Z -> bool) (a b : datetime) (r : bool) :
  dt_cmp op a b = Ok r <->
  aware a = aware b /\ op (instant_us a) (instant_us b) = r.
Proof.
  unfold dt_cmp. destruct (Bool.eqb (aware a) (aware b)) eqn:E.
  - apply eqb_prop in E. split.
    + intros H. injection H as H. auto.
    + intros [_ H]. now rewrite H.
  - split; [discriminate|]. intros [H _]. rewrite H, eqb_reflx in E. discriminate.
Qed.

Lemma dt_le_true (a b : datetime) :
  dt_le a b = Ok true <-> aware a = aware b /\ (instant_us a <= instant_us b)%Z.
Proof. unfold dt_le. rewrite dt_cmp_Ok, Z.leb_le. reflexivity. Qed.

Lemma dt_lt_true (a b : datetime) :
  dt_lt a b = Ok true <-> aware a = aware b /\ (instant_us a < instant_us b)%Z.
Proof. unfold dt_lt. rewrite dt_cmp_Ok, Z.ltb_lt. reflexivity. Qed.

Lemma dt_gt_true (a b : datetime) :
  dt_gt a b = Ok true <-> aware a = aware b /\ (instant_us b < instant_us a)%Z.
Proof. unfold dt_gt. rewrite dt_cmp_Ok, Z.gtb_ltb, Z.ltb_lt. reflexivity. Qed.

Lemma dt_lt_false (a b : datetime) :
  dt_lt a b = Ok false <-> aware a = aware b /\ (instant_us b <= instant_us a)%Z.
Proof. unfold dt_lt. rewrite dt_cmp_Ok, Z.ltb_ge. reflexivity. Qed.

Lemma dt_gt_false (a b : datetime) :
  dt_gt a b = Ok false <-> aware a = aware b /\ (instant_us a <= instant_us b)%Z.
Proof. unfold dt_gt. rewrite dt_cmp_Ok, Z.gtb_ltb, Z.ltb_ge. reflexivity. Qed.


Lemma comparable_nil : comparable [].
Proof. intros a b []. Qed.

Lemma comparable_tail (a : datetime) (ts : list datetime) :
  comparable (a :: ts) -> comparable ts.
Proof. intros H x y Hx Hy. apply H; now right. Qed.

Lemma comparable_cons (a : datetime) (ts : list datetime) :
  (forall x, In x ts -> aware x = aware a) -> comparable (a :: ts).
Proof.
  intros H x y [<-|Hx] [<-|Hy]; auto.
  - symmetry. auto.
  - rewrite (H x Hx), (H y Hy). reflexivity.
Qed.

Lemma comparable_app_one (ts : list datetime) (t : datetime) :
  comparable ts -> (forall x, In x ts -> aware x = aware t) ->
  comparable (ts ++ [t]).
Proof.
  intros Hc Ht x y Hx Hy. apply in_app_iff in Hx, Hy.
  destruct Hx as [Hx|[<-|[]]], Hy as [Hy|[<-|[]]]; auto.
  symmetry. auto.
Qed.

Lemma non_decreasing_head (a : datetime) (ts : list datetime) :
  non_decreasing (a :: ts) ->
  forall x, In x ts -> aware x = aware a /\ (instant_us a <= instant_us x)%Z.
Proof.
  revert a. induction ts as [|b ts IH]; intros a Hnd x Hx; [destruct Hx|].
  destruct Hnd as [Hab Hnd]. apply dt_le_true in Hab. destruct Hab as [Hk Hle].
  destruct Hx as [<-|Hx]; [auto|].
  destruct (IH b Hnd x Hx) as [Hk' Hle']. split; [congruence | lia].
Qed.

Lemma non_decreasing_tail (a : datetime) (ts : list datetime) :
  non_decreasing (a :: ts) -> non_decreasing ts.
Proof. destruct ts as [|b ts]; simpl; tauto. Qed.

Lemma non_decreasing_comparable (ts : list datetime) :
  non_decreasing ts -> comparable ts.
Proof.
  destruct ts as [|a ts]; intros H; [apply comparable_nil|].
  apply comparable_cons. intros x Hx. now apply (non_decreasing_head a ts H).
Qed.

Lemma last_In {A : Type} (l : list A) (d : A) : l <> [] -> In (last l d) l.
Proof.
  induction l as [|x l IH]; [congruence|]. intros _.
  destruct l as [|y l]; [now left|]. right. apply IH. discriminate.
Qed.

Lemma last_default {A : Type} (l : list A) (d d' : A) :
  l <> [] -> last l d = last l d'.
Proof.
  induction l as [|x l IH]; [congruence|]. intros _.
  destruct l as [|y l]; [reflexivity|].
  change (last (y :: l) d = last (y :: l) d'). apply IH. discriminate.
Qed.

(** ** The gap calculator *)

Lemma calculate_gaps_comparable (ts : list datetime) :
  comparable ts -> calculate_gaps ts = Ok (gaps_of ts).
Proof.
  induction ts as [|a ts IH]; intros Hc; [reflexivity|].
  destruct ts as [|b ts]; [reflexivity|].
  change (calculate_gaps (a :: b :: ts)) with
    (bind (dt_sub b a) (fun td =>
       bind (calculate_gaps (b :: ts)) (fun gaps =>
         Ok ((total_seconds td / 60) :: gaps)))).
  rewrite dt_sub_same_kind by (apply Hc; simpl; auto).
  cbv beta iota delta [bind]. rewrite IH by (eapply comparable_tail; eauto).
  reflexivity.
Qed.

Lemma gaps_of_length (ts : list datetime) :
  length (gaps_of ts) = (length ts - 1)%nat.
Proof.
  induction ts as [|a ts IH]; [reflexivity|].
  destruct ts as [|b ts]; [reflexivity|].
  change (gaps_of (a :: b :: ts))
    with ((total_seconds (instant_us b - instant_us a) / 60) :: gaps_of (b :: ts)).
  simpl length in *. rewrite IH. lia.
Qed.

Lemma gaps_of_nth (ts : list datetime) (i : nat) (a b : datetime) :
  nth_error ts i = Some a -> nth_error ts (S i) = Some b ->
  nth_error (gaps_of ts) i = Some (total_seconds (instant_us b - instant_us a) / 60).
Proof.
  revert i. induction ts as [|x ts IH]; intros i Ha Hb; [destruct i; discriminate|].
  destruct ts as [|y ts]; [destruct i; simpl in Hb; [discriminate|destruct i; discriminate]|].
  change (gaps_of (x :: y :: ts))
    with ((total_seconds (instant_us y - instant_us x) / 60) :: gaps_of (y :: ts)).
  destruct i as [|i].
  - simpl in Ha, Hb. injection Ha as <-. injection Hb as <-. reflexivity.
  - simpl nth_error. apply IH; assumption.
Qed.

Lemma total_seconds_plus (x y : Z) :
  total_seconds (x + y) == total_seconds x + total_seconds y.
Proof. unfold total_seconds, Qeq, Qplus. simpl. lia. Qed.

Lemma total_seconds_nonneg (x : Z) : (0 <= x)%Z -> 0 <= total_seconds x / 60.
Proof.
  intros H. unfold total_seconds, Qdiv, Qle, Qmult, Qinv. simpl. lia.
Qed.

Lemma total_seconds_ge0 (x : Z) : (0 <= x)%Z -> 0 <= total_seconds x.
Proof. intros H. unfold total_seconds, Qle. simpl. lia. Qed.

Lemma total_seconds_pos (x : Z) : 0 < total_seconds x <-> (0 < x)%Z.
Proof. unfold total_seconds, Qlt. simpl. lia. Qed.

Lemma total_seconds_zero (x : Z) : total_seconds x == 0 <-> x = 0%Z.
Proof. unfold total_seconds, Qeq. simpl. lia. Qed.

Lemma fold_left_Qplus (xs : list Q) (a : Q) :
  fold_left Qplus xs a == a + fold_right Qplus 0 xs.
Proof.
  revert a. induction xs as [|x xs IH]; intros a; simpl.
  - ring.
  - rewrite IH. ring.
Qed.

Lemma py_sum_cons (x : Q) (xs : list Q) : py_sum (x :: xs) == x + py_sum xs.
Proof.
  unfold py_sum. simpl. rewrite !fold_left_Qplus. ring.
Qed.

Lemma gaps_of_sum (a : datetime) (ts : list datetime) :
  py_sum (gaps_of (a :: ts)) ==
  total_seconds (instant_us (last (a :: ts) a) - instant_us a) / 60.
Proof.
  revert a. induction ts as [|b ts IH]; intros a.
  - simpl. rewrite Z.sub_diag. reflexivity.
  - change (gaps_of (a :: b :: ts))
      with ((total_seconds (instant_us b - instant_us a) / 60) :: gaps_of (b :: ts)).
    rewrite py_sum_cons, IH.
    replace (last (a :: b :: ts) a) with (last (b :: ts) b).
    + set (l := instant_us (last (b :: ts) b)).
      replace (l - instant_us a)%Z
        with ((instant_us b - instant_us a) + (l - instant_us b))%Z by lia.
      rewrite total_seconds_plus. field.
    + change (last (a :: b :: ts) a) with (last (b :: ts) a).
      apply last_default. discriminate.
Qed.

Lemma gaps_of_nonneg (ts : list datetime) :
  non_decreasing ts -> Forall (fun g => 0 <= g) (gaps_of ts).
Proof.
  induction ts as [|a ts IH]; intros Hnd; [constructor|].
  destruct ts as [|b ts]; [constructor|].
  change (gaps_of (a :: b :: ts))
    with ((total_seconds (instant_us b - instant_us a) / 60) :: gaps_of (b :: ts)).
  constructor.
  - apply total_seconds_nonneg.
    destruct (non_decreasing_head a (b :: ts) Hnd b (or_introl eq_refl)). lia.
  - apply IH. eapply non_decreasing_tail; eauto.
Qed.

(** ** The metrics engine on comparable instants *)

Lemma py_div_nonzero (a b : Q) : ~ b == 0 -> py_div a b = Ok (a / b).
Proof.
  intros H. unfold py_div. destruct (Qeq_bool b 0) eqn:E; [|reflexivity].
  apply Qeq_bool_iff in E. contradiction.
Qed.

Lemma py_div_Ok (a b q : Q) : py_div a b = Ok q -> ~ b == 0 /\ q = a / b.
Proof.
  unfold py_div. destruct (Qeq_bool b 0) eqn:E; [discriminate|].
  intros H. injection H as <-. split; [|reflexivity].
  intros Hb. apply Qeq_bool_iff in Hb. congruence.
Qed.

Lemma mean_cons (x : Q) (xs : list Q) :
  mean (x :: xs) = Ok (py_sum (x :: xs) / inject_Z (Z.of_nat (length (x :: xs)))).
Proof.
  unfold mean. apply py_div_nonzero.
  unfold Qeq, inject_Z. simpl. lia.
Qed.

Lemma dt_sub_Raise (a b : datetime) (e : exn) :
  dt_sub a b = Raise e -> is_TypeError e = true.
Proof.
  unfold dt_sub. destruct (Bool.eqb (aware a) (aware b)); [discriminate|].
  intros H. injection H as <-. reflexivity.
Qed.

Lemma calculate_gaps_Raise (ts : list datetime) (e : exn) :
  calculate_gaps ts = Raise e -> is_TypeError e = true.
Proof.
  induction ts as [|a ts IH]; [discriminate|].
  destruct ts as [|b ts]; [discriminate|].
  change (calculate_gaps (a :: b :: ts)) with
    (bind (dt_sub b a) (fun td =>
       bind (calculate_gaps (b :: ts)) (fun gaps =>
         Ok ((total_seconds td / 60) :: gaps)))).
  intros H. apply bind_Raise in H. destruct H as [H|(td & _ & H)].
  - eapply dt_sub_Raise; eauto.
  - apply bind_Raise in H. destruct H as [H|(gaps & _ & H)]; [auto|discriminate].
Qed.

(** Once the two subtractions of lines 69 and 72 have succeeded, the rest
    of the function runs to the end: every division is guarded. *)
Lemma analyze_timestamps_Ok (a : datetime) (rest : list datetime) (n td : Z)
      (gaps : list Q) :
  dt_sub (last (a :: rest) a) a = Ok td ->
  calculate_gaps (a :: rest) = Ok gaps ->
  exists m,
    analyze_timestamps (a :: rest) n = Ok (Analysis m) /\
    let ts := a :: rest in
    let d := total_seconds td in
    let idle := py_sum (filter is_long gaps) in
    let active := d / 60 - idle in
    session_start m = a /\ session_end m = last ts a /\
    total_duration_hours m = d / 3600 /\ total_events m = n /\
    events_per_hour m = (if Qltb 0 d then inject_Z n / (d / 3600) else 0) /\
    events_per_minute m = (if Qltb 0 d then inject_Z n / (d / 60) else 0) /\
    active_events_per_minute m =
      (if Qltb 0 active then inject_Z n / active else 0) /\
    total_active_time_hours m = active / 60 /\
    total_idle_time_hours m = idle / 60 /\
    activity_percentage m = (if Qltb 0 d then active / (d / 60) * 100 else 0) /\
    short_gaps (gap_analysis m) = Z.of_nat (length (filter is_short gaps)) /\
    moderate_gaps (gap_analysis m) = Z.of_nat (length (filter is_moderate gaps)) /\
    long_gaps (gap_analysis m) = Z.of_nat (length (filter is_long gaps)) /\
    hourly_activity m = hourly_activity_of ts /\
    peak_hours m = peak_hours_of ts.
Proof.
  intros Hsub Hgaps.
  unfold analyze_timestamps.
  rewrite Hsub, Hgaps.
  cbv beta iota delta [bind].
  set (d := total_seconds td).
  set (active := d / 60 - py_sum (filter is_long gaps)).
  assert (Hd : Qltb 0 d = true -> ~ d / 3600 == 0 /\ ~ d / 60 == 0).
  { intros H. apply Qltb_true in H. split; intros E.
    - assert (d == d / 3600 * 3600) by field. lra.
    - assert (d == d / 60 * 60) by field. lra. }
  assert (Ha : Qltb 0 active = true -> ~ active == 0).
  { intros H. apply Qltb_true in H. lra. }
  destruct (Qltb 0 d) eqn:Ed;
    [ destruct (Hd eq_refl) as [Hd1 Hd2];
      rewrite !(py_div_nonzero _ _ Hd1), !(py_div_nonzero _ _ Hd2) | ];
    (destruct (Qltb 0 active) eqn:Ea;
      [ rewrite (py_div_nonzero _ _ (Ha eq_refl)) | ]);
    (destruct (filter is_moderate gaps) as [|g gs] eqn:Em;
      [ | rewrite mean_cons ]);
    eexists; (split; [reflexivity|]); cbn; rewrite ?Em;
    repeat split; reflexivity.
Qed.

Lemma analyze_timestamps_comparable (a : datetime) (rest : list datetime) (n : Z) :
  comparable (a :: rest) ->
  dt_sub (last (a :: rest) a) a
    = Ok (instant_us (last (a :: rest) a) - instant_us a)%Z /\
  calculate_gaps (a :: rest) = Ok (gaps_of (a :: rest)).
Proof.
  intros Hc. split.
  - apply dt_sub_same_kind. apply Hc; [apply last_In; discriminate | now left].
  - now apply calculate_gaps_comparable.
Qed.

(** The only exception the engine can raise is the [TypeError] of mixing
    naive and aware datetimes; in particular never [ZeroDivisionError]. *)
Lemma analyze_timestamps_Raise (ts : list datetime) (n : Z) (e : exn) :
  analyze_timestamps ts n = Raise e -> is_TypeError e = true.
Proof.
  destruct ts as [|a rest]; [discriminate|]. intros H.
  destruct (dt_sub (last (a :: rest) a) a) as [td|e0] eqn:Hsub.
  - destruct (calculate_gaps (a :: rest)) as [gaps|e1] eqn:Hg.
    + destruct (analyze_timestamps_Ok a rest n td gaps Hsub Hg) as (m & Hm & _).
      congruence.
    + unfold analyze_timestamps in H. rewrite Hsub, Hg in H.
      cbv beta iota delta [bind] in H. injection H as <-.
      eapply calculate_gaps_Raise; eauto.
  - unfold analyze_timestamps in H. rewrite Hsub in H.
    cbv beta iota delta [bind] in H. injection H as <-.
    eapply dt_sub_Raise; eauto.
Qed.

(** ** Dicts *)

Local Open Scope Z_scope.

Lemma dict_get_set (d : dict) (k v k' def : Z) :
  dict_get (dict_set d k v) k' def = if k' =? k then v else dict_get d k' def.
Proof.
  induction d as [|[k0 v0] d IH]; simpl.
  - rewrite (Z.eqb_sym k k'). reflexivity.
  - destruct (k0 =? k) eqn:E0; simpl.
    + apply Z.eqb_eq in E0. subst k0.
      rewrite (Z.eqb_sym k k'). destruct (k' =? k); reflexivity.
    + destruct (k0 =? k') eqn:E1; [|exact IH].
      apply Z.eqb_eq in E1. subst k0. rewrite E0. reflexivity.
Qed.

Lemma dict_set_present (d : dict) (k v : Z) :
  In k (map fst d) -> map fst (dict_set d k v) = map fst d.
Proof.
  induction d as [|[k0 v0] d IH]; simpl; intros H; [destruct H|].
  destruct (k0 =? k) eqn:E; simpl; [reflexivity|].
  f_equal. apply IH. destruct H as [H|H]; [|exact H].
  apply Z.eqb_neq in E. contradiction.
Qed.

Lemma dict_set_absent (d : dict) (k v : Z) :
  ~ In k (map fst d) -> dict_set d k v = d ++ [(k, v)].
Proof.
  induction d as [|[k0 v0] d IH]; simpl; intros H; [reflexivity|].
  destruct (k0 =? k) eqn:E.
  - apply Z.eqb_eq in E. tauto.
  - f_equal. apply IH. tauto.
Qed.

Lemma dict_get_absent (d : dict) (k def : Z) :
  ~ In k (map fst d) -> dict_get d k def = def.
Proof.
  induction d as [|[k0 v0] d IH]; simpl; intros H; [reflexivity|].
  destruct (k0 =? k) eqn:E.
  - apply Z.eqb_eq in E. tauto.
  - apply IH. tauto.
Qed.

Lemma dict_get_present (d : dict) (k v def : Z) :
  NoDup (map fst d) -> In (k, v) d -> dict_get d k def = v.
Proof.
  induction d as [|[k0 v0] d IH]; simpl; intros Hnd Hin; [destruct Hin|].
  inversion Hnd as [|? ? Hk0 Hnd']; subst.
  destruct Hin as [Hin|Hin].
  - injection Hin as -> ->. rewrite Z.eqb_refl. reflexivity.
  - destruct (k0 =? k) eqn:E; [|now apply IH].
    apply Z.eqb_eq in E. subst k0. exfalso. apply Hk0.
    change k with (fst (k, v)). now apply in_map.
Qed.

Lemma sum_counts_app (d1 d2 : dict) :
  sum_counts (d1 ++ d2) = sum_counts d1 + sum_counts d2.
Proof.
  induction d1 as [|[k v] d1 IH]; simpl; [reflexivity|].
  unfold sum_counts in *. simpl. rewrite IH. lia.
Qed.

Lemma sum_counts_set (d : dict) (k v : Z) :
  sum_counts (dict_set d k v) = sum_counts d - dict_get d k 0 + v.
Proof.
  induction d as [|[k0 v0] d IH]; simpl.
  - unfold sum_counts. simpl. lia.
  - destruct (k0 =? k) eqn:E.
    + unfold sum_counts. simpl. lia.
    + unfold sum_counts in *. simpl. rewrite IH. lia.
Qed.

Lemma dict_set_NoDup (d : dict) (k v : Z) :
  NoDup (map fst d) -> NoDup (map fst (dict_set d k v)).
Proof.
  intros H. destruct (in_dec Z.eq_dec k (map fst d)) as [Hin|Hin].
  - now rewrite dict_set_present.
  - rewrite dict_set_absent, map_app by assumption. simpl.
    apply NoDup_app; auto.
    + constructor; [intros []|constructor].
    + intros x Hx [<-|[]]. contradiction.
Qed.

Lemma dict_of_items_from (items d : list (Z * Z)) :
  NoDup (map fst (d ++ items)) ->
  fold_left (fun d kv => dict_set d (fst kv) (snd kv)) items d = d ++ items.
Proof.
  revert d. induction items as [|[k v] items IH]; intros d Hnd; simpl.
  - now rewrite app_nil_r.
  - rewrite dict_set_absent.
    + rewrite IH; rewrite <- app_assoc; simpl; auto.
    + rewrite map_app in Hnd. simpl in Hnd.
      apply NoDup_remove_2 in Hnd. intros Hin. apply Hnd.
      apply in_or_app. now left.
Qed.

Lemma dict_of_items_NoDup (items : list (Z * Z)) :
  NoDup (map fst items) -> dict_of_items items = items.
Proof. intros H. unfold dict_of_items. now rewrite dict_of_items_from. Qed.

(** ** The hourly histogram *)

Lemma count_hours_fold (ts : list datetime) :
  count_hours ts = fold_left hour_step ts [].
Proof. reflexivity. Qed.

Lemma events_in_hour_cons (h : Z) (t : datetime) (ts : list datetime) :
  events_in_hour h (t :: ts)
  = (if hour t =? h then 1 else 0) + events_in_hour h ts.
Proof.
  unfold events_in_hour. simpl. destruct (hour t =? h); simpl length; lia.
Qed.

Lemma fold_hour_get (ts : list datetime) (d : dict) (h : Z) :
  dict_get (fold_left hour_step ts d) h 0 = dict_get d h 0 + events_in_hour h ts.
Proof.
  revert d. induction ts as [|t ts IH]; intros d; simpl.
  - unfold events_in_hour. simpl. lia.
  - rewrite IH, events_in_hour_cons. unfold hour_step. rewrite dict_get_set.
    rewrite (Z.eqb_sym h). destruct (hour t =? h) eqn:E; [|lia].
    apply Z.eqb_eq in E. subst h. lia.
Qed.

Lemma fold_hour_sum (ts : list datetime) (d : dict) :
  sum_counts (fold_left hour_step ts d) = sum_counts d + Z.of_nat (length ts).
Proof.
  revert d. induction ts as [|t ts IH]; intros d.
  - simpl. lia.
  - simpl fold_left. rewrite IH. unfold hour_step. rewrite sum_counts_set.
    simpl length. lia.
Qed.

Lemma fold_hour_NoDup (ts : list datetime) (d : dict) :
  NoDup (map fst d) -> NoDup (map fst (fold_left hour_step ts d)).
Proof.
  revert d. induction ts as [|t ts IH]; intros d H; simpl; [exact H|].
  apply IH. now apply dict_set_NoDup.
Qed.

Lemma filter_filter {A : Type} (f g : A -> bool) (l : list A) :
  filter f (filter g l) = filter (fun x => g x && f x) l.
Proof.
  induction l as [|x l IH]; simpl; [reflexivity|].
  destruct (g x); simpl; [destruct (f x)|]; rewrite IH; reflexivity.
Qed.

Lemma filter_all {A : Type} (f : A -> bool) (l : list A) :
  (forall x, In x l -> f x = true) -> filter f l = l.
Proof.
  induction l as [|x l IH]; simpl; intros H; [reflexivity|].
  rewrite (H x (or_introl eq_refl)), IH; auto.
Qed.

Lemma first_seen_In (l : list Z) (x : Z) : In x (first_seen l) <-> In x l.
Proof.
  induction l as [|y l IH]; simpl; [tauto|].
  rewrite filter_In, IH, negb_true_iff, Z.eqb_neq.
  destruct (Z.eq_dec y x); intuition congruence.
Qed.

Lemma first_seen_NoDup (l : list Z) : NoDup (first_seen l).
Proof.
  induction l as [|y l IH]; simpl; constructor.
  - rewrite filter_In, negb_true_iff, Z.eqb_neq. tauto.
  - now apply NoDup_filter.
Qed.

Lemma absent_from_iff (keys : list Z) (h : Z) :
  absent_from keys h = true <-> ~ In h keys.
Proof.
  unfold absent_from. rewrite negb_true_iff, <- not_true_iff_false, existsb_exists.
  split; intros H.
  - intros Hin. apply H. exists h. split; [exact Hin | apply Z.eqb_refl].
  - intros (x & Hx & E). apply Z.eqb_eq in E. subst x. contradiction.
Qed.

(** The keys of the accumulator appear in order of first insertion. *)
Lemma fold_hour_keys (ts : list datetime) (d : dict) :
  map fst (fold_left hour_step ts d)
  = map fst d ++ filter (absent_from (map fst d)) (first_seen (map hour ts)).
Proof.
  revert d. induction ts as [|t ts IH]; intros d.
  - simpl. now rewrite app_nil_r.
  - simpl fold_left. rewrite IH. unfold hour_step at 1 2. cbv zeta.
    set (h := hour t). set (X := first_seen (map hour ts)).
    change (first_seen (map hour (t :: ts)))
      with (h :: filter (fun y => negb (y =? h)) X).
    destruct (in_dec Z.eq_dec h (map fst d)) as [Hin|Hin].
    + rewrite dict_set_present by exact Hin. f_equal. simpl.
      destruct (absent_from (map fst d) h) eqn:E.
      { apply absent_from_iff in E. contradiction. }
      rewrite filter_filter. apply filter_ext_in. intros x _.
      destruct (x =? h) eqn:Ex; simpl; [|reflexivity].
      apply Z.eqb_eq in Ex. subst x. exact E.
    + rewrite dict_set_absent by exact Hin. rewrite map_app. simpl.
      rewrite <- app_assoc. f_equal. simpl.
      rewrite (proj2 (absent_from_iff _ _) Hin). f_equal.
      rewrite filter_filter. apply filter_ext. intros x.
      unfold absent_from. rewrite existsb_app. simpl.
      rewrite orb_false_r, negb_orb, andb_comm. reflexivity.
Qed.

Lemma count_hours_keys (ts : list datetime) :
  map fst (count_hours ts) = first_seen (map hour ts).
Proof.
  unfold count_hours. rewrite fold_hour_keys. simpl.
  apply filter_all. intros x _. reflexivity.
Qed.

Lemma count_hours_NoDup (ts : list datetime) : NoDup (map fst (count_hours ts)).
Proof. rewrite count_hours_keys. apply first_seen_NoDup. Qed.

Lemma count_hours_key_iff (ts : list datetime) (h : Z) :
  In h (map fst (count_hours ts)) <-> exists t, In t ts /\ hour t = h.
Proof.
  rewrite count_hours_keys, first_seen_In, in_map_iff.
  split; intros (t & H1 & H2); exists t; tauto.
Qed.

Lemma count_hours_get (ts : list datetime) (h : Z) :
  dict_get (count_hours ts) h 0 = events_in_hour h ts.
Proof. unfold count_hours. rewrite fold_hour_get. reflexivity. Qed.

Lemma count_hours_value (ts : list datetime) (h c : Z) :
  In (h, c) (count_hours ts) -> c = events_in_hour h ts.
Proof.
  intros H. rewrite <- count_hours_get. symmetry.
  apply dict_get_present; [apply count_hours_NoDup | exact H].
Qed.

Lemma count_hours_sum (ts : list datetime) :
  sum_counts (count_hours ts) = Z.of_nat (length ts).
Proof. unfold count_hours. rewrite fold_hour_sum. reflexivity. Qed.

Lemma events_in_hour_pos (ts : list datetime) (h : Z) :
  (exists t, In t ts /\ hour t = h) <-> 1 <= events_in_hour h ts.
Proof.
  unfold events_in_hour. split.
  - intros (t & Hin & Hh).
    assert (Hf : In t (filter (fun t => hour t =? h) ts)).
    { apply filter_In. split; [exact Hin | now apply Z.eqb_eq]. }
    destruct (filter (fun t => hour t =? h) ts); [destruct Hf | simpl length; lia].
  - intros H. destruct (filter (fun t => hour t =? h) ts) as [|t l] eqn:E.
    + simpl in H. lia.
    + assert (Hf : In t (filter (fun t => hour t =? h) ts)) by (rewrite E; now left).
      apply filter_In in Hf. exists t. split; [tauto | now apply Z.eqb_eq].
Qed.

(** ** The stable sort *)

Section SortedFacts.
Context {A : Type} (lt : A -> A -> bool).
Hypothesis lt_asym : forall a b, lt a b = true -> lt b a = false.
Hypothesis lt_negtrans :
  forall a b c, lt a c = true -> lt a b = true \/ lt b c = true.

Local Abbreviation ascending := (ascending lt).
Local Abbreviation descending := (descending lt).
Local Abbreviation tied := (tied lt).

Lemma insert_perm (x : A) (l : list A) : Permutation (insert lt x l) (x :: l).
Proof.
  induction l as [|y l IH]; simpl; [reflexivity|].
  destruct (lt y x); [|reflexivity].
  rewrite IH. apply perm_swap.
Qed.

Lemma stable_sort_perm (l : list A) : Permutation (stable_sort lt l) l.
Proof.
  induction l as [|x l IH]; simpl; [reflexivity|].
  rewrite insert_perm. now constructor.
Qed.

Lemma ascending_trans (a b c : A) :
  ascending a b -> ascending b c -> ascending a c.
Proof.
  unfold ascending. intros Hab Hbc.
  destruct (lt c a) eqn:E; [|reflexivity].
  destruct (lt_negtrans c b a E); congruence.
Qed.

Lemma insert_sorted (x : A) (l : list A) :
  StronglySorted ascending l -> StronglySorted ascending (insert lt x l).
Proof.
  induction 1 as [|y l Hs IH Hy]; simpl.
  - constructor; constructor.
  - destruct (lt y x) eqn:E.
    + constructor; [exact IH|].
      apply Forall_forall. intros z Hz.
      apply (Permutation_in _ (insert_perm x l)) in Hz.
      destruct Hz as [<-|Hz].
      * apply lt_asym in E. exact E.
      * rewrite Forall_forall in Hy. auto.
    + constructor; [now constructor|].
      constructor; [exact E|].
      apply Forall_forall. intros z Hz. rewrite Forall_forall in Hy.
      eapply ascending_trans; [exact E | auto].
Qed.

Lemma stable_sort_sorted (l : list A) : StronglySorted ascending (stable_sort lt l).
Proof.
  induction l as [|x l IH]; simpl; [constructor | now apply insert_sorted].
Qed.

Lemma insert_stable (z x : A) (l : list A) :
  filter (tied z) (insert lt x l) = filter (tied z) (x :: l).
Proof.
  induction l as [|y l IH]; [reflexivity|].
  simpl insert. destruct (lt y x) eqn:E; [|reflexivity].
  cbn [filter]. rewrite IH. cbn [filter].
  destruct (tied z y) eqn:Ty, (tied z x) eqn:Tx; try reflexivity.
  exfalso. unfold tied in Ty, Tx.
  apply andb_true_iff in Ty, Tx.
  rewrite !negb_true_iff in Ty, Tx.
  destruct (lt_negtrans y z x E); intuition congruence.
Qed.

Lemma stable_sort_stable (z : A) (l : list A) :
  filter (tied z) (stable_sort lt l) = filter (tied z) l.
Proof.
  induction l as [|x l IH]; [reflexivity|].
  simpl stable_sort. rewrite insert_stable. simpl. now rewrite IH.
Qed.

Lemma StronglySorted_app_one (R : A -> A -> Prop) (l : list A) (x : A) :
  StronglySorted R l -> Forall (fun y => R y x) l -> StronglySorted R (l ++ [x]).
Proof.
  induction 1 as [|y l Hs IH Hy]; intros Hx; simpl.
  - constructor; constructor.
  - inversion Hx; subst. constructor; [auto|].
    apply Forall_app. split; [exact Hy | constructor; auto].
Qed.

Lemma StronglySorted_rev (R : A -> A -> Prop) (l : list A) :
  StronglySorted R l -> StronglySorted (fun a b => R b a) (rev l).
Proof.
  induction 1 as [|y l Hs IH Hy]; simpl; [constructor|].
  apply StronglySorted_app_one; [exact IH|].
  apply Forall_forall. intros z Hz. apply in_rev in Hz.
  rewrite Forall_forall in Hy. auto.
Qed.

(** [sorted] returns a permutation of its argument... *)
Lemma sorted_perm (reverse : bool) (l : list A) :
  Permutation (sorted lt reverse l) l.
Proof.
  unfold sorted. destruct reverse.
  - rewrite <- Permutation_rev, stable_sort_perm. symmetry. apply Permutation_rev.
  - apply stable_sort_perm.
Qed.

(** ... in ascending order ... *)
Lemma sorted_ascending (l : list A) : StronglySorted ascending (sorted lt false l).
Proof. apply stable_sort_sorted. Qed.

(** ... or in descending order with [reverse=True] ... *)
Lemma sorted_descending (l : list A) : StronglySorted descending (sorted lt true l).
Proof.
  unfold sorted.
  apply (StronglySorted_rev ascending). apply stable_sort_sorted.
Qed.

(** ... and tied elements keep the order they had, in both directions. *)
Lemma sorted_stable (reverse : bool) (z : A) (l : list A) :
  filter (tied z) (sorted lt reverse l) = filter (tied z) l.
Proof.
  unfold sorted. destruct reverse.
  - rewrite filter_rev, stable_sort_stable, filter_rev, rev_involutive. reflexivity.
  - apply stable_sort_stable.
Qed.
End SortedFacts.

Lemma count_lt_asym (a b : Z * Z) : count_lt a b = true -> count_lt b a = false.
Proof. unfold count_lt. rewrite Z.ltb_lt, Z.ltb_ge. lia. Qed.

Lemma count_lt_negtrans (a b c : Z * Z) :
  count_lt a c = true -> count_lt a b = true \/ count_lt b c = true.
Proof. unfold count_lt. rewrite !Z.ltb_lt. lia. Qed.

Lemma tuple_lt_iff (a b : Z * Z) :
  tuple_lt a b = true <-> fst a < fst b \/ (fst a = fst b /\ snd a < snd b).
Proof.
  unfold tuple_lt. rewrite orb_true_iff, andb_true_iff, !Z.ltb_lt, Z.eqb_eq.
  reflexivity.
Qed.

Lemma tuple_lt_false (a b : Z * Z) :
  tuple_lt a b = false <-> fst b < fst a \/ (fst a = fst b /\ snd b <= snd a).
Proof.
  rewrite <- not_true_iff_false, tuple_lt_iff. lia.
Qed.

Lemma tuple_lt_asym (a b : Z * Z) : tuple_lt a b = true -> tuple_lt b a = false.
Proof. rewrite tuple_lt_iff, tuple_lt_false. lia. Qed.

Lemma tuple_lt_negtrans (a b c : Z * Z) :
  tuple_lt a c = true -> tuple_lt a b = true \/ tuple_lt b c = true.
Proof. rewrite !tuple_lt_iff. lia. Qed.

Lemma tied_count_lt (c : Z) (p : Z * Z) :
  tied count_lt (0, c) p = same_count c p.
Proof.
  unfold tied, count_lt, same_count. simpl.
  destruct (c <? snd p) eqn:E1, (snd p <? c) eqn:E2, (snd p =? c) eqn:E3;
    simpl; try reflexivity; exfalso;
    rewrite ?Z.ltb_lt, ?Z.ltb_ge, ?Z.eqb_eq, ?Z.eqb_neq in *; lia.
Qed.

(** ** [hourly_activity] and [peak_hours] as computed by the engine *)

Lemma sorted_keys_NoDup (lt : Z * Z -> Z * Z -> bool) (reverse : bool) (d : dict) :
  NoDup (map fst d) -> NoDup (map fst (sorted lt reverse d)).
Proof.
  intros H. eapply Permutation_NoDup; [|exact H].
  apply Permutation_map. symmetry. apply sorted_perm.
Qed.

Lemma hourly_activity_of_sorted (ts : list datetime) :
  hourly_activity_of ts = sorted tuple_lt false (count_hours ts).
Proof.
  unfold hourly_activity_of. apply dict_of_items_NoDup.
  apply sorted_keys_NoDup, count_hours_NoDup.
Qed.

Lemma hourly_activity_of_perm (ts : list datetime) :
  Permutation (hourly_activity_of ts) (count_hours ts).
Proof. rewrite hourly_activity_of_sorted. apply sorted_perm. Qed.

Lemma ascending_keys (l : list (Z * Z)) :
  StronglySorted (ascending tuple_lt) l -> NoDup (map fst l) ->
  StronglySorted Z.lt (map fst l).
Proof.
  induction 1 as [|y l Hs IH Hy]; simpl; intros Hnd; [constructor|].
  inversion Hnd as [|? ? Hy' Hnd']; subst.
  constructor; [auto|].
  apply Forall_forall. intros k Hk. apply in_map_iff in Hk.
  destruct Hk as (z & <- & Hz).
  rewrite Forall_forall in Hy. specialize (Hy z Hz).
  unfold ascending in Hy. apply tuple_lt_false in Hy.
  assert (fst z <> fst y).
  { intros E. apply Hy'. rewrite <- E. now apply in_map. }
  lia.
Qed.

Lemma hourly_activity_of_ascending (ts : list datetime) :
  StronglySorted Z.lt (map fst (hourly_activity_of ts)).
Proof.
  rewrite hourly_activity_of_sorted. apply ascending_keys.
  - apply sorted_ascending; [apply tuple_lt_asym | apply tuple_lt_negtrans].
  - apply sorted_keys_NoDup, count_hours_NoDup.
Qed.

Lemma sum_counts_perm (d1 d2 : dict) :
  Permutation d1 d2 -> sum_counts d1 = sum_counts d2.
Proof.
  unfold sum_counts. induction 1; simpl; lia.
Qed.

Lemma keys_filter_same_count (d : dict) (c : Z) :
  NoDup (map fst d) ->
  map fst (filter (same_count c) d)
  = filter (fun h => dict_get d h 0 =? c) (map fst d).
Proof.
  induction d as [|[k v] d IH]; intros Hnd; [reflexivity|].
  inversion Hnd as [|? ? Hk Hnd']; subst.
  simpl. rewrite Z.eqb_refl. unfold same_count at 1. simpl snd.
  assert (Htail : filter (fun h => (if k =? h then v else dict_get d h 0) =? c)
                         (map fst d)
                  = filter (fun h => dict_get d h 0 =? c) (map fst d)).
  { apply filter_ext_in. intros h Hh.
    destruct (k =? h) eqn:E; [|reflexivity].
    apply Z.eqb_eq in E. subst h. contradiction. }
  rewrite Htail, <- IH by assumption.
  destruct (v =? c); reflexivity.
Qed.

Lemma first_seen_length (l : list Z) :
  length (first_seen l) = length (nodup Z.eq_dec l).
Proof.
  apply Permutation_length, NoDup_Permutation.
  - apply first_seen_NoDup.
  - apply NoDup_nodup.
  - intros x. rewrite first_seen_In, nodup_In. reflexivity.
Qed.

(** The full ranking of which [peak_hours] keeps the first three. *)
Lemma ranking_spec (ts : list datetime) :
  let ranked := sorted count_lt true (count_hours ts) in
  Permutation ranked (hourly_activity_of ts) /\
  StronglySorted (fun a b => snd b <= snd a) ranked /\
  (forall c,
     map fst (filter (same_count c) ranked)
     = filter (fun h => events_in_hour h ts =? c) (first_seen (map hour ts))) /\
  length ranked = length (nodup Z.eq_dec (map hour ts)).
Proof.
  intros ranked. repeat split.
  - unfold ranked. rewrite sorted_perm. symmetry. apply hourly_activity_of_perm.
  - assert (H := sorted_descending count_lt count_lt_asym count_lt_negtrans
                   (count_hours ts)).
    fold ranked in H. clearbody ranked.
    induction H as [|y l Hs IH Hy]; constructor; [exact IH|].
    eapply Forall_impl; [|exact Hy].
    intros z Hz. unfold descending, count_lt in Hz. now apply Z.ltb_ge in Hz.
  - intros c. unfold ranked.
    rewrite <- (filter_ext _ _ (tied_count_lt c)).
    rewrite (sorted_stable count_lt count_lt_negtrans).
    rewrite (filter_ext _ _ (tied_count_lt c)).
    rewrite keys_filter_same_count by apply count_hours_NoDup.
    rewrite count_hours_keys. apply filter_ext. intros h.
    now rewrite count_hours_get.
  - unfold ranked.
    rewrite (Permutation_length (sorted_perm count_lt true (count_hours ts))).
    rewrite <- first_seen_length, <- count_hours_keys. now rewrite length_map.
Qed.

(** * The claims about the metrics engine *)

Local Open Scope Q_scope.

(** C5.  For every non-decreasing sequence of N instants,
    [calculate_gaps] returns N-1 gaps (none when N <= 1); gap [i] is
    [seq[i+1] - seq[i]] in fractional minutes, every gap is non-negative,
    and the gaps add up to [last - first] in minutes. *)
Theorem calculate_gaps_spec (ts : list datetime) :
  non_decreasing ts ->
  exists gaps,
    calculate_gaps ts = Ok gaps /\
    length gaps = (length ts - 1)%nat /\
    (forall i a b,
       nth_error ts i = Some a -> nth_error ts (S i) = Some b ->
       exists td, dt_sub b a = Ok td /\
                  nth_error gaps i = Some (total_seconds td / 60)) /\
    Forall (fun g => 0 <= g) gaps /\
    (forall first,
       hd_error ts = Some first ->
       exists td, dt_sub (last ts first) first = Ok td /\
                  py_sum gaps == total_seconds td / 60) /\
    ((length ts <= 1)%nat -> gaps = []).
Proof.
  intros Hnd. assert (Hc := non_decreasing_comparable ts Hnd).
  exists (gaps_of ts). split; [now apply calculate_gaps_comparable|].
  split; [apply gaps_of_length|].
  split.
  { intros i a b Ha Hb. exists (instant_us b - instant_us a)%Z. split.
    - apply dt_sub_same_kind. apply Hc; eapply nth_error_In; eauto.
    - now apply gaps_of_nth. }
  split; [now apply gaps_of_nonneg|].
  split.
  { intros first Hhd. destruct ts as [|a rest]; [discriminate|].
    simpl in Hhd. injection Hhd as <-.
    exists (instant_us (last (a :: rest) a) - instant_us a)%Z. split.
    - apply dt_sub_same_kind. apply Hc; [apply last_In; discriminate | now left].
    - apply gaps_of_sum. }
  intros Hlen. destruct ts as [|a [|b rest]]; try reflexivity.
  simpl in Hlen. lia.
Qed.

Lemma calculate_gaps_spec_witness :
  non_decreasing [utc 1 1 10 0 0; utc 1 1 10 2 0; utc 1 1 10 40 0] /\
  exists gaps,
    calculate_gaps [utc 1 1 10 0 0; utc 1 1 10 2 0; utc 1 1 10 40 0] = Ok gaps /\
    length gaps = 2%nat.
Proof.
  assert (H : non_decreasing [utc 1 1 10 0 0; utc 1 1 10 2 0; utc 1 1 10 40 0]).
  { simpl. repeat split; reflexivity. }
  split; [exact H|].
  destruct (calculate_gaps_spec _ H) as (gaps & Hg & Hlen & _).
  exists gaps. split; [exact Hg | exact Hlen].
Defined.

(** C6.  The short (<5), moderate ([5,30)) and long (>=30) buckets
    partition the gap sequence: every gap is in exactly one bucket, 5 and 30
    are the inclusive lower bounds of moderate and long, and on a sequence of
    N instants the three counts reported by the engine add up to N-1. *)
Theorem gap_buckets_partition (ts : list datetime) (n : Z) :
  ts <> [] -> comparable ts ->
  exists m gaps,
    analyze_timestamps ts n = Ok (Analysis m) /\
    calculate_gaps ts = Ok gaps /\
    length gaps = (length ts - 1)%nat /\
    short_gaps (gap_analysis m) = Z.of_nat (length (filter is_short gaps)) /\
    moderate_gaps (gap_analysis m) = Z.of_nat (length (filter is_moderate gaps)) /\
    long_gaps (gap_analysis m) = Z.of_nat (length (filter is_long gaps)) /\
    (short_gaps (gap_analysis m) + moderate_gaps (gap_analysis m)
     + long_gaps (gap_analysis m) = Z.of_nat (length ts) - 1)%Z /\
    (forall g,
       In g gaps ->
       (is_short g = true <-> g < 5) /\
       (is_moderate g = true <-> 5 <= g /\ g < 30) /\
       (is_long g = true <-> 30 <= g) /\
       ((is_short g = true /\ is_moderate g = false /\ is_long g = false) \/
        (is_short g = false /\ is_moderate g = true /\ is_long g = false) \/
        (is_short g = false /\ is_moderate g = false /\ is_long g = true))) /\
    is_short 5 = false /\ is_moderate 5 = true /\
    is_moderate 30 = false /\ is_long 30 = true.
Proof.
  intros Hne Hc. destruct ts as [|a rest]; [congruence|].
  destruct (analyze_timestamps_comparable a rest n Hc) as [Hsub Hg].
  destruct (analyze_timestamps_Ok a rest n _ _ Hsub Hg)
    as (m & Hm & _ & _ & _ & _ & _ & _ & _ & _ & _ & _ & Hs & Hmo & Hl & _).
  exists m, (gaps_of (a :: rest)).
  split; [exact Hm|]. split; [exact Hg|].
  split; [apply gaps_of_length|].
  split; [exact Hs|]. split; [exact Hmo|]. split; [exact Hl|].
  split.
  { rewrite Hs, Hmo, Hl.
    pose proof (bucket_lengths (gaps_of (a :: rest))) as Hb.
    pose proof (gaps_of_length (a :: rest)) as Hlen.
    change (length (a :: rest)) with (S (length rest)) in *. lia. }
  split.
  { intros g _. split; [apply is_short_iff|]. split; [apply is_moderate_iff|].
    split; [apply is_long_iff | apply bucket_cases]. }
  repeat split; reflexivity.
Qed.

Lemma gap_buckets_partition_witness :
  exists m,
    analyze_timestamps [utc 1 1 10 0 0; utc 1 1 10 2 0; utc 1 1 10 40 0] 3
    = Ok (Analysis m) /\
    (short_gaps (gap_analysis m) + moderate_gaps (gap_analysis m)
     + long_gaps (gap_analysis m) = 2)%Z.
Proof.
  destruct (gap_buckets_partition
              [utc 1 1 10 0 0; utc 1 1 10 2 0; utc 1 1 10 40 0] 3)
    as (m & gaps & Hm & _ & _ & _ & _ & _ & Hsum & _).
  - discriminate.
  - apply comparable_cons. intros x Hx. simpl in Hx.
    destruct Hx as [<-|[<-|[]]]; reflexivity.
  - exists m. split; [exact Hm | exact Hsum].
Defined.

Lemma non_decreasing_duration (a : datetime) (rest : list datetime) :
  non_decreasing (a :: rest) ->
  (0 <= instant_us (last (a :: rest) a) - instant_us a)%Z.
Proof.
  intros Hnd. destruct rest as [|b rest]; [simpl; lia|].
  assert (Hin : In (last (a :: b :: rest) a) (b :: rest)).
  { change (last (a :: b :: rest) a) with (last (b :: rest) a).
    apply last_In. discriminate. }
  destruct (non_decreasing_head a _ Hnd _ Hin). lia.
Qed.

(** C3 (as amended).  On a non-empty non-decreasing sequence whose idle
    time is 0, [activity_percentage] is 100 when the session has a positive
    duration, and is the guard value 0 when the duration is 0 (a single
    event, or events that all share one instant). *)
Theorem activity_percentage_no_idle (ts : list datetime) (n : Z) :
  ts <> [] -> non_decreasing ts ->
  exists m,
    analyze_timestamps ts n = Ok (Analysis m) /\
    0 <= total_duration_hours m /\
    (total_idle_time_hours m == 0 ->
     (0 < total_duration_hours m -> activity_percentage m == 100) /\
     (total_duration_hours m == 0 -> activity_percentage m = 0)).
Proof.
  intros Hne Hnd. destruct ts as [|a rest]; [congruence|].
  assert (Hc := non_decreasing_comparable _ Hnd).
  destruct (analyze_timestamps_comparable a rest n Hc) as [Hsub Hg].
  destruct (analyze_timestamps_Ok a rest n _ _ Hsub Hg)
    as (m & Hm & _ & _ & Hdur & _ & _ & _ & _ & _ & Hidle & Hpct & _).
  cbv zeta in Hdur, Hidle, Hpct.
  pose proof (non_decreasing_duration a rest Hnd) as Hpos.
  set (d := total_seconds (instant_us (last (a :: rest) a) - instant_us a)) in *.
  assert (Hd : 0 <= d).
  { apply total_seconds_ge0. exact Hpos. }
  assert (Eh : d == d / 3600 * 3600) by field.
  exists m. split; [exact Hm|]. rewrite Hdur, Hidle, Hpct.
  split; [lra|].
  intros Hi. split.
  - intros Hlt. assert (Hd' : 0 < d) by lra.
    rewrite (proj2 (Qltb_true 0 d) Hd').
    set (idle := py_sum (filter is_long (gaps_of (a :: rest)))) in *.
    assert (Ei : idle == idle / 60 * 60) by field.
    assert (Hi' : idle == 0) by lra.
    rewrite Hi'. field. lra.
  - intros Hz. assert (Hd' : d <= 0) by lra.
    rewrite (proj2 (Qltb_false 0 d) Hd'). reflexivity.
Qed.

Lemma activity_percentage_no_idle_witness :
  exists m,
    analyze_timestamps [utc 1 1 10 0 0; utc 1 1 10 2 0] 2 = Ok (Analysis m) /\
    activity_percentage m == 100.
Proof.
  destruct (activity_percentage_no_idle [utc 1 1 10 0 0; utc 1 1 10 2 0] 2)
    as (m & Hm & _ & H).
  - discriminate.
  - simpl. split; [reflexivity | exact I].
  - exists m. split; [exact Hm|].
    assert (E : Ok (Analysis m) = analyze_timestamps [utc 1 1 10 0 0; utc 1 1 10 2 0] 2)
      by (symmetry; exact Hm).
    vm_compute in E. injection E as ->.
    apply H; reflexivity.
Defined.

(** C3, the claim as the specification states it, fails on a session of
    a single event: no idle time, yet the percentage is the guard value 0. *)
Lemma activity_percentage_single_event : ~ full_activity_when_no_idle.
Proof.
  intros H.
  specialize (H [utc 1 1 10 0 0] 1%Z).
  destruct (analyze_timestamps [utc 1 1 10 0 0] 1) as [[msg|m]|e] eqn:E;
    vm_compute in E; try discriminate.
  injection E as <-.
  specialize (H _ ltac:(discriminate) I eq_refl ltac:(reflexivity)).
  vm_compute in H. discriminate.
Qed.

(** C9 (as amended).  On a non-empty sequence the engine never divides by
    a non-positive quantity: it can only fail with the [TypeError] of mixed
    naive and aware datetimes, and on comparable instants
    [events_per_hour] and [events_per_minute] are 0 when [total_duration]
    is not positive and [total_events] over the duration in hours or
    minutes when it is positive; [active_events_per_minute] is 0 when the
    active minutes are not positive and [total_events] over the active
    minutes otherwise.  On a non-decreasing sequence the duration is never
    negative, so there "not positive" means "zero". *)
Theorem rate_guards (ts : list datetime) (n : Z) (first : datetime) :
  hd_error ts = Some first ->
  (forall e, analyze_timestamps ts n = Raise e -> is_TypeError e = true) /\
  (comparable ts ->
   exists m td gaps,
     analyze_timestamps ts n = Ok (Analysis m) /\
     dt_sub (last ts first) first = Ok td /\
     calculate_gaps ts = Ok gaps /\
     let total_duration := total_seconds td in
     let total_active_time := total_duration / 60 - py_sum (filter is_long gaps) in
     (total_duration <= 0 ->
      events_per_hour m = 0 /\ events_per_minute m = 0) /\
     (0 < total_duration ->
      ~ total_duration / 3600 == 0 /\ ~ total_duration / 60 == 0 /\
      events_per_hour m = inject_Z n / (total_duration / 3600) /\
      events_per_minute m = inject_Z n / (total_duration / 60)) /\
     (total_active_time <= 0 -> active_events_per_minute m = 0) /\
     (0 < total_active_time ->
      active_events_per_minute m = inject_Z n / total_active_time) /\
     (non_decreasing ts -> 0 <= total_duration)).
Proof.
  intros Hhd. destruct ts as [|a rest]; [discriminate|].
  simpl in Hhd. injection Hhd as <-.
  split; [intros e; apply analyze_timestamps_Raise|].
  intros Hc.
  destruct (analyze_timestamps_comparable a rest n Hc) as [Hsub Hg].
  destruct (analyze_timestamps_Ok a rest n _ _ Hsub Hg)
    as (m & Hm & _ & _ & _ & _ & Heph & Hepm & Haepm & _).
  cbv zeta in Heph, Hepm, Haepm.
  exists m, (instant_us (last (a :: rest) a) - instant_us a)%Z, (gaps_of (a :: rest)).
  split; [exact Hm|]. split; [exact Hsub|]. split; [exact Hg|].
  cbv zeta.
  set (d := total_seconds (instant_us (last (a :: rest) a) - instant_us a)) in *.
  set (active := d / 60 - py_sum (filter is_long (gaps_of (a :: rest)))) in *.
  split.
  { intros Hle. apply Qltb_false in Hle. rewrite Hle in Heph, Hepm. auto. }
  split.
  { intros Hlt.
    assert (E1 : d == d / 3600 * 3600) by field.
    assert (E2 : d == d / 60 * 60) by field.
    apply Qltb_true in Hlt as Hb. rewrite Hb in Heph, Hepm.
    repeat split; auto; lra. }
  split.
  { intros Hle. apply Qltb_false in Hle. now rewrite Hle in Haepm. }
  split.
  { intros Hlt. apply Qltb_true in Hlt. now rewrite Hlt in Haepm. }
  intros Hnd. apply total_seconds_ge0. now apply non_decreasing_duration.
Qed.

Lemma rate_guards_witness :
  exists m,
    analyze_timestamps [utc 1 1 10 0 0; utc 1 1 10 30 0] 2 = Ok (Analysis m) /\
    events_per_hour m == 4 /\ events_per_minute m == 1 # 15.
Proof.
  destruct (rate_guards [utc 1 1 10 0 0; utc 1 1 10 30 0] 2 (utc 1 1 10 0 0) eq_refl)
    as [_ H].
  destruct H as (m & td & gaps & Hm & Htd & _ & _ & Hpos & _).
  - apply comparable_cons. intros x [<-|[]]. reflexivity.
  - exists m. split; [exact Hm|].
    vm_compute in Htd. injection Htd as <-.
    destruct (Hpos eq_refl) as (_ & _ & -> & ->).
    split; vm_compute; reflexivity.
Defined.

(** C9, the claim as the specification states it, fails when the log is
    out of order: two events five minutes apart in reverse order give a
    non-zero (negative) duration, and the guard returns 0, not the
    quotient. *)
Lemma rates_zero_on_negative_duration : ~ rates_guarded_at_zero_only.
Proof.
  intros H.
  specialize (H [utc 1 1 10 5 0; utc 1 1 10 0 0] 2%Z).
  destruct (analyze_timestamps [utc 1 1 10 5 0; utc 1 1 10 0 0] 2)
    as [[msg|m]|e] eqn:E; vm_compute in E; try discriminate.
  injection E as <-.
  destruct (H _ ltac:(discriminate) eq_refl) as [_ H2].
  destruct H2 as [H2 _]; [vm_compute; discriminate|].
  vm_compute in H2. discriminate.
Qed.

Local Open Scope Z_scope.

(** C4 (as amended).  [peak_hours] keeps the first three entries (all of
    them when fewer than three hours occur) of a ranking of the
    [hourly_activity] pairs by descending count in which pairs of equal
    count stand in the order in which their hours first occur in the
    timestamp sequence. *)
Theorem peak_hours_spec (ts : list datetime) (n : Z) :
  ts <> [] -> comparable ts ->
  exists m ranked,
    analyze_timestamps ts n = Ok (Analysis m) /\
    peak_hours m = firstn 3 ranked /\
    Permutation ranked (hourly_activity m) /\
    StronglySorted (fun a b => snd b <= snd a) ranked /\
    (forall c,
       map fst (filter (same_count c) ranked)
       = filter (fun h => events_in_hour h ts =? c) (first_seen (map hour ts))) /\
    length (peak_hours m) = Nat.min 3 (length (nodup Z.eq_dec (map hour ts))).
Proof.
  intros Hne Hc. destruct ts as [|a rest]; [congruence|].
  destruct (analyze_timestamps_comparable a rest n Hc) as [Hsub Hg].
  destruct (analyze_timestamps_Ok a rest n _ _ Hsub Hg)
    as (m & Hm & _ & _ & _ & _ & _ & _ & _ & _ & _ & _ & _ & _ & _ & Hh & Hp).
  cbv zeta in Hh, Hp.
  destruct (ranking_spec (a :: rest)) as (Hperm & Hsorted & Hties & Hlen).
  exists m, (sorted count_lt true (count_hours (a :: rest))).
  split; [exact Hm|]. split; [exact Hp|].
  split; [rewrite Hh; exact Hperm|].
  split; [exact Hsorted|]. split; [exact Hties|].
  rewrite Hp. unfold peak_hours_of. rewrite length_firstn, Hlen. reflexivity.
Qed.

Lemma peak_hours_spec_witness :
  exists m,
    analyze_timestamps [utc 1 1 23 0 0; utc 1 2 0 30 0] 2 = Ok (Analysis m) /\
    length (peak_hours m) = 2%nat.
Proof.
  destruct (peak_hours_spec [utc 1 1 23 0 0; utc 1 2 0 30 0] 2)
    as (m & ranked & Hm & _ & _ & _ & _ & Hlen).
  - discriminate.
  - apply comparable_cons. intros x [<-|[]]. reflexivity.
  - exists m. split; [exact Hm | exact Hlen].
Defined.

(** C4, the claim as the specification states it, fails on a session that
    crosses midnight: hours 23 and 0 have one event each and [peak_hours]
    lists 23 first, where ascending hour order would list 0 first. *)
Lemma peak_hours_ties_first_seen : ~ peak_ties_by_ascending_hour.
Proof.
  intros H.
  specialize (H [utc 1 1 23 0 0; utc 1 2 0 30 0] 2).
  destruct (analyze_timestamps [utc 1 1 23 0 0; utc 1 2 0 30 0] 2)
    as [[msg|m]|e] eqn:E; vm_compute in E; try discriminate.
  injection E as <-.
  specialize (H _ ltac:(discriminate) eq_refl).
  vm_compute in H. discriminate.
Qed.

(** * The read loop, the locator and the command line *)

Section ScriptFacts.
Context {R : Runtime}.

Lemma before_start_false (start_dt : option datetime) (t : datetime) :
  before_start start_dt t = Ok false <-> passes_start start_dt t.
Proof.
  unfold passes_start. destruct start_dt as [s|]; simpl.
  - rewrite dt_lt_false. split.
    + intros [Hk Hle] s' E. injection E as <-. apply dt_le_true. auto.
    + intros H. specialize (H s eq_refl). apply dt_le_true in H.
      destruct H. auto.
  - split; [discriminate | reflexivity].
Qed.

Lemma after_end_false (end_dt : option datetime) (t : datetime) :
  after_end end_dt t = Ok false <-> passes_end end_dt t.
Proof.
  unfold passes_end. destruct end_dt as [e|]; simpl.
  - rewrite dt_gt_false. split.
    + intros [Hk Hle] e' E. injection E as <-. apply dt_le_true. auto.
    + intros H. specialize (H e eq_refl). apply dt_le_true in H.
      destruct H. auto.
  - split; [discriminate | reflexivity].
Qed.

(** The two shapes of a successful iteration: the accumulators are
    unchanged, or one admitted timestamp was appended and counted. *)
Lemma read_line_Ok (start_dt end_dt : option datetime)
      (timestamps timestamps' : list datetime) (total_events total_events' : Z)
      (line : string) :
  read_line start_dt end_dt (timestamps, total_events) line
    = Ok (timestamps', total_events') ->
  (timestamps' = timestamps /\ total_events' = total_events) \/
  (exists t, timestamps' = timestamps ++ [t] /\
             total_events' = total_events + 1 /\
             passes_start start_dt t /\ passes_end end_dt t).
Proof.
  unfold read_line.
  destruct (try_line start_dt end_dt (timestamps, total_events) line)
    as [acc|e] eqn:E.
  - intros H. injection H as ->. unfold try_line in E.
    apply bind_Ok in E. destruct E as (entry & _ & E).
    apply bind_Ok in E. destruct E as ([|] & _ & E).
    + apply bind_Ok in E. destruct E as (v & _ & E).
      apply bind_Ok in E. destruct E as (t & _ & E).
      apply bind_Ok in E. destruct E as ([|] & Hs & E).
      * left. injection E as <- <-. auto.
      * apply bind_Ok in E. destruct E as ([|] & He & E).
        -- left. injection E as <- <-. auto.
        -- right. injection E as <- <-. exists t.
           apply before_start_false in Hs. apply after_end_false in He. auto.
    + left. injection E as <- <-. auto.
  - destruct (is_JSONDecodeError e); [|discriminate].
    intros H. injection H as <- <-. auto.
Qed.

Lemma read_lines_app (start_dt end_dt : option datetime)
      (acc : list datetime * Z) (l1 l2 : list string) :
  read_lines start_dt end_dt acc (l1 ++ l2)
  = bind (read_lines start_dt end_dt acc l1)
         (fun acc' => read_lines start_dt end_dt acc' l2).
Proof.
  revert acc. induction l1 as [|l l1 IH]; intros acc; simpl; [reflexivity|].
  destruct (read_line start_dt end_dt acc l); simpl; [apply IH | reflexivity].
Qed.

(** Loop invariant of lines 46-61: [total_events] counts the appended
    timestamps, and each of them passed both bounds. *)
Lemma read_lines_Ok (start_dt end_dt : option datetime) (lines : list string)
      (timestamps timestamps' : list datetime) (total_events total_events' : Z) :
  read_lines start_dt end_dt (timestamps, total_events) lines
    = Ok (timestamps', total_events') ->
  exists added,
    timestamps' = timestamps ++ added /\
    total_events' = total_events + Z.of_nat (length added) /\
    Forall (passes_start start_dt) added /\
    Forall (passes_end end_dt) added.
Proof.
  revert timestamps total_events.
  induction lines as [|line lines IH]; intros timestamps total_events H.
  - simpl in H. injection H as <- <-. exists [].
    rewrite app_nil_r. simpl. repeat split; auto; lia.
  - simpl in H. apply bind_Ok in H. destruct H as ([ts1 n1] & H1 & H2).
    apply read_line_Ok in H1. apply IH in H2.
    destruct H2 as (added & -> & -> & Hs & He).
    destruct H1 as [[-> ->]|(t & -> & -> & Hts & Hte)].
    + exists added. auto.
    + exists (t :: added). rewrite <- app_assoc. simpl app.
      repeat split; auto.
      change (length (t :: added)) with (S (length added)). lia.
Qed.

Lemma read_lines_count (start_dt end_dt : option datetime) (lines : list string)
      (timestamps : list datetime) (total_events : Z) :
  read_lines start_dt end_dt ([], 0) lines = Ok (timestamps, total_events) ->
  total_events = Z.of_nat (length timestamps).
Proof.
  intros H. apply read_lines_Ok in H. destruct H as (added & -> & -> & _).
  simpl. reflexivity.
Qed.







Lemma analyze_session_file_run (file_path : string)
      (start_time end_time : option string) (start_dt end_dt : option datetime) :
  parse_bound start_time = Ok start_dt ->
  parse_bound end_time = Ok end_dt ->
  analyze_session_file file_path start_time end_time
  = ([reading_line file_path],
     content <- open_text file_path ;;
     acc <- read_lines start_dt end_dt ([], 0) (readlines content) ;;
     analyze_timestamps (fst acc) (snd acc)).
Proof.
  intros Hs He. unfold analyze_session_file. rewrite Hs, He. reflexivity.
Qed.

Lemma main_run (args : Args) (session_file : string) :
  locate_session_file args = Ok session_file ->
  main args
  = let out :=
      analyzing_line session_file
      :: fst (analyze_session_file session_file
                (Some (arg_start args)) (arg_end args)) in
    match snd (analyze_session_file session_file
                 (Some (arg_start args)) (arg_end args)) with
    | Raise e => (out ++ [error_line (str_exn e)], 1)
    | Ok (AnalysisError error) => (out ++ [error_line error], 1)
    | Ok (Analysis m) => (out ++ print_analysis_report m, 0)
    end.
Proof.
  intros H. unfold main. rewrite H.
  destruct (analyze_session_file session_file (Some (arg_start args))
              (arg_end args)) as [printed [[error|m]|e]]; reflexivity.
Qed.


(** C7.  [hourly_activity] maps each hour of day, read from the stored
    instants, to its number of events: every key lies in [0,23], a key
    is present exactly when some event has that hour, the keys are in
    ascending order, and the counts add up to [total_events]. *)
Theorem hourly_activity_spec (start_dt end_dt : option datetime)
        (lines : list string) (timestamps : list datetime) (counted : Z) :
  read_lines start_dt end_dt ([], 0) lines = Ok (timestamps, counted) ->
  timestamps <> [] -> comparable timestamps ->
  Forall valid_datetime timestamps ->
  exists m,
    analyze_timestamps timestamps counted = Ok (Analysis m) /\
    (forall h c,
       In (h, c) (hourly_activity m) ->
       0 <= h <= 23 /\ c = events_in_hour h timestamps /\ 1 <= c) /\
    (forall h,
       In h (map fst (hourly_activity m)) <->
       exists t, In t timestamps /\ hour t = h) /\
    StronglySorted Z.lt (map fst (hourly_activity m)) /\
    sum_counts (hourly_activity m) = total_events m /\
    total_events m = Z.of_nat (length timestamps).
Proof.
  intros Hread Hne Hc Hvalid.
  apply read_lines_count in Hread.
  destruct timestamps as [|a rest]; [congruence|].
  destruct (analyze_timestamps_comparable a rest counted Hc) as [Hsub Hg].
  destruct (analyze_timestamps_Ok a rest counted _ _ Hsub Hg)
    as (m & Hm & _ & _ & _ & Hn & _ & _ & _ & _ & _ & _ & _ & _ & _ & Hh & _).
  cbv zeta in Hh. exists m. split; [exact Hm|]. rewrite Hh, Hn.
  set (ts := a :: rest) in *.
  assert (Hkey : forall h, In h (map fst (hourly_activity_of ts)) <->
                           exists t, In t ts /\ hour t = h).
  { intros h. rewrite <- count_hours_key_iff. split; apply Permutation_in;
      apply Permutation_map;
      [apply hourly_activity_of_perm | symmetry; apply hourly_activity_of_perm]. }
  split.
  { intros h c Hin.
    assert (Hin' : In (h, c) (count_hours ts)).
    { eapply Permutation_in; [apply hourly_activity_of_perm | exact Hin]. }
    assert (Hk : exists t, In t ts /\ hour t = h).
    { apply Hkey. change h with (fst (h, c)). now apply in_map. }
    split.
    - destruct Hk as (t & Ht & <-). rewrite Forall_forall in Hvalid.
      destruct (Hvalid t Ht) as (_ & _ & _ & Hhour & _). exact Hhour.
    - apply count_hours_value in Hin'. subst c.
      split; [reflexivity | now apply events_in_hour_pos]. }
  split; [exact Hkey|].
  split; [apply hourly_activity_of_ascending|].
  split; [|exact Hread].
  rewrite (sum_counts_perm _ _ (hourly_activity_of_perm ts)), count_hours_sum.
  now rewrite Hread.
Qed.

(** A line whose [timestamp] string the ISO parser rejects makes the
    iteration raise: [ValueError] is not [json.JSONDecodeError]. *)
Lemma read_line_unparseable (start_dt end_dt : option datetime)
      (acc : list datetime * Z) (line s msg : string) (entry : json) :
  json_loads (strip line) = Ok entry ->
  contains "timestamp" entry = Ok true ->
  getitem entry "timestamp" = Ok (JStr s) ->
  fromisoformat (replace "Z" "+00:00" s) = Raise (ValueError msg) ->
  read_line start_dt end_dt acc line = Raise (ValueError msg).
Proof.
  intros Hl Hc Hg Hp. unfold read_line, try_line. destruct acc as [ts n].
  rewrite Hl. simpl bind. rewrite Hc. simpl bind. cbv iota.
  rewrite Hg. simpl bind. unfold parse_timestamp. rewrite Hp. reflexivity.
Qed.

(** C1 (the code departs from the claim).  A line that decodes to a
    record whose [timestamp] string is not ISO-8601 is not skipped: the
    read loop raises the parser's [ValueError] whatever the lines after
    it are, [analyze_session_file] returns no metrics, and [main] prints
    the error and exits with status 1. *)
Theorem unparseable_timestamp_aborts (args : Args) (session_file content : string)
        (start_dt end_dt : option datetime)
        (before after : list string) (line s msg : string)
        (acc : list datetime * Z) (entry : json) :
  locate_session_file args = Ok session_file ->
  parse_bound (Some (arg_start args)) = Ok start_dt ->
  parse_bound (arg_end args) = Ok end_dt ->
  open_text session_file = Ok content ->
  readlines content = before ++ line :: after ->
  read_lines start_dt end_dt ([], 0) before = Ok acc ->
  json_loads (strip line) = Ok entry ->
  contains "timestamp" entry = Ok true ->
  getitem entry "timestamp" = Ok (JStr s) ->
  fromisoformat (replace "Z" "+00:00" s) = Raise (ValueError msg) ->
  read_lines start_dt end_dt ([], 0) (readlines content)
    = Raise (ValueError msg) /\
  snd (analyze_session_file session_file (Some (arg_start args)) (arg_end args))
    = Raise (ValueError msg) /\
  main args
    = ([analyzing_line session_file; reading_line session_file;
        error_line msg], 1).
Proof.
  intros Hloc Hs He Hopen Hlines Hbefore Hl Hc Hg Hp.
  assert (Hread : read_lines start_dt end_dt ([], 0) (readlines content)
                  = Raise (ValueError msg)).
  { rewrite Hlines, read_lines_app, Hbefore. simpl.
    now rewrite (read_line_unparseable _ _ _ _ _ _ _ Hl Hc Hg Hp). }
  assert (Hrun := analyze_session_file_run session_file _ _ _ _ Hs He).
  rewrite Hopen in Hrun. simpl bind in Hrun. rewrite Hread in Hrun.
  simpl bind in Hrun.
  split; [exact Hread|]. rewrite (main_run _ _ Hloc), Hrun. auto.
Qed.

Lemma search_skips (start_dt : datetime) (start_time session_file : string)
      (rest : list string) (e : exn) :
  try_session_file start_dt session_file = Raise e ->
  is_JSONDecodeError e || is_KeyError e = true ->
  search_session_files start_dt start_time (session_file :: rest)
  = search_session_files start_dt start_time rest.
Proof. intros H1 H2. simpl. now rewrite H1, H2. Qed.

Lemma search_propagates (start_dt : datetime) (start_time session_file : string)
      (rest : list string) (e : exn) :
  try_session_file start_dt session_file = Raise e ->
  is_JSONDecodeError e || is_KeyError e = false ->
  search_session_files start_dt start_time (session_file :: rest) = Raise e.
Proof. intros H1 H2. simpl. now rewrite H1, H2. Qed.

Lemma getitem_missing (d : list (string * json)) (key : string) :
  find (fun kv => String.eqb (fst kv) key) d = None ->
  getitem (JDict d) key = Raise (KeyError key).
Proof. intros H. simpl. now rewrite H. Qed.

(** C8 (the code departs from the claim).  A candidate whose first or
    last record is malformed JSON, or a record without a [timestamp]
    field, is skipped and the search goes on with the remaining files;
    but a candidate whose first or last [timestamp] string the ISO parser
    rejects ends the whole search with the parser's [ValueError], whatever
    the remaining files hold. *)
Theorem unparseable_candidate (start_dt : datetime) (start_time : string)
        (session_file content : string) (rest : list string) :
  open_text session_file = Ok content ->
  let first_line := strip (readline content) in
  let last_line := read_last_line content first_line in
  let search := search_session_files start_dt start_time in
  truthy first_line = true ->
  (* first record *)
  (forall msg, json_loads first_line = Raise (JSONDecodeError msg) ->
               search (session_file :: rest) = search rest) /\
  (forall d, json_loads first_line = Ok (JDict d) ->
             find (fun kv => String.eqb (fst kv) "timestamp") d = None ->
             search (session_file :: rest) = search rest) /\
  (forall entry s msg,
      json_loads first_line = Ok entry ->
      getitem entry "timestamp" = Ok (JStr s) ->
      fromisoformat (replace "Z" "+00:00" s) = Raise (ValueError msg) ->
      search (session_file :: rest) = Raise (ValueError msg)) /\
  (* last record, the first one being fine *)
  (forall entry v first_ts,
      json_loads first_line = Ok entry ->
      getitem entry "timestamp" = Ok v ->
      parse_timestamp v = Ok first_ts ->
      (forall msg, json_loads last_line = Raise (JSONDecodeError msg) ->
                   search (session_file :: rest) = search rest) /\
      (forall d, json_loads last_line = Ok (JDict d) ->
                 find (fun kv => String.eqb (fst kv) "timestamp") d = None ->
                 search (session_file :: rest) = search rest) /\
      (forall entry' s msg,
          json_loads last_line = Ok entry' ->
          getitem entry' "timestamp" = Ok (JStr s) ->
          fromisoformat (replace "Z" "+00:00" s) = Raise (ValueError msg) ->
          search (session_file :: rest) = Raise (ValueError msg))).
Proof.
  intros Hopen first_line last_line search Htruthy.
  assert (Htry : try_session_file start_dt session_file
                 = (first_entry <- json_loads first_line ;;
                    v <- getitem first_entry "timestamp" ;;
                    first_ts <- parse_timestamp v ;;
                    last_entry <- json_loads last_line ;;
                    v' <- getitem last_entry "timestamp" ;;
                    last_ts <- parse_timestamp v' ;;
                    lower <- dt_le first_ts start_dt ;;
                    if lower then dt_le start_dt last_ts else Ok false)).
  { unfold try_session_file. rewrite Hopen. simpl bind. cbv zeta.
    fold first_line. now rewrite Htruthy. }
  split; [|split; [|split]].
  - intros msg H. apply (search_skips _ _ _ _ (JSONDecodeError msg)); [|reflexivity].
    now rewrite Htry, H.
  - intros d H Hfind. apply (search_skips _ _ _ _ (KeyError "timestamp")); [|reflexivity].
    rewrite Htry, H. cbv beta iota delta [bind].
    now rewrite (getitem_missing _ _ Hfind).
  - intros entry s msg H Hg Hp.
    apply (search_propagates _ _ _ _ (ValueError msg)); [|reflexivity].
    rewrite Htry, H. cbv beta iota delta [bind]. rewrite Hg.
    unfold parse_timestamp. now rewrite Hp.
  - intros entry v first_ts H0 H1 H2.
    assert (Htry' : try_session_file start_dt session_file
                    = (last_entry <- json_loads last_line ;;
                       v' <- getitem last_entry "timestamp" ;;
                       last_ts <- parse_timestamp v' ;;
                       lower <- dt_le first_ts start_dt ;;
                       if lower then dt_le start_dt last_ts else Ok false)).
    { rewrite Htry, H0. cbv beta iota delta [bind]. now rewrite H1, H2. }
    split; [|split].
    + intros msg H.
      apply (search_skips _ _ _ _ (JSONDecodeError msg)); [|reflexivity].
      now rewrite Htry', H.
    + intros d H Hfind.
      apply (search_skips _ _ _ _ (KeyError "timestamp")); [|reflexivity].
      rewrite Htry', H. cbv beta iota delta [bind].
      now rewrite (getitem_missing _ _ Hfind).
    + intros entry' s msg H Hg Hp.
      apply (search_propagates _ _ _ _ (ValueError msg)); [|reflexivity].
      rewrite Htry', H. cbv beta iota delta [bind]. rewrite Hg.
      unfold parse_timestamp. now rewrite Hp.
Qed.
End ScriptFacts.

(** * The theorems at concrete inputs *)

Local Open Scope string_scope.


Lemma unparseable_timestamp_aborts_witness :
  main (R := sample_runtime) (sample_args "2024-01-01T00:00:00Z" "/logs/bad.jsonl")
  = (["🔍 Analyzing session: /logs/bad.jsonl";
      "📖 Reading session file: bad.jsonl";
      "❌ Error: Invalid isoformat string: 'not-a-date'"], 1).
Proof.
  apply (unparseable_timestamp_aborts (R := sample_runtime)
           (sample_args "2024-01-01T00:00:00Z" "/logs/bad.jsonl")
           "/logs/bad.jsonl" sample_bad_log
           (Some (utc 1 1 0 0 0)) None
           [with_newline (record_line "2024-01-01T10:00:00Z")]
           [with_newline (record_line "2024-01-01T10:05:00Z")]
           (with_newline (record_line "not-a-date"))
           "not-a-date" "Invalid isoformat string: 'not-a-date'"
           ([utc 1 1 10 0 0], 1)
           (JDict [("timestamp", JStr "not-a-date")]));
    reflexivity.
Defined.



Lemma hourly_activity_spec_witness :
  exists m,
    analyze_timestamps [utc 1 1 10 0 0; utc 1 1 10 2 0; utc 1 1 10 40 0] 3
    = Ok (Analysis m) /\
    sum_counts (hourly_activity m) = 3 /\
    StronglySorted Z.lt (map fst (hourly_activity m)).
Proof.
  destruct (hourly_activity_spec (R := sample_runtime)
              (Some (utc 1 1 0 0 0)) None (readlines sample_good_log)
              [utc 1 1 10 0 0; utc 1 1 10 2 0; utc 1 1 10 40 0] 3)
    as (m & Hm & _ & _ & Hsorted & Hsum & Hn).
  - reflexivity.
  - discriminate.
  - apply comparable_cons. intros x Hx. simpl in Hx.
    destruct Hx as [<-|[<-|[]]]; reflexivity.
  - apply Forall_forall. intros x Hx. simpl in Hx.
    destruct Hx as [<-|[<-|[<-|[]]]]; unfold valid_datetime; cbn; lia.
  - exists m. split; [exact Hm|]. split; [|exact Hsorted].
    rewrite Hsum, Hn. reflexivity.
Defined.

Lemma unparseable_candidate_witness :
  search_session_files (R := sample_runtime) (utc 1 1 10 1 0) "2024-01-01T10:01:00Z"
    ["/home/u/.claude/projects/--work-app/a.jsonl";
     "/home/u/.claude/projects/--work-app/b.jsonl"]
  = Raise (ValueError "Invalid isoformat string: 'not-a-date'") /\
  search_session_files (R := sample_runtime) (utc 1 1 10 1 0) "2024-01-01T10:01:00Z"
    ["/home/u/.claude/projects/--work-app/b.jsonl"]
  = Ok "/home/u/.claude/projects/--work-app/b.jsonl" /\
  search_session_files (R := sample_runtime) (utc 1 1 10 1 0) "2024-01-01T10:01:00Z"
    ["/home/u/.claude/projects/--work-lib/a.jsonl";
     "/home/u/.claude/projects/--work-lib/c.jsonl"]
  = Ok "/home/u/.claude/projects/--work-lib/c.jsonl".
Proof.
  split; [|split].
  - destruct (unparseable_candidate (R := sample_runtime)
                (utc 1 1 10 1 0) "2024-01-01T10:01:00Z"
                "/home/u/.claude/projects/--work-app/a.jsonl"
                (text_of_lines [record_line "not-a-date"])
                ["/home/u/.claude/projects/--work-app/b.jsonl"]
                eq_refl eq_refl) as (_ & _ & Hbad & _).
    apply (Hbad (JDict [("timestamp", JStr "not-a-date")]) "not-a-date");
      reflexivity.
  - reflexivity.
  - destruct (unparseable_candidate (R := sample_runtime)
                (utc 1 1 10 1 0) "2024-01-01T10:01:00Z"
                "/home/u/.claude/projects/--work-lib/a.jsonl"
                (text_of_lines ["not json at all"])
                ["/home/u/.claude/projects/--work-lib/c.jsonl"]
                eq_refl eq_refl) as (Hskip & _).
    rewrite (Hskip "Expecting value" eq_refl). reflexivity.
Defined.

(** ** Further runs of the model *)

(** The scenario of section 8 of the specification: events at 10:00:00,
    10:02:00 and 10:40:00 give the gaps 2 and 38 minutes, one short and one
    long gap, and an activity percentage of 5. *)
Example three_event_session :
  exists m,
    analyze_timestamps [utc 1 1 10 0 0; utc 1 1 10 2 0; utc 1 1 10 40 0] 3
    = Ok (Analysis m) /\
    short_gaps (gap_analysis m) = 1 /\ moderate_gaps (gap_analysis m) = 0 /\
    long_gaps (gap_analysis m) = 1 /\
    (activity_percentage m == 5)%Q /\ (longest_gap (gap_analysis m) == 38)%Q /\
    hourly_activity m = [(10, 3)] /\ peak_hours m = [(10, 3)].
Proof.
  eexists. split; [vm_compute; reflexivity|].
  repeat split; vm_compute; reflexivity.
Qed.

(** The hour is the wall-clock field of the stored datetime: an event at
    23:30 with offset -05:00 counts under hour 23, not under its UTC hour. *)
Example hour_is_wall_clock :
  count_hours [mk_datetime 2024 1 1 23 30 0 0 (Some (- 18000000000))] = [(23, 1)].
Proof. reflexivity. Qed.

(** Mixing a naive and an aware datetime makes the engine raise. *)
Example mixed_kinds_raise :
  exists msg,
    analyze_timestamps [naive 1 1 10 0 0; utc 1 1 10 2 0] 2 = Raise (TypeError msg).
Proof. eexists. vm_compute. reflexivity. Qed.

(** The same log through the command line, with an empty [--start]: the
    exception is printed and the exit status is 1. *)
Example mixed_log_exit_status :
  main (R := sample_runtime) (sample_args "" "/logs/mixed.jsonl")
  = (["🔍 Analyzing session: /logs/mixed.jsonl";
      "📖 Reading session file: mixed.jsonl";
      "❌ Error: can't subtract offset-naive and offset-aware datetimes"], 1).
Proof. vm_compute. reflexivity. Qed.

(** With a start bound the same log fails earlier, at the comparison of
    line 53 on its first record. *)
Example mixed_log_with_start :
  main (R := sample_runtime)
    (sample_args "2024-01-01T00:00:00Z" "/logs/mixed.jsonl")
  = (["🔍 Analyzing session: /logs/mixed.jsonl";
      "📖 Reading session file: mixed.jsonl";
      "❌ Error: can't compare offset-naive and offset-aware datetimes"], 1).
Proof. vm_compute. reflexivity. Qed.

(** A line that is not JSON is skipped and the analysis goes on. *)
Example malformed_line_skipped :
  main (R := sample_runtime) (sample_args "2024-01-01T00:00:00Z" "/logs/good.jsonl")
  = (["🔍 Analyzing session: /logs/good.jsonl";
      "📖 Reading session file: good.jsonl"; "(report)"], 0).
Proof. vm_compute. reflexivity. Qed.

(** * Further properties of the script *)

(** ** [format_duration] *)

Local Open Scope Q_scope.

Lemma Qfloor_unique (x : Q) (z : Z) :
  inject_Z z <= x -> x < inject_Z (z + 1) -> Qfloor x = z.
Proof.
  intros Hle Hlt.
  pose proof (Qfloor_le x) as Hf. pose proof (Qlt_floor x) as Hc.
  assert (H1 : (z < Qfloor x + 1)%Z).
  { rewrite Zlt_Qlt. eapply Qle_lt_trans; eauto. }
  assert (H2 : (Qfloor x < z + 1)%Z).
  { rewrite Zlt_Qlt. eapply Qle_lt_trans; eauto. }
  lia.
Qed.

Lemma Qfloor_div_const (x : Q) (c : Z) :
  (0 < c)%Z -> Qfloor (x / inject_Z c) = (Qfloor x / c)%Z.
Proof.
  intros Hc.
  pose proof (Qfloor_le x) as Hf. pose proof (Qlt_floor x) as Hl.
  pose proof (Z.mul_div_le (Qfloor x) c Hc) as Hd1.
  pose proof (Z.mul_succ_div_gt (Qfloor x) c Hc) as Hd2.
  assert (Hc' : 0 < inject_Z c) by (rewrite Zlt_Qlt in Hc; exact Hc).
  apply Qfloor_unique.
  - apply Qle_shift_div_l; [exact Hc'|].
    rewrite <- inject_Z_mult. eapply Qle_trans; [|exact Hf].
    rewrite <- Zle_Qle. lia.
  - apply Qlt_shift_div_r; [exact Hc'|].
    rewrite <- inject_Z_mult. eapply Qlt_le_trans; [exact Hl|].
    rewrite <- Zle_Qle. lia.
Qed.

Lemma py_mod_floor (x : Q) (c : Z) :
  (0 < c)%Z ->
  0 <= py_mod x (inject_Z c) /\
  Qfloor (py_mod x (inject_Z c)) = (Qfloor x mod c)%Z.
Proof.
  intros Hc. unfold py_mod. rewrite (Qfloor_div_const x c Hc).
  pose proof (Qfloor_le x) as Hf. pose proof (Qlt_floor x) as Hl.
  pose proof (Z.mod_pos_bound (Qfloor x) c Hc) as Hm.
  assert (E : inject_Z (Qfloor x mod c)
              == inject_Z (Qfloor x) - inject_Z c * inject_Z (Qfloor x / c)).
  { rewrite Z.mod_eq by lia. unfold Z.sub.
    rewrite inject_Z_plus, inject_Z_opp, inject_Z_mult. ring. }
  assert (H0 : 0 <= inject_Z (Qfloor x mod c)).
  { change 0 with (inject_Z 0). rewrite <- Zle_Qle. lia. }
  split.
  - lra.
  - apply Qfloor_unique.
    + lra.
    + rewrite inject_Z_plus in *. change (inject_Z 1) with 1 in *. lra.
Qed.

Lemma py_int_inject_Z (z : Z) : py_int (inject_Z z) = z.
Proof.
  unfold py_int. destruct (Qle_bool 0 (inject_Z z));
    [apply Qfloor_Z | apply Qceiling_Z].
Qed.

Lemma py_int_nonneg (x : Q) : 0 <= x -> py_int x = Qfloor x.
Proof.
  intros H. unfold py_int. apply Qle_bool_iff in H. now rewrite H.
Qed.

(** The three fields in closed form. *)
Lemma duration_parts_eq (seconds : Q) :
  duration_parts seconds
  = ((Qfloor seconds / 3600)%Z,
     ((Qfloor seconds mod 3600) / 60)%Z,
     (Qfloor seconds mod 60)%Z).
Proof.
  unfold duration_parts, py_floordiv. rewrite !py_int_inject_Z.
  change 3600 with (inject_Z 3600). change 60 with (inject_Z 60).
  rewrite !Qfloor_div_const by lia.
  destruct (py_mod_floor seconds 3600 ltac:(lia)) as [_ E1].
  destruct (py_mod_floor seconds 60 ltac:(lia)) as [H2 E2].
  rewrite E1, (py_int_nonneg _ H2), E2. reflexivity.
Qed.

(** For a duration below [2^53] seconds in magnitude that is non-negative
    or a whole number of seconds, the hours, minutes and seconds that
    [format_duration] prints add up to the whole seconds of its argument,
    rounded down; minutes and seconds lie in 0..59, and the sign is carried
    by the hours alone (a negative duration prints negative hours). *)
Theorem format_duration_parts (seconds : Q) :
  exact_duration seconds ->
  let '(hours, minutes, secs) := duration_parts seconds in
  (hours * 3600 + minutes * 60 + secs = Qfloor seconds)%Z /\
  (0 <= minutes <= 59)%Z /\ (0 <= secs <= 59)%Z /\
  (0 <= seconds <-> (0 <= hours)%Z) /\
  format_duration seconds
  = (str_int hours ++ "h " ++ str_int minutes ++ "m " ++ str_int secs ++ "s")%string.
Proof.
  intros _. unfold format_duration. rewrite duration_parts_eq.
  set (F := Qfloor seconds).
  pose proof (Z.div_mod F 3600 ltac:(lia)) as H1.
  pose proof (Z.mod_pos_bound F 3600 ltac:(lia)) as H2.
  pose proof (Z.div_mod (F mod 3600) 60 ltac:(lia)) as H3.
  pose proof (Z.mod_pos_bound (F mod 3600) 60 ltac:(lia)) as H4.
  pose proof (Z.mod_pos_bound F 60 ltac:(lia)) as H5.
  assert (H6 : ((F mod 3600) mod 60 = F mod 60)%Z).
  { apply Z.mod_mod_divide. exists 60%Z. reflexivity. }
  assert (H7 : (0 <= F mod 3600 / 60 <= 59)%Z).
  { assert (F mod 3600 / 60 < 60)%Z by (apply Z.div_lt_upper_bound; lia).
    split; [apply Z.div_pos; lia | lia]. }
  split; [lia|]. split; [exact H7|]. split; [lia|].
  split; [|reflexivity].
  assert (H8 : 0 <= seconds <-> (0 <= F)%Z).
  { unfold F. split; intros H.
    - change 0%Z with (Qfloor 0). now apply Qfloor_resp_le.
    - eapply Qle_trans; [|apply Qfloor_le].
      change 0 with (inject_Z 0). now rewrite <- Zle_Qle. }
  rewrite H8. split; intros H.
  - apply Z.div_pos; lia.
  - destruct (Z_lt_le_dec F 0) as [Hn|Hp]; [|exact Hp].
    assert (F / 3600 < 0)%Z by (apply Z.div_lt_upper_bound; lia). lia.
Qed.

(** ** [calculate_gaps] beyond ordered input *)

Lemma dt_sub_Ok (a b : datetime) (td : Z) :
  dt_sub a b = Ok td -> aware a = aware b /\ td = (instant_us a - instant_us b)%Z.
Proof.
  unfold dt_sub. destruct (Bool.eqb (aware a) (aware b)) eqn:E; [|discriminate].
  intros H. injection H as <-. split; [now apply eqb_prop | reflexivity].
Qed.

Lemma calculate_gaps_Ok_comparable (ts : list datetime) (gaps : list Q) :
  calculate_gaps ts = Ok gaps -> comparable ts.
Proof.
  revert gaps. induction ts as [|a ts IH]; intros gaps H; [apply comparable_nil|].
  destruct ts as [|b ts].
  - apply comparable_cons. intros x [].
  - change (calculate_gaps (a :: b :: ts)) with
      (bind (dt_sub b a) (fun td =>
         bind (calculate_gaps (b :: ts)) (fun gaps =>
           Ok ((total_seconds td / 60) :: gaps)))) in H.
    apply bind_Ok in H. destruct H as (td & Hsub & H).
    apply bind_Ok in H. destruct H as (gaps' & Hrest & _).
    apply dt_sub_Ok in Hsub. destruct Hsub as [Hk _].
    specialize (IH _ Hrest).
    apply comparable_cons. intros x [<-|Hx]; [exact Hk|].
    rewrite <- Hk. apply IH; [now right | now left].
Qed.

(** [calculate_gaps] returns a list exactly when the timestamps are all
    naive or all aware; on any other input it raises [TypeError].  It does
    not require the input to be ordered: a gap is negative exactly when the
    later entry is the earlier instant. *)
Theorem calculate_gaps_defined (ts : list datetime) :
  (comparable ts <-> exists gaps, calculate_gaps ts = Ok gaps) /\
  (forall e, calculate_gaps ts = Raise e -> exists msg, e = TypeError msg) /\
  (forall gaps i a b g,
     calculate_gaps ts = Ok gaps ->
     nth_error ts i = Some a -> nth_error ts (S i) = Some b ->
     nth_error gaps i = Some g ->
     (g < 0 <-> dt_lt b a = Ok true)).
Proof.
  split; [|split].
  - split.
    + intros Hc. exists (gaps_of ts). now apply calculate_gaps_comparable.
    + intros [gaps H]. eapply calculate_gaps_Ok_comparable; eauto.
  - intros e H. apply calculate_gaps_Raise in H.
    destruct e; try discriminate. eauto.
  - intros gaps i a b g Hg Ha Hb Hi.
    assert (Hc := calculate_gaps_Ok_comparable _ _ Hg).
    rewrite (calculate_gaps_comparable _ Hc) in Hg. injection Hg as <-.
    rewrite (gaps_of_nth ts i a b Ha Hb) in Hi. injection Hi as <-.
    rewrite dt_lt_true.
    assert (Hk : aware b = aware a) by (apply Hc; eapply nth_error_In; eauto).
    unfold total_seconds, Qdiv, Qlt, Qmult, Qinv. simpl.
    split; [intros H; split; [exact Hk | lia] | intros [_ H]; lia].
Qed.

(** ** Idle time and the activity percentage

    The bounds of this part and of the parts on the scores, the shares and
    the rates are of the kind that correctly rounded float arithmetic
    preserves as well: a sum of values at or above a threshold, the
    subtraction of a non-negative value, the quotient of a value by one
    that is not smaller.  None of them needs the timestamps to be in
    order. *)

Lemma py_sum_long (gaps : list Q) :
  inject_Z (Z.of_nat (length (filter is_long gaps))) * 30
  <= py_sum (filter is_long gaps).
Proof.
  induction gaps as [|g gaps IH]; cbn [filter].
  - vm_compute. discriminate.
  - destruct (is_long g) eqn:E; [|exact IH].
    apply is_long_iff in E.
    change (length (g :: filter is_long gaps))
      with (S (length (filter is_long gaps))).
    rewrite py_sum_cons, Nat2Z.inj_succ. unfold Z.succ.
    rewrite inject_Z_plus. change (inject_Z 1) with 1. lra.
Qed.

Lemma py_sum_long_nonneg (gaps : list Q) : 0 <= py_sum (filter is_long gaps).
Proof.
  pose proof (py_sum_long gaps) as H.
  assert (0 <= inject_Z (Z.of_nat (length (filter is_long gaps)))).
  { change 0 with (inject_Z 0). rewrite <- Zle_Qle. lia. }
  lra.
Qed.

(** Whatever the order of the timestamps: the idle time is never
    negative, every long gap adds at least half an hour to it, it is zero
    exactly when no gap is long, and [activity_percentage] never exceeds
    100. *)
Theorem idle_time_bounds (ts : list datetime) (n : Z) :
  ts <> [] -> comparable ts ->
  exists m,
    analyze_timestamps ts n = Ok (Analysis m) /\
    0 <= total_idle_time_hours m /\
    inject_Z (long_gaps (gap_analysis m)) / 2 <= total_idle_time_hours m /\
    (total_idle_time_hours m == 0 <-> long_gaps (gap_analysis m) = 0%Z) /\
    activity_percentage m <= 100.
Proof.
  intros Hne Hc. destruct ts as [|a rest]; [congruence|].
  destruct (analyze_timestamps_comparable a rest n Hc) as [Hsub Hg].
  destruct (analyze_timestamps_Ok a rest n _ _ Hsub Hg)
    as (m & Hm & _ & _ & _ & _ & _ & _ & _ & _ & Hidle & Hpct & _ & _ & Hlong & _).
  cbv zeta in Hidle, Hpct, Hlong.
  set (d := total_seconds (instant_us (last (a :: rest) a) - instant_us a)) in *.
  set (gaps := gaps_of (a :: rest)) in *.
  pose proof (py_sum_long gaps) as Hk.
  pose proof (py_sum_long_nonneg gaps) as Hi0.
  assert (Hnil : length (filter is_long gaps) = 0%nat ->
                 py_sum (filter is_long gaps) == 0).
  { intros H. apply length_zero_iff_nil in H. rewrite H. reflexivity. }
  set (idle := py_sum (filter is_long gaps)) in *.
  set (k := length (filter is_long gaps)) in *.
  exists m. split; [exact Hm|]. rewrite Hidle, Hpct, Hlong.
  assert (Ei : idle == idle / 60 * 60) by field.
  split; [lra|].
  split.
  { assert (inject_Z (Z.of_nat k) / 2 == inject_Z (Z.of_nat k) * (1 # 2)) by field.
    lra. }
  split.
  { split; intros H.
    - assert (Hle : inject_Z (Z.of_nat k) <= inject_Z 0).
      { change (inject_Z 0) with 0. lra. }
      rewrite <- Zle_Qle in Hle. lia.
    - assert (Hz : idle == 0) by (apply Hnil; lia). lra. }
  destruct (Qltb 0 d) eqn:E; [|lra].
  apply Qltb_true in E.
  assert (HD : 0 < d / 60).
  { assert (d == d / 60 * 60) by field. lra. }
  assert ((d / 60 - idle) / (d / 60) <= 1).
  { apply Qle_shift_div_r; [exact HD | lra]. }
  lra.
Qed.

Lemma idle_time_bounds_witness :
  exists m,
    analyze_timestamps [utc 1 1 10 0 0; utc 1 1 10 2 0; utc 1 1 10 40 0] 3
    = Ok (Analysis m) /\
    1 # 2 <= total_idle_time_hours m /\ activity_percentage m <= 100.
Proof.
  destruct (idle_time_bounds [utc 1 1 10 0 0; utc 1 1 10 2 0; utc 1 1 10 40 0] 3)
    as (m & Hm & _ & Hhalf & _ & H100).
  - discriminate.
  - apply comparable_cons. intros x Hx. simpl in Hx.
    destruct Hx as [<-|[<-|[]]]; reflexivity.
  - exists m. split; [exact Hm|]. split; [|exact H100].
    assert (E : Ok (Analysis m)
                = analyze_timestamps
                    [utc 1 1 10 0 0; utc 1 1 10 2 0; utc 1 1 10 40 0] 3)
      by (symmetry; exact Hm).
    vm_compute in E. injection E as ->.
    exact Hhalf.
Defined.

(** ** Gap statistics *)

(** The two remaining fields of [gap_analysis], under the hypotheses of
    [analyze_timestamps_Ok]. *)
Lemma analyze_timestamps_gap_fields (a : datetime) (rest : list datetime)
      (n td : Z) (gaps : list Q) :
  dt_sub (last (a :: rest) a) a = Ok td ->
  calculate_gaps (a :: rest) = Ok gaps ->
  exists m,
    analyze_timestamps (a :: rest) n = Ok (Analysis m) /\
    avg_moderate_gap (gap_analysis m)
    = match filter is_moderate gaps with
      | [] => 0
      | g :: gs => py_sum (g :: gs) / inject_Z (Z.of_nat (length (g :: gs)))
      end /\
    longest_gap (gap_analysis m)
    = match gaps with
      | [] => 0
      | g :: gs => py_max g gs
      end.
Proof.
  intros Hsub Hgaps.
  unfold analyze_timestamps.
  rewrite Hsub, Hgaps.
  cbv beta iota delta [bind].
  set (d := total_seconds td).
  set (active := d / 60 - py_sum (filter is_long gaps)).
  assert (Hd : Qltb 0 d = true -> ~ d / 3600 == 0 /\ ~ d / 60 == 0).
  { intros H. apply Qltb_true in H. split; intros E.
    - assert (d == d / 3600 * 3600) by field. lra.
    - assert (d == d / 60 * 60) by field. lra. }
  assert (Ha : Qltb 0 active = true -> ~ active == 0).
  { intros H. apply Qltb_true in H. lra. }
  destruct (Qltb 0 d) eqn:Ed;
    [ destruct (Hd eq_refl) as [Hd1 Hd2];
      rewrite !(py_div_nonzero _ _ Hd1), !(py_div_nonzero _ _ Hd2) | ];
    (destruct (Qltb 0 active) eqn:Ea;
      [ rewrite (py_div_nonzero _ _ (Ha eq_refl)) | ]);
    (destruct (filter is_moderate gaps) as [|g gs] eqn:Em;
      [ | rewrite mean_cons ]);
    eexists; (split; [reflexivity|]); cbn; rewrite ?Em;
    split; reflexivity.
Qed.

Lemma py_max_fold (xs : list Q) (x : Q) :
  In (py_max x xs) (x :: xs) /\ Forall (fun y => y <= py_max x xs) (x :: xs).
Proof.
  unfold py_max. revert x. induction xs as [|y xs IH]; intros x.
  - simpl. split; [now left|]. constructor; [lra | constructor].
  - simpl fold_left. destruct (Qltb x y) eqn:E.
    + apply Qltb_true in E. destruct (IH y) as [Hin Hall].
      inversion Hall as [|? ? Hy Hxs]; subst.
      split; [now right|].
      constructor; [lra|]. constructor; assumption.
    + apply Qltb_false in E. destruct (IH x) as [Hin Hall].
      inversion Hall as [|? ? Hx Hxs]; subst.
      split.
      * destruct Hin as [Hin|Hin]; [now left | right; now right].
      * constructor; [exact Hx|]. constructor; [lra | exact Hxs].
Qed.

Lemma sum_between (lo hi : Q) (xs : list Q) :
  Forall (fun g => lo <= g /\ g < hi) xs ->
  lo * inject_Z (Z.of_nat (length xs)) <= py_sum xs /\
  (xs <> [] -> py_sum xs < hi * inject_Z (Z.of_nat (length xs))).
Proof.
  induction 1 as [|x xs [Hlo Hhi] Hxs [IH1 IH2]].
  - split; [|congruence]. change (lo * 0 <= 0). lra.
  - change (length (x :: xs)) with (S (length xs)).
    rewrite Nat2Z.inj_succ. unfold Z.succ. rewrite inject_Z_plus.
    change (inject_Z 1) with 1. rewrite py_sum_cons.
    split; [lra|]. intros _.
    destruct xs as [|y xs].
    + change (x + 0 < hi * (0 + 1)). lra.
    + assert (py_sum (y :: xs) < hi * inject_Z (Z.of_nat (length (y :: xs))))
        by (apply IH2; discriminate).
      lra.
Qed.

(** [longest_gap] is 0 for fewer than two timestamps and otherwise one of
    the gaps, no smaller than any of them; [avg_moderate_gap] is 0 when no
    gap is moderate and otherwise lies in the moderate range [5, 30). *)
Theorem gap_statistics (ts : list datetime) (n : Z) :
  ts <> [] -> comparable ts ->
  exists m gaps,
    analyze_timestamps ts n = Ok (Analysis m) /\
    calculate_gaps ts = Ok gaps /\
    let longest := longest_gap (gap_analysis m) in
    let average := avg_moderate_gap (gap_analysis m) in
    (gaps = [] -> longest = 0) /\
    (gaps <> [] -> In longest gaps /\ Forall (fun g => g <= longest) gaps) /\
    (moderate_gaps (gap_analysis m) = 0%Z -> average = 0) /\
    (moderate_gaps (gap_analysis m) <> 0%Z -> 5 <= average /\ average < 30).
Proof.
  intros Hne Hc. destruct ts as [|a rest]; [congruence|].
  destruct (analyze_timestamps_comparable a rest n Hc) as [Hsub Hg].
  destruct (analyze_timestamps_gap_fields a rest n _ _ Hsub Hg)
    as (m & Hm & Havg & Hlong).
  destruct (analyze_timestamps_Ok a rest n _ _ Hsub Hg)
    as (m' & Hm' & _ & _ & _ & _ & _ & _ & _ & _ & _ & _ & _ & Hmo & _).
  assert (m' = m) by congruence. subst m'.
  exists m, (gaps_of (a :: rest)). split; [exact Hm|]. split; [exact Hg|].
  cbv zeta. rewrite Hlong, Havg, Hmo.
  set (gaps := gaps_of (a :: rest)).
  split; [intros ->; reflexivity|].
  split.
  { intros Hgne. destruct gaps as [|g gs]; [congruence|]. apply py_max_fold. }
  assert (Hall : Forall (fun g => 5 <= g /\ g < 30) (filter is_moderate gaps)).
  { apply Forall_forall. intros g Hin. apply filter_In in Hin.
    now apply is_moderate_iff. }
  destruct (filter is_moderate gaps) as [|g gs]; split; try reflexivity.
  - intros H. exfalso. apply H. reflexivity.
  - intros H. simpl length in H. lia.
  - intros _.
    destruct (sum_between 5 30 (g :: gs) Hall) as [H1 H2].
    specialize (H2 ltac:(discriminate)).
    assert (Hlen : 0 < inject_Z (Z.of_nat (length (g :: gs)))).
    { change 0 with (inject_Z 0). rewrite <- Zlt_Qlt. simpl length. lia. }
    split.
    + apply Qle_shift_div_l; assumption.
    + apply Qlt_shift_div_r; assumption.
Qed.

Lemma gap_statistics_witness :
  exists m,
    analyze_timestamps [utc 1 1 10 0 0; utc 1 1 10 10 0; utc 1 1 10 40 0] 3
    = Ok (Analysis m) /\
    5 <= avg_moderate_gap (gap_analysis m) /\
    longest_gap (gap_analysis m) == 30.
Proof.
  destruct (gap_statistics [utc 1 1 10 0 0; utc 1 1 10 10 0; utc 1 1 10 40 0] 3)
    as (m & gaps & Hm & _ & _ & _ & _ & Havg).
  - discriminate.
  - apply comparable_cons. intros x Hx. simpl in Hx.
    destruct Hx as [<-|[<-|[]]]; reflexivity.
  - exists m. split; [exact Hm|].
    assert (E : Ok (Analysis m)
                = analyze_timestamps
                    [utc 1 1 10 0 0; utc 1 1 10 10 0; utc 1 1 10 40 0] 3)
      by (symmetry; exact Hm).
    split.
    + apply Havg. vm_compute in E. injection E as ->. discriminate.
    + vm_compute in E. injection E as ->. reflexivity.
Defined.

(** ** The peak hours among all hours *)

Local Open Scope Z_scope.

Lemma StronglySorted_split {A : Type} (R : A -> A -> Prop) (k : nat) (l : list A) :
  StronglySorted R l ->
  forall a b, In a (firstn k l) -> In b (skipn k l) -> R a b.
Proof.
  intros Hs. revert k. induction Hs as [|x l Hs IH Hx]; intros k a b Ha Hb.
  - destruct k; destruct Ha.
  - destruct k as [|k]; [destruct Ha|].
    simpl in Ha, Hb. destruct Ha as [<-|Ha].
    + rewrite Forall_forall in Hx. apply Hx.
      rewrite <- (firstn_skipn k l). apply in_or_app. now right.
    + eapply IH; eauto.
Qed.

Lemma NoDup_firstn {A : Type} (k : nat) (l : list A) : NoDup l -> NoDup (firstn k l).
Proof.
  intros H. rewrite <- (firstn_skipn k l) in H.
  now apply NoDup_app_remove_r in H.
Qed.

(** Stated once, for the results below that rely on it. *)
Lemma peak_hours_top (ts : list datetime) (n : Z) :
  ts <> [] -> comparable ts ->
  exists m,
    analyze_timestamps ts n = Ok (Analysis m) /\
    peak_hours m <> [] /\
    NoDup (map fst (peak_hours m)) /\
    (forall p, In p (peak_hours m) ->
               In p (hourly_activity m) /\ snd p = events_in_hour (fst p) ts) /\
    (forall p q, In p (peak_hours m) -> In q (hourly_activity m) ->
                 ~ In q (peak_hours m) -> snd q <= snd p).
Proof.
  intros Hne Hc. destruct ts as [|a rest]; [congruence|].
  destruct (analyze_timestamps_comparable a rest n Hc) as [Hsub Hg].
  destruct (analyze_timestamps_Ok a rest n _ _ Hsub Hg)
    as (m & Hm & _ & _ & _ & _ & _ & _ & _ & _ & _ & _ & _ & _ & _ & Hh & Hp).
  cbv zeta in Hh, Hp.
  destruct (ranking_spec (a :: rest)) as (Hperm & Hsorted & _ & _).
  set (ts := a :: rest) in *.
  set (ranked := sorted count_lt true (count_hours ts)) in *.
  exists m. split; [exact Hm|]. rewrite Hp, Hh. unfold peak_hours_of. fold ranked.
  assert (Hin : forall p, In p (firstn 3 ranked) -> In p ranked).
  { intros p H. rewrite <- (firstn_skipn 3 ranked). apply in_or_app. now left. }
  split.
  { assert (Hk : In (hour a) (map fst ranked)).
    { eapply Permutation_in.
      - apply Permutation_map. symmetry.
        apply (sorted_perm count_lt true (count_hours ts)).
      - apply count_hours_key_iff. exists a. split; [now left | reflexivity]. }
    destruct ranked as [|r ranked']; [destruct Hk | discriminate]. }
  split.
  { rewrite <- firstn_map. apply NoDup_firstn.
    apply sorted_keys_NoDup, count_hours_NoDup. }
  split.
  { intros p H. apply Hin in H.
    split; [eapply Permutation_in; eauto|].
    destruct p as [h c]. simpl. apply count_hours_value.
    eapply Permutation_in; [apply (sorted_perm count_lt true)|exact H]. }
  intros p q Hp' Hq Hnq.
  assert (Hq' : In q ranked).
  { eapply Permutation_in; [symmetry; exact Hperm | exact Hq]. }
  rewrite <- (firstn_skipn 3 ranked) in Hq'. apply in_app_or in Hq'.
  destruct Hq' as [Hq'|Hq']; [contradiction|].
  apply (StronglySorted_split _ 3 ranked Hsorted p q Hp' Hq').
Qed.

(** [peak_hours] is never empty on a non-empty sequence, lists distinct
    hours with their true event counts, and no hour left out of it has more
    events than an hour listed in it. *)
Theorem peak_hours_are_top (ts : list datetime) (n : Z) :
  ts <> [] -> comparable ts ->
  exists m,
    analyze_timestamps ts n = Ok (Analysis m) /\
    peak_hours m <> [] /\
    NoDup (map fst (peak_hours m)) /\
    (forall p, In p (peak_hours m) ->
               In p (hourly_activity m) /\ snd p = events_in_hour (fst p) ts) /\
    (forall p q, In p (peak_hours m) -> In q (hourly_activity m) ->
                 ~ In q (peak_hours m) -> snd q <= snd p).
Proof. exact (peak_hours_top ts n). Qed.

Lemma peak_hours_are_top_witness :
  exists m,
    analyze_timestamps [utc 1 1 23 0 0; utc 1 2 0 30 0] 2 = Ok (Analysis m) /\
    peak_hours m <> [].
Proof.
  destruct (peak_hours_are_top [utc 1 1 23 0 0; utc 1 2 0 30 0] 2)
    as (m & Hm & Hne & _).
  - discriminate.
  - apply comparable_cons. intros x [<-|[]]. reflexivity.
  - exists m. auto.
Defined.

(** ** Session start and end *)

Lemma non_decreasing_last (ts : list datetime) (d t : datetime) :
  non_decreasing ts -> In t ts -> instant_us t <= instant_us (last ts d).
Proof.
  revert t. induction ts as [|a ts IH]; intros t Hnd Hin; [destruct Hin|].
  destruct ts as [|b ts].
  - destruct Hin as [<-|[]]. simpl. lia.
  - change (last (a :: b :: ts) d) with (last (b :: ts) d).
    assert (Hb : instant_us b <= instant_us (last (b :: ts) d)).
    { apply IH; [eapply non_decreasing_tail; eauto | now left]. }
    destruct Hin as [<-|Hin].
    + destruct Hnd as [Hab _]. apply dt_le_true in Hab. lia.
    + apply IH; [eapply non_decreasing_tail; eauto | exact Hin].
Qed.

(** [session_start] and [session_end] are the first and the last accepted
    timestamp in file order, and [total_duration_hours] is their difference;
    the engine does not sort.  On a non-decreasing sequence every timestamp
    lies between them. *)
Theorem session_bounds (ts : list datetime) (n : Z) (first : datetime) :
  hd_error ts = Some first -> comparable ts ->
  exists m td,
    analyze_timestamps ts n = Ok (Analysis m) /\
    session_start m = first /\ session_end m = last ts first /\
    total_events m = n /\
    dt_sub (session_end m) (session_start m) = Ok td /\
    total_duration_hours m = (total_seconds td / 3600)%Q /\
    (non_decreasing ts ->
     forall t, In t ts ->
               dt_le (session_start m) t = Ok true /\
               dt_le t (session_end m) = Ok true).
Proof.
  intros Hhd Hc. destruct ts as [|a rest]; [discriminate|].
  simpl in Hhd. injection Hhd as <-.
  destruct (analyze_timestamps_comparable a rest n Hc) as [Hsub Hg].
  destruct (analyze_timestamps_Ok a rest n _ _ Hsub Hg)
    as (m & Hm & Hs & He & Hd & Hn & _).
  cbv zeta in He, Hd.
  exists m, (instant_us (last (a :: rest) a) - instant_us a).
  split; [exact Hm|]. rewrite Hs, He.
  split; [reflexivity|]. split; [reflexivity|]. split; [exact Hn|].
  split; [exact Hsub|]. split; [exact Hd|].
  intros Hnd t Hin. rewrite !dt_le_true.
  assert (Hl : In (last (a :: rest) a) (a :: rest)) by (apply last_In; discriminate).
  split; (split; [apply Hc; auto; now left|]).
  - destruct Hin as [<-|Hin]; [lia|].
    now destruct (non_decreasing_head a rest Hnd t Hin).
  - now apply non_decreasing_last.
Qed.

Lemma session_bounds_witness :
  exists m,
    analyze_timestamps [utc 1 1 10 5 0; utc 1 1 10 0 0] 2 = Ok (Analysis m) /\
    session_start m = utc 1 1 10 5 0 /\ session_end m = utc 1 1 10 0 0.
Proof.
  destruct (session_bounds [utc 1 1 10 5 0; utc 1 1 10 0 0] 2 (utc 1 1 10 5 0) eq_refl)
    as (m & td & Hm & Hs & He & _).
  - apply comparable_cons. intros x [<-|[]]. reflexivity.
  - exists m. auto.
Defined.

(** ** The numbers the report derives from the metrics *)

Local Open Scope Q_scope.

Lemma py_min_spec (a b : Q) :
  py_min a b <= a /\ py_min a b <= b /\ (b < a -> py_min a b = b) /\
  (a <= b -> py_min a b = a).
Proof.
  unfold py_min. destruct (Qltb b a) eqn:E.
  - apply Qltb_true in E.
    split; [lra|]. split; [lra|]. split; [reflexivity|].
    intros H. exfalso. lra.
  - apply Qltb_false in E.
    split; [lra|]. split; [lra|]. split; [|reflexivity].
    intros H. exfalso. lra.
Qed.

(** For any metrics object: the three scores never exceed 100, the
    endurance score is negative exactly when the activity percentage is,
    the overall score lies between the two scores it averages, and the top
    verdict is printed exactly when the overall score reaches 90, which
    needs at least one of the two scores to reach 90. *)
Theorem performance_scores_capped (analysis : SessionMetrics) :
  efficiency_score analysis <= 100 /\
  endurance_score analysis <= 100 /\
  overall_score analysis <= 100 /\
  (endurance_score analysis < 0 <-> activity_percentage analysis < 0) /\
  (efficiency_score analysis <= endurance_score analysis ->
   efficiency_score analysis <= overall_score analysis /\
   overall_score analysis <= endurance_score analysis) /\
  (endurance_score analysis <= efficiency_score analysis ->
   endurance_score analysis <= overall_score analysis /\
   overall_score analysis <= efficiency_score analysis) /\
  (verdict (overall_score analysis) = "   🌟 EXCEPTIONAL PERFORMANCE!"%string <->
   90 <= overall_score analysis) /\
  (90 <= overall_score analysis ->
   90 <= efficiency_score analysis \/ 90 <= endurance_score analysis).
Proof.
  unfold overall_score, efficiency_score, endurance_score.
  set (e := events_per_hour analysis / 400 * 100).
  set (p := activity_percentage analysis).
  destruct (py_min_spec 100 e) as (He1 & He2 & He3 & He4).
  destruct (py_min_spec 100 p) as (Hp1 & Hp2 & Hp3 & Hp4).
  set (x := py_min 100 e) in *. set (y := py_min 100 p) in *.
  assert (Ho : (x + y) / 2 == (x + y) * (1 # 2)) by field.
  split; [exact He1|]. split; [exact Hp1|]. split; [lra|].
  split.
  { split; intros H.
    - destruct (Qlt_le_dec p 100) as [Hlt|Hge].
      + rewrite (Hp3 Hlt) in H. exact H.
      + rewrite (Hp4 Hge) in H. lra.
    - rewrite (Hp3 ltac:(lra)). exact H. }
  split; [intros H; split; lra|].
  split; [intros H; split; lra|].
  split.
  { unfold verdict. rewrite <- Qle_bool_iff.
    destruct (Qle_bool 90 ((x + y) / 2)); [tauto|].
    split; [|discriminate].
    destruct (Qle_bool 80 ((x + y) / 2)); [discriminate|].
    destruct (Qle_bool 70 ((x + y) / 2)); discriminate. }
  intros H. destruct (Qlt_le_dec x 90) as [Hx|Hx]; [right; lra | left; exact Hx].
Qed.

(** On the metrics of any non-empty sequence with a non-negative event
    count the efficiency score lies between 0 and 100.  When the session
    has no positive duration (a single event, or a last event that is not
    after the first) all three scores are 0 and the report ends with the
    lowest verdict. *)
Theorem efficiency_score_range (ts : list datetime) (n : Z) :
  ts <> [] -> comparable ts -> (0 <= n)%Z ->
  exists m,
    analyze_timestamps ts n = Ok (Analysis m) /\
    0 <= efficiency_score m /\ efficiency_score m <= 100 /\
    (total_duration_hours m <= 0 ->
     efficiency_score m == 0 /\ endurance_score m == 0 /\
     overall_score m == 0 /\
     verdict (overall_score m) = "   📈 ROOM FOR IMPROVEMENT"%string).
Proof.
  intros Hne Hc Hn. destruct ts as [|a rest]; [congruence|].
  destruct (analyze_timestamps_comparable a rest n Hc) as [Hsub Hg].
  destruct (analyze_timestamps_Ok a rest n _ _ Hsub Hg)
    as (m & Hm & _ & _ & Hdur & _ & Heph & _ & _ & _ & _ & Hpct & _).
  cbv zeta in Hdur, Heph, Hpct.
  set (d := total_seconds (instant_us (last (a :: rest) a) - instant_us a)) in *.
  exists m. split; [exact Hm|].
  assert (He : 0 <= events_per_hour m).
  { rewrite Heph. destruct (Qltb 0 d) eqn:E; [|lra].
    apply Qltb_true in E.
    apply Qle_shift_div_l.
    - assert (d == d / 3600 * 3600) by field. lra.
    - assert (0 <= inject_Z n).
      { change 0 with (inject_Z 0). now rewrite <- Zle_Qle. }
      lra. }
  assert (He' : 0 <= events_per_hour m / 400 * 100).
  { assert (events_per_hour m / 400 * 100
            == events_per_hour m * (1 # 4)) by field. lra. }
  split.
  { unfold efficiency_score.
    destruct (py_min_spec 100 (events_per_hour m / 400 * 100))
      as (_ & _ & He3 & He4).
    destruct (Qlt_le_dec (events_per_hour m / 400 * 100) 100) as [Hlt|Hge];
      [rewrite (He3 Hlt) | rewrite (He4 Hge)]; lra. }
  split.
  { unfold efficiency_score.
    apply (py_min_spec 100 (events_per_hour m / 400 * 100)). }
  intros Hshort. rewrite Hdur in Hshort.
  assert (E : Qltb 0 d = false).
  { apply Qltb_false. assert (d == d / 3600 * 3600) by field. lra. }
  rewrite E in Heph, Hpct.
  unfold overall_score, efficiency_score, endurance_score.
  rewrite Heph, Hpct.
  repeat split; reflexivity.
Qed.

Lemma efficiency_score_range_witness :
  exists m,
    analyze_timestamps [utc 1 1 10 0 0] 1 = Ok (Analysis m) /\
    overall_score m == 0 /\
    verdict (overall_score m) = "   📈 ROOM FOR IMPROVEMENT"%string.
Proof.
  destruct (efficiency_score_range [utc 1 1 10 0 0] 1)
    as (m & Hm & _ & _ & Hshort).
  - discriminate.
  - apply comparable_cons. intros x [].
  - lia.
  - exists m. split; [exact Hm|].
    assert (E : Ok (Analysis m) = analyze_timestamps [utc 1 1 10 0 0] 1)
      by (symmetry; exact Hm).
    vm_compute in E. injection E as ->.
    destruct Hshort as (_ & _ & H0 & Hv); [vm_compute; discriminate|].
    split; [exact H0 | exact Hv].
Defined.

(** ** Parsing timestamps and reading lines *)

Local Open Scope string_scope.
Local Open Scope list_scope.
Local Open Scope Z_scope.

Lemma string_app_assoc (a b c : string) :
  ((a ++ b) ++ c = a ++ (b ++ c))%string.
Proof.
  induction a as [|x a IH]; simpl; [reflexivity | now rewrite IH].
Qed.

Lemma string_app_length (a b : string) :
  String.length (a ++ b) = (String.length a + String.length b)%nat.
Proof.
  induction a as [|x a IH]; simpl; [reflexivity | now rewrite IH].
Qed.

Lemma replace_app (c : ascii) (by_ s1 s2 : string) :
  replace c by_ (s1 ++ s2) = (replace c by_ s1 ++ replace c by_ s2)%string.
Proof.
  induction s1 as [|a s1 IH]; simpl; [reflexivity|].
  destruct (Ascii.eqb a c); rewrite IH;
    [now rewrite string_app_assoc | reflexivity].
Qed.

Section ScriptExtras.
Context {R : Runtime}.

(** Stated once, for the results below that rely on it. *)
Lemma parse_timestamp_spellings (before after : string) :
  parse_timestamp (JStr (before ++ "Z" ++ after)%string)
  = parse_timestamp (JStr (before ++ "+00:00" ++ after)%string) /\
  (forall v, (forall s, v <> JStr s) ->
             exists msg, parse_timestamp v = Raise (AttributeError msg)).
Proof.
  split.
  - unfold parse_timestamp. rewrite !replace_app. reflexivity.
  - intros v Hv. destruct v; simpl; eauto. exfalso. eapply Hv. reflexivity.
Qed.

(** A letter Z anywhere in the text is read as the offset [+00:00]: the
    two spellings reach the ISO parser as the same string and give the same
    result, whether a datetime or an exception.  A value that is not a
    string raises [AttributeError] without reaching the parser. *)
Theorem parse_timestamp_Z (before after : string) :
  parse_timestamp (JStr (before ++ "Z" ++ after)%string)
  = parse_timestamp (JStr (before ++ "+00:00" ++ after)%string) /\
  (forall v, (forall s, v <> JStr s) ->
             exists msg, parse_timestamp v = Raise (AttributeError msg)).
Proof. exact (parse_timestamp_spellings before after). Qed.

Lemma read_line_passed_over (start_dt end_dt : option datetime)
      (acc : list datetime * Z) (line : string) :
  passed_over line -> read_line start_dt end_dt acc line = Ok acc.
Proof.
  intros [[msg H]|(d & H & Hd)]; unfold read_line, try_line; destruct acc as [ts n];
    rewrite H; simpl; [reflexivity|]. now rewrite Hd.
Qed.

(** Stated once, for the results below that rely on it. *)
Lemma read_lines_passed_over (start_dt end_dt : option datetime)
        (acc : list datetime * Z) (lines : list string) :
  Forall passed_over lines ->
  read_lines start_dt end_dt acc lines = Ok acc.
Proof.
  induction 1 as [|line lines Hl Hls IH]; simpl; [reflexivity|].
  rewrite (read_line_passed_over _ _ _ _ Hl). simpl. exact IH.
Qed.

(** Only two kinds of line are passed over: text that is not JSON, and a
    JSON object without a [timestamp] key.  A whole file of such lines
    leaves the accumulators as they were. *)
Theorem unusable_lines_skipped (start_dt end_dt : option datetime)
        (acc : list datetime * Z) (lines : list string) :
  Forall passed_over lines ->
  read_lines start_dt end_dt acc lines = Ok acc.
Proof. exact (read_lines_passed_over start_dt end_dt acc lines). Qed.

(** A line that decodes to something else than an object is not
    tolerated as a rule: a number, a boolean or null aborts the analysis
    with [TypeError], and so does a list or a string that contains
    ["timestamp"]; a list or a string that does not is passed over.  A
    record whose [timestamp] is not a string aborts with
    [AttributeError]. *)
Theorem foreign_lines (start_dt end_dt : option datetime)
        (acc : list datetime * Z) (line : string) (entry : json) :
  json_loads (strip line) = Ok entry ->
  let outcome := read_line start_dt end_dt acc line in
  (entry = JNull \/ (exists b, entry = JBool b) \/ (exists n, entry = JInt n) \/
   (exists q, entry = JFloat q) ->
   exists msg, outcome = Raise (TypeError msg)) /\
  ((exists l, entry = JList l) \/ (exists s, entry = JStr s) ->
   (contains "timestamp" entry = Ok true ->
    exists msg, outcome = Raise (TypeError msg)) /\
   (contains "timestamp" entry = Ok false -> outcome = Ok acc)) /\
  (forall d v, entry = JDict d ->
     getitem entry "timestamp" = Ok v ->
     contains "timestamp" entry = Ok true ->
     (forall s, v <> JStr s) ->
     exists msg, outcome = Raise (AttributeError msg)).
Proof.
  intros Hl outcome. subst outcome. unfold read_line, try_line.
  destruct acc as [ts n]. rewrite Hl. cbv beta iota delta [bind].
  split; [|split].
  - intros [->|[[b ->]|[[k ->]|[q ->]]]]; simpl; eauto.
  - intros [[l ->]|[s ->]]; split; intros H; rewrite H; simpl; eauto.
  - intros d v -> Hg Hc Hv. rewrite Hc, Hg.
    destruct (parse_timestamp_spellings "" "") as [_ Hattr].
    destruct (Hattr v Hv) as [msg Hm]. rewrite Hm. simpl. eauto.
Qed.

Lemma read_lines_length (start_dt end_dt : option datetime) (lines : list string)
      (acc acc' : list datetime * Z) :
  read_lines start_dt end_dt acc lines = Ok acc' ->
  (length (fst acc') <= length (fst acc) + length lines)%nat.
Proof.
  revert acc. induction lines as [|line lines IH]; intros acc H.
  - simpl in H. injection H as <-. lia.
  - simpl in H. apply bind_Ok in H. destruct H as (acc1 & H1 & H2).
    apply IH in H2. destruct acc as [ts n], acc1 as [ts1 n1].
    apply read_line_Ok in H1.
    destruct H1 as [[-> ->]|(t & -> & -> & _)]; simpl in *;
      rewrite ?length_app in *; simpl in *; lia.
Qed.

(** What the read loop leaves behind: [total_events] is the number of
    timestamps kept, every kept timestamp is at or after the start bound and
    at or before the end bound, and no line contributes more than one. *)
Theorem read_loop_invariant (start_dt end_dt : option datetime)
        (lines : list string) (timestamps : list datetime) (counted : Z) :
  read_lines start_dt end_dt ([], 0) lines = Ok (timestamps, counted) ->
  counted = Z.of_nat (length timestamps) /\
  Forall (passes_start start_dt) timestamps /\
  Forall (passes_end end_dt) timestamps /\
  (length timestamps <= length lines)%nat.
Proof.
  intros H. split; [eapply read_lines_count; eauto|].
  pose proof (read_lines_length _ _ _ _ _ H) as Hlen.
  apply read_lines_Ok in H. destruct H as (added & -> & _ & Hs & He).
  simpl in *. auto.
Qed.

(** The loop does not look at the accumulators: started from other
    values it appends the same timestamps and adds the same count, and fails
    on the same line with the same exception. *)
Lemma read_line_shift (start_dt end_dt : option datetime) (line : string)
      (ts0 : list datetime) (n0 : Z) :
  read_line start_dt end_dt (ts0, n0) line
  = match read_line start_dt end_dt ([], 0) line with
    | Ok (ts, n) => Ok (ts0 ++ ts, n0 + n)
    | Raise e => Raise e
    end.
Proof.
  unfold read_line, try_line.
  destruct (json_loads (strip line)) as [entry|e]; simpl;
    [|destruct (is_JSONDecodeError e); simpl;
      rewrite ?app_nil_r, ?Z.add_0_r; reflexivity].
  destruct (contains "timestamp" entry) as [[|]|e]; simpl;
    try (rewrite ?app_nil_r, ?Z.add_0_r; reflexivity);
    [|destruct (is_JSONDecodeError e); simpl;
      rewrite ?app_nil_r, ?Z.add_0_r; reflexivity].
  destruct (getitem entry "timestamp") as [v|e]; simpl;
    [|destruct (is_JSONDecodeError e); simpl;
      rewrite ?app_nil_r, ?Z.add_0_r; reflexivity].
  destruct (parse_timestamp v) as [t|e]; simpl;
    [|destruct (is_JSONDecodeError e); simpl;
      rewrite ?app_nil_r, ?Z.add_0_r; reflexivity].
  destruct (before_start start_dt t) as [[|]|e]; simpl;
    try (rewrite ?app_nil_r, ?Z.add_0_r; reflexivity);
    [|destruct (is_JSONDecodeError e); simpl;
      rewrite ?app_nil_r, ?Z.add_0_r; reflexivity].
  destruct (after_end end_dt t) as [[|]|e]; simpl;
    try (rewrite ?app_nil_r, ?Z.add_0_r; reflexivity).
  destruct (is_JSONDecodeError e); simpl;
    rewrite ?app_nil_r, ?Z.add_0_r; reflexivity.
Qed.

Lemma read_lines_shift (start_dt end_dt : option datetime) (lines : list string)
      (ts0 : list datetime) (n0 : Z) :
  read_lines start_dt end_dt (ts0, n0) lines
  = match read_lines start_dt end_dt ([], 0) lines with
    | Ok (ts, n) => Ok (ts0 ++ ts, n0 + n)
    | Raise e => Raise e
    end.
Proof.
  revert ts0 n0. induction lines as [|line lines IH]; intros ts0 n0.
  - simpl. now rewrite app_nil_r, Z.add_0_r.
  - simpl. rewrite (read_line_shift _ _ _ ts0 n0).
    destruct (read_line start_dt end_dt ([], 0) line) as [[ts1 n1]|e]; simpl;
      [|reflexivity].
    rewrite (IH (ts0 ++ ts1) (n0 + n1)), (IH ts1 n1).
    destruct (read_lines start_dt end_dt ([], 0) lines) as [[ts2 n2]|e];
      [|reflexivity].
    now rewrite app_assoc, Z.add_assoc.
Qed.

(** Reading two logs one after the other gives the timestamps of the
    first followed by those of the second, and the counts add up; if the
    first fails, so does the concatenation, with the same exception. *)
Theorem read_lines_concat (start_dt end_dt : option datetime)
        (lines1 lines2 : list string) :
  (forall ts1 n1 ts2 n2,
     read_lines start_dt end_dt ([], 0) lines1 = Ok (ts1, n1) ->
     read_lines start_dt end_dt ([], 0) lines2 = Ok (ts2, n2) ->
     read_lines start_dt end_dt ([], 0) (lines1 ++ lines2)
     = Ok (ts1 ++ ts2, n1 + n2)) /\
  (forall e,
     read_lines start_dt end_dt ([], 0) lines1 = Raise e ->
     read_lines start_dt end_dt ([], 0) (lines1 ++ lines2) = Raise e) /\
  (forall ts1 n1 e,
     read_lines start_dt end_dt ([], 0) lines1 = Ok (ts1, n1) ->
     read_lines start_dt end_dt ([], 0) lines2 = Raise e ->
     read_lines start_dt end_dt ([], 0) (lines1 ++ lines2) = Raise e).
Proof.
  split; [|split].
  - intros ts1 n1 ts2 n2 H1 H2. rewrite read_lines_app, H1. simpl.
    now rewrite read_lines_shift, H2.
  - intros e H1. now rewrite read_lines_app, H1.
  - intros ts1 n1 e H1 H2. rewrite read_lines_app, H1. simpl.
    now rewrite read_lines_shift, H2.
Qed.

(** An empty [--start] or [--end] text counts as no bound at all; a
    non-empty one that does not parse makes [analyze_session_file] raise
    before it prints anything or opens the file, whatever the file is. *)
Theorem bound_edge_cases (file_path : string) (start_time end_time : option string) :
  analyze_session_file file_path (Some "") end_time
  = analyze_session_file file_path None end_time /\
  analyze_session_file file_path start_time (Some "")
  = analyze_session_file file_path start_time None /\
  (forall s e, start_time = Some s -> truthy s = true ->
               parse_timestamp (JStr s) = Raise e ->
               analyze_session_file file_path start_time end_time = ([], Raise e)) /\
  (forall s e start_dt, end_time = Some s -> truthy s = true ->
               parse_bound start_time = Ok start_dt ->
               parse_timestamp (JStr s) = Raise e ->
               analyze_session_file file_path start_time end_time = ([], Raise e)).
Proof.
  split; [reflexivity|]. split; [reflexivity|]. split.
  - intros s e -> Ht Hp. unfold analyze_session_file, parse_bound.
    rewrite Ht, Hp. reflexivity.
  - intros s e start_dt -> Ht Hs Hp. unfold analyze_session_file.
    rewrite Hs. unfold parse_bound. rewrite Ht, Hp. reflexivity.
Qed.

(** ** The session file locator *)

Lemma search_Ok (start_dt : datetime) (start_time : string)
      (session_files : list string) (found : string) :
  search_session_files start_dt start_time session_files = Ok found ->
  exists before after,
    session_files = before ++ found :: after /\
    try_session_file start_dt found = Ok true /\
    Forall (fun f => try_session_file start_dt f <> Ok true) before.
Proof.
  induction session_files as [|f rest IH]; simpl; [discriminate|].
  destruct (try_session_file start_dt f) as [[|]|e] eqn:E.
  - intros H. injection H as <-. exists [], rest. auto.
  - intros H. destruct (IH H) as (before & after & -> & Ht & Hb).
    exists (f :: before), after. repeat split; auto.
    constructor; [congruence | exact Hb].
  - destruct (is_JSONDecodeError e || is_KeyError e); [|discriminate].
    intros H. destruct (IH H) as (before & after & -> & Ht & Hb).
    exists (f :: before), after. repeat split; auto.
    constructor; [congruence | exact Hb].
Qed.

Lemma try_session_file_true (start_dt : datetime) (session_file : string) :
  try_session_file start_dt session_file = Ok true ->
  exists content first_entry v first_ts last_entry v' last_ts,
    open_text session_file = Ok content /\
    truthy (strip (readline content)) = true /\
    json_loads (strip (readline content)) = Ok first_entry /\
    getitem first_entry "timestamp" = Ok v /\
    parse_timestamp v = Ok first_ts /\
    json_loads (read_last_line content (strip (readline content))) = Ok last_entry /\
    getitem last_entry "timestamp" = Ok v' /\
    parse_timestamp v' = Ok last_ts /\
    dt_le first_ts start_dt = Ok true /\
    dt_le start_dt last_ts = Ok true.
Proof.
  unfold try_session_file. intros H.
  apply bind_Ok in H. destruct H as (content & Hopen & H). cbv zeta in H.
  destruct (truthy (strip (readline content))) eqn:Ht; [|discriminate].
  apply bind_Ok in H. destruct H as (e1 & H1 & H).
  apply bind_Ok in H. destruct H as (v1 & H2 & H).
  apply bind_Ok in H. destruct H as (t1 & H3 & H).
  apply bind_Ok in H. destruct H as (e2 & H4 & H).
  apply bind_Ok in H. destruct H as (v2 & H5 & H).
  apply bind_Ok in H. destruct H as (t2 & H6 & H).
  apply bind_Ok in H. destruct H as ([|] & H7 & H); [|discriminate].
  exists content, e1, v1, t1, e2, v2, t2. repeat split; assumption.
Qed.

(** When [find_session_file] returns a file, the session directory
    exists, the file is one of its [*.jsonl] entries and the first one in
    directory order that matches, and the start time lies between the
    timestamp of the file's first line and that of the last line of its
    trailing 1000 characters, both ends included. *)
Theorem find_session_file_sound (project_path start_time found : string) :
  find_session_file project_path start_time = Ok found ->
  dir_exists (session_dir_of project_path) = true /\
  exists start_dt before after content first_ts last_ts first_entry last_entry v v',
    parse_timestamp (JStr start_time) = Ok start_dt /\
    glob_jsonl (session_dir_of project_path) = before ++ found :: after /\
    Forall (fun f => try_session_file start_dt f <> Ok true) before /\
    open_text found = Ok content /\
    json_loads (strip (readline content)) = Ok first_entry /\
    getitem first_entry "timestamp" = Ok v /\
    parse_timestamp v = Ok first_ts /\
    json_loads (read_last_line content (strip (readline content))) = Ok last_entry /\
    getitem last_entry "timestamp" = Ok v' /\
    parse_timestamp v' = Ok last_ts /\
    dt_le first_ts start_dt = Ok true /\
    dt_le start_dt last_ts = Ok true.
Proof.
  unfold find_session_file. cbv zeta.
  destruct (dir_exists (session_dir_of project_path)); simpl; [|discriminate].
  intros H. split; [reflexivity|].
  apply bind_Ok in H. destruct H as (start_dt & Hp & H).
  apply search_Ok in H. destruct H as (before & after & Hg & Ht & Hb).
  apply try_session_file_true in Ht.
  destruct Ht as (content & e1 & v1 & t1 & e2 & v2 & t2 & H1 & _ & H2 & H3 & H4
                  & H5 & H6 & H7 & H8 & H9).
  exists start_dt, before, after, content, t1, t2, e1, e2, v1, v2.
  repeat split; assumption.
Qed.

Lemma search_none (start_dt : datetime) (start_time : string)
      (session_files : list string) :
  Forall (fun f =>
            try_session_file start_dt f = Ok false \/
            exists e, try_session_file start_dt f = Raise e /\
                      is_JSONDecodeError e || is_KeyError e = true)
         session_files ->
  search_session_files start_dt start_time session_files
  = Raise (FileNotFoundError
             ("No session file found containing timestamp " ++ start_time)%string).
Proof.
  induction 1 as [|f rest Hf Hrest IH]; simpl; [reflexivity|].
  destruct Hf as [Hf|(e & Hf & He)]; rewrite Hf; [exact IH|].
  rewrite He. exact IH.
Qed.

(** How [find_session_file] fails.  A missing session directory is
    reported before the start time is even parsed; with the directory
    present an unparseable start time raises the parser's exception; and
    when every candidate is out of range or skipped (in particular when
    there is none) it raises [FileNotFoundError].  A candidate whose first
    line is blank is out of range whatever follows that line. *)
Theorem find_session_file_failures (project_path start_time : string) :
  let session_dir := session_dir_of project_path in
  (dir_exists session_dir = false ->
   find_session_file project_path start_time
   = Raise (FileNotFoundError
              ("Session directory not found: " ++ session_dir)%string)) /\
  (dir_exists session_dir = true ->
   forall e, parse_timestamp (JStr start_time) = Raise e ->
             find_session_file project_path start_time = Raise e) /\
  (dir_exists session_dir = true ->
   forall start_dt,
     parse_timestamp (JStr start_time) = Ok start_dt ->
     Forall (fun f =>
               try_session_file start_dt f = Ok false \/
               exists e, try_session_file start_dt f = Raise e /\
                         is_JSONDecodeError e || is_KeyError e = true)
            (glob_jsonl session_dir) ->
     find_session_file project_path start_time
     = Raise (FileNotFoundError
                ("No session file found containing timestamp " ++ start_time)%string)) /\
  (forall start_dt session_file content,
     open_text session_file = Ok content ->
     strip (readline content) = EmptyString ->
     try_session_file start_dt session_file = Ok false).
Proof.
  cbv zeta. unfold find_session_file. cbv zeta.
  split; [intros ->; reflexivity|].
  split; [intros -> e ->; reflexivity|].
  split.
  - intros -> start_dt -> H. simpl. now apply search_none.
  - intros start_dt f content Hopen Hblank. unfold try_session_file.
    rewrite Hopen. simpl. now rewrite Hblank.
Qed.

Lemma seek_app (prefix tail : string) :
  seek (String.length prefix) (prefix ++ tail)%string = tail.
Proof.
  induction prefix as [|c prefix IH]; simpl; [destruct tail; reflexivity | exact IH].
Qed.

(** The last line is looked for in the trailing 1000 characters only:
    whatever precedes them has no influence, and a file of at most 1000
    characters is read whole. *)
Theorem read_last_line_tail (first_line : string) :
  (forall prefix tail,
     String.length tail = 1000%nat ->
     read_last_line (prefix ++ tail)%string first_line
     = read_last_line tail first_line) /\
  (forall content,
     (String.length content <= 1000)%nat ->
     read_last_line content first_line
     = match readlines content with
       | [] => first_line
       | _ :: _ => strip (last (readlines content) EmptyString)
       end).
Proof.
  split.
  - intros prefix tail Hlen. unfold read_last_line.
    rewrite string_app_length, Hlen.
    replace (Z.to_nat (Z.max 0 (Z.of_nat (String.length prefix + 1000) - 1000)))
      with (String.length prefix) by lia.
    rewrite seek_app. simpl Z.to_nat. destruct tail; reflexivity.
  - intros content Hlen. unfold read_last_line.
    replace (Z.to_nat (Z.max 0 (Z.of_nat (String.length content) - 1000)))
      with 0%nat by lia.
    destruct content; reflexivity.
Qed.

Lemma replace_slash_twice (s : string) :
  replace "/" "-" (replace "/" "-" s) = replace "/" "-" s.
Proof.
  induction s as [|c s IH]; simpl; [reflexivity|].
  destruct (Ascii.eqb c "/") eqn:E; simpl; [now rewrite IH|].
  now rewrite E, IH.
Qed.

(** The directory name keeps no trace of which characters of the project
    path were slashes: a path and the same path with its slashes written as
    dashes are looked up in one and the same session directory. *)
Theorem session_dir_collision (project_path : string) :
  session_dir_of (replace "/" "-" project_path) = session_dir_of project_path.
Proof.
  unfold session_dir_of. now rewrite replace_slash_twice.
Qed.

(** ** The command line *)

(** [main] returns 0 exactly when a session file was located and its
    analysis produced metrics; in every other case it returns 1 and the last
    line it prints is an error line.  When no file can be located the error
    line is all it prints. *)
Theorem main_exit_status (args : Args) :
  (snd (main args) = 0 \/ snd (main args) = 1) /\
  (snd (main args) = 0 <->
   exists session_file m,
     locate_session_file args = Ok session_file /\
     snd (analyze_session_file session_file (Some (arg_start args)) (arg_end args))
     = Ok (Analysis m)) /\
  (snd (main args) = 1 ->
   exists msg, last (fst (main args)) EmptyString = error_line msg) /\
  (forall e, locate_session_file args = Raise e ->
             main args = ([error_line (str_exn e)], 1)).
Proof.
  destruct (locate_session_file args) as [session_file|e] eqn:Hloc.
  - rewrite (main_run args session_file Hloc). cbv zeta.
    destruct (analyze_session_file session_file (Some (arg_start args))
                (arg_end args)) as [printed r] eqn:Hrun.
    assert (Hother : forall f m,
               Ok session_file = Ok f ->
               snd (analyze_session_file f (Some (arg_start args)) (arg_end args))
               = Ok (Analysis m) -> r = Ok (Analysis m)).
    { intros f m Hf Hm. injection Hf as <-. now rewrite Hrun in Hm. }
    destruct r as [[error|m]|e]; cbn [fst snd].
    + split; [now right|]. split.
      * split; [discriminate|]. intros (f & m & Hf & Hm).
        specialize (Hother f m Hf Hm). discriminate.
      * split; [|discriminate]. intros _. exists error.
        apply last_last.
    + split; [now left|]. split.
      * split; [|reflexivity]. intros _. exists session_file, m.
        rewrite Hrun. auto.
      * split; discriminate.
    + split; [now right|]. split.
      * split; [discriminate|]. intros (f & m & Hf & Hm).
        specialize (Hother f m Hf Hm). discriminate.
      * split; [|discriminate]. intros _. exists (str_exn e).
        apply last_last.
  - unfold main. rewrite Hloc. simpl.
    split; [now right|]. split.
    + split; [discriminate|]. intros (f & m & Hf & _). discriminate.
    + split; [eauto|]. intros e' He. injection He as <-. reflexivity.
Qed.

(** ** The shares printed for the peak hours *)

Local Open Scope Q_scope.

Lemma peak_hour_shares_Ok (analysis : SessionMetrics) (entries : list (Z * Z)) :
  total_events analysis <> 0%Z ->
  peak_hour_shares analysis entries
  = Ok (map (fun entry =>
               inject_Z (snd entry) / inject_Z (total_events analysis) * 100)
            entries).
Proof.
  intros Hn.
  assert (Hq : ~ inject_Z (total_events analysis) == 0).
  { unfold Qeq, inject_Z. simpl. lia. }
  induction entries as [|entry entries IH]; simpl; [reflexivity|].
  unfold peak_hour_share. rewrite (py_div_nonzero _ _ Hq). simpl.
  now rewrite IH.
Qed.

Lemma sum_counts_firstn (k : nat) (d : dict) :
  Forall (fun entry => (0 <= snd entry)%Z) d ->
  (0 <= sum_counts (firstn k d) <= sum_counts d)%Z.
Proof.
  intros H. revert k. induction H as [|entry d He Hd IH]; intros k.
  - destruct k; unfold sum_counts; simpl; lia.
  - destruct k as [|k]; unfold sum_counts in *; simpl.
    + specialize (IH 0%nat). simpl in IH. lia.
    + specialize (IH k). lia.
Qed.

(** The percentage printed beside each peak hour never divides by zero
    on the metrics that [analyze_session_file] hands to the report: there is
    one share per peak hour, each above 0 and at most 100, and the event
    counts of the peak hours together do not exceed [total_events]. *)
Theorem peak_hour_shares_safe (start_dt end_dt : option datetime)
        (lines : list string) (timestamps : list datetime) (counted : Z) :
  read_lines start_dt end_dt ([], 0%Z) lines = Ok (timestamps, counted) ->
  timestamps <> [] -> comparable timestamps ->
  exists m shares,
    analyze_timestamps timestamps counted = Ok (Analysis m) /\
    peak_hour_shares m (peak_hours m) = Ok shares /\
    length shares = length (peak_hours m) /\
    Forall (fun share => 0 < share /\ share <= 100) shares /\
    (sum_counts (peak_hours m) <= total_events m)%Z.
Proof.
  intros Hread Hne Hc.
  apply read_lines_count in Hread.
  destruct (peak_hours_top timestamps counted Hne Hc)
    as (m & Hm & _ & _ & Hin & _).
  destruct timestamps as [|a rest]; [congruence|].
  destruct (analyze_timestamps_comparable a rest counted Hc) as [Hsub Hg].
  destruct (analyze_timestamps_Ok a rest counted _ _ Hsub Hg)
    as (m' & Hm' & _ & _ & _ & Hn & _ & _ & _ & _ & _ & _ & _ & _ & _ & Hh & Hp).
  assert (m' = m) by congruence. subst m'. cbv zeta in Hh, Hp.
  set (ts := a :: rest) in *.
  assert (Hpos : (1 <= counted)%Z).
  { rewrite Hread. unfold ts. simpl length. lia. }
  assert (Hq : 0 < inject_Z counted).
  { change 0 with (inject_Z 0). rewrite <- Zlt_Qlt. lia. }
  exists m. eexists. split; [exact Hm|].
  split; [apply peak_hour_shares_Ok; rewrite Hn; lia|].
  rewrite Hn. split; [apply length_map|].
  assert (Hcount : forall p, In p (peak_hours m) -> (1 <= snd p <= counted)%Z).
  { intros p Hp'. destruct (Hin p Hp') as [Hp1 Hp2]. rewrite Hp2. split.
    - apply events_in_hour_pos. apply count_hours_key_iff.
      apply (Permutation_in _ (Permutation_map fst (hourly_activity_of_perm ts))).
      rewrite <- Hh. now apply in_map.
    - rewrite Hread. unfold events_in_hour. apply inj_le. apply filter_length_le. }
  split.
  - apply Forall_forall. intros share Hs. apply in_map_iff in Hs.
    destruct Hs as (p & <- & Hp'). destruct (Hcount p Hp') as [H1 H2].
    assert (0 < inject_Z (snd p) /\ inject_Z (snd p) <= inject_Z counted).
    { change 0 with (inject_Z 0). rewrite <- Zlt_Qlt, <- Zle_Qle. lia. }
    assert (0 < inject_Z (snd p) / inject_Z counted).
    { apply Qlt_shift_div_l; [exact Hq | lra]. }
    assert (inject_Z (snd p) / inject_Z counted <= 1).
    { apply Qle_shift_div_r; [exact Hq | lra]. }
    split; lra.
  - rewrite Hp. unfold peak_hours_of.
    assert (Hall : Forall (fun entry => (0 <= snd entry)%Z)
                          (sorted count_lt true (count_hours ts))).
    { apply Forall_forall. intros p Hp'.
      apply (Permutation_in _ (sorted_perm count_lt true (count_hours ts))) in Hp'.
      destruct p as [h c]. apply count_hours_value in Hp'. simpl. subst c.
      unfold events_in_hour. lia. }
    pose proof (sum_counts_firstn 3 _ Hall) as [_ H3].
    rewrite (sum_counts_perm _ _ (sorted_perm count_lt true (count_hours ts))) in H3.
    rewrite count_hours_sum in H3. lia.
Qed.
End ScriptExtras.

(** ** The further properties at concrete inputs *)

Local Open Scope string_scope.
Local Open Scope list_scope.
Local Open Scope Z_scope.

Lemma unusable_lines_skipped_witness :
  read_lines (R := sample_runtime) None None ([], 0) ["not json at all"; "{}"]
  = Ok ([], 0).
Proof.
  apply (unusable_lines_skipped (R := sample_runtime)).
  constructor; [|constructor; [|constructor]].
  - left. exists "Expecting value". reflexivity.
  - right. exists []. split; reflexivity.
Defined.

Lemma foreign_lines_witness :
  exists msg,
    read_line (R := sample_runtime_int) None None ([utc 1 1 10 0 0], 1) "5"
    = Raise (TypeError msg).
Proof.
  destruct (foreign_lines (R := sample_runtime_int) None None
              ([utc 1 1 10 0 0], 1) "5" (JInt 5) eq_refl) as [H _].
  apply H. right. right. left. exists 5. reflexivity.
Defined.

Lemma read_loop_invariant_witness :
  read_lines (R := sample_runtime) (Some (utc 1 1 10 1 0)) None ([], 0)
    (readlines sample_good_log)
  = Ok ([utc 1 1 10 2 0; utc 1 1 10 40 0], 2) /\
  Forall (passes_start (Some (utc 1 1 10 1 0)))
         [utc 1 1 10 2 0; utc 1 1 10 40 0].
Proof.
  assert (H : read_lines (R := sample_runtime) (Some (utc 1 1 10 1 0)) None ([], 0)
                (readlines sample_good_log)
              = Ok ([utc 1 1 10 2 0; utc 1 1 10 40 0], 2)) by reflexivity.
  split; [exact H|].
  destruct (read_loop_invariant (R := sample_runtime) _ _ _ _ _ H)
    as (_ & Hs & _). exact Hs.
Defined.

Lemma find_session_file_sound_witness :
  find_session_file (R := sample_runtime) "/work/lib" "2024-01-01T10:01:00Z"
  = Ok "/home/u/.claude/projects/--work-lib/c.jsonl" /\
  dir_exists (Runtime := sample_runtime)
    (session_dir_of (R := sample_runtime) "/work/lib") = true.
Proof.
  assert (H : find_session_file (R := sample_runtime) "/work/lib"
                "2024-01-01T10:01:00Z"
              = Ok "/home/u/.claude/projects/--work-lib/c.jsonl") by reflexivity.
  split; [exact H|].
  destruct (find_session_file_sound (R := sample_runtime) _ _ _ H) as [Hd _].
  exact Hd.
Defined.

Lemma peak_hour_shares_safe_witness :
  exists m shares,
    analyze_timestamps [utc 1 1 10 0 0; utc 1 1 10 2 0; utc 1 1 10 40 0] 3
    = Ok (Analysis m) /\
    peak_hour_shares m (peak_hours m) = Ok shares /\
    length shares = length (peak_hours m).
Proof.
  destruct (peak_hour_shares_safe (R := sample_runtime)
              (Some (utc 1 1 0 0 0)) None (readlines sample_good_log)
              [utc 1 1 10 0 0; utc 1 1 10 2 0; utc 1 1 10 40 0] 3)
    as (m & shares & Hm & Hs & Hl & _).
  - reflexivity.
  - discriminate.
  - apply comparable_cons. intros x Hx. simpl in Hx.
    destruct Hx as [<-|[<-|[]]]; reflexivity.
  - exists m, shares. auto.
Defined.

Lemma format_duration_parts_witness :
  exact_duration (-1) /\ format_duration (-1) = "-1h 59m 59s".
Proof.
  assert (Hd : exact_duration (-1)).
  { split; [split; reflexivity | right; exists (-1)%Z; reflexivity]. }
  split; [exact Hd|].
  pose proof (format_duration_parts (-1) Hd) as H.
  cbv beta iota zeta delta [duration_parts] in H.
  exact (proj2 (proj2 (proj2 (proj2 H)))).
Defined.

(** Durations as the report prints them. *)
Example format_duration_runs :
  format_duration 3725 = "1h 2m 5s" /\
  format_duration (7 # 2) = "0h 0m 3s" /\
  format_duration (-1) = "-1h 59m 59s".
Proof. repeat split; reflexivity. Qed.

(** ** The window as a filter, unreadable logs, and the rates *)

Section WindowFacts.
Context {R : Runtime}.

Lemma dt_cmp_same_kind (op : Z -> Z -> bool) (a b : datetime) :
  aware a = aware b -> dt_cmp op a b = Ok (op (instant_us a) (instant_us b)).
Proof. intros H. unfold dt_cmp. now rewrite H, eqb_reflx. Qed.

Lemma read_line_window (start_dt end_dt : option datetime) (line : string)
      (kept : list datetime) (n : Z) :
  read_line None None ([], 0) line = Ok (kept, n) ->
  Forall (fun t => same_kind start_dt t /\ same_kind end_dt t) kept ->
  read_line start_dt end_dt ([], 0) line
  = Ok (filter (in_window start_dt end_dt) kept,
        Z.of_nat (length (filter (in_window start_dt end_dt) kept))).
Proof.
  unfold read_line, try_line.
  destruct (json_loads (strip line)) as [entry|e]; simpl;
    [|destruct (is_JSONDecodeError e); [|discriminate];
      intros H _; injection H as <- <-; reflexivity].
  destruct (contains "timestamp" entry) as [[|]|e]; simpl;
    [ | intros H _; injection H as <- <-; reflexivity
      | destruct (is_JSONDecodeError e); [|discriminate];
        intros H _; injection H as <- <-; reflexivity ].
  destruct (getitem entry "timestamp") as [v|e]; simpl;
    [|destruct (is_JSONDecodeError e); [|discriminate];
      intros H _; injection H as <- <-; reflexivity].
  destruct (parse_timestamp v) as [t|e]; simpl;
    [|destruct (is_JSONDecodeError e); [|discriminate];
      intros H _; injection H as <- <-; reflexivity].
  intros H Hk. injection H as <- <-.
  inversion Hk as [|? ? [Hs He] _]; subst. clear Hk.
  unfold in_window.
  destruct start_dt as [s|], end_dt as [e|]; simpl in Hs, He |- *;
    unfold dt_lt, dt_gt;
    rewrite ?(dt_cmp_same_kind Z.ltb t s) by (symmetry; exact Hs);
    rewrite ?(dt_cmp_same_kind Z.gtb t e) by (symmetry; exact He);
    simpl; rewrite ?Z.gtb_ltb;
    repeat match goal with
    | |- context [?a <? ?b] => destruct (Z.ltb_spec a b)
    | |- context [?a <=? ?b] => destruct (Z.leb_spec a b)
    end; simpl; try reflexivity; lia.
Qed.

(** With bounds that can be compared with the timestamps of the log,
    the read loop keeps exactly the timestamps the unbounded loop keeps that
    lie in the closed window, in the same order. *)
Theorem window_is_a_filter (start_dt end_dt : option datetime)
        (lines : list string) (all : list datetime) (n : Z) :
  read_lines None None ([], 0) lines = Ok (all, n) ->
  Forall (fun t => same_kind start_dt t /\ same_kind end_dt t) all ->
  read_lines start_dt end_dt ([], 0) lines
  = Ok (filter (in_window start_dt end_dt) all,
        Z.of_nat (length (filter (in_window start_dt end_dt) all))).
Proof.
  revert all n. induction lines as [|line lines IH]; intros all n H Hk.
  - simpl in H. injection H as <- <-. reflexivity.
  - simpl in H. apply bind_Ok in H. destruct H as ([ts1 n1] & H1 & H2).
    rewrite read_lines_shift in H2.
    destruct (read_lines None None ([], 0) lines) as [[ts2 n2]|e] eqn:E;
      [|discriminate].
    injection H2 as <- <-. apply Forall_app in Hk. destruct Hk as [Hk1 Hk2].
    simpl. rewrite (read_line_window _ _ _ _ _ H1 Hk1). simpl.
    rewrite read_lines_shift, (IH _ _ eq_refl Hk2).
    rewrite filter_app, length_app, Nat2Z.inj_add. reflexivity.
Qed.

(** A log without a usable record, and a log that cannot be opened, both
    end with exit status 1: the first with the message "No valid timestamps
    found in range", the second with the text of the exception, after the
    line announcing the read. *)
Theorem unusable_log (args : Args) (session_file : string)
        (start_dt end_dt : option datetime) :
  locate_session_file args = Ok session_file ->
  parse_bound (Some (arg_start args)) = Ok start_dt ->
  parse_bound (arg_end args) = Ok end_dt ->
  let printed := [analyzing_line session_file; reading_line session_file] in
  (forall content,
     open_text session_file = Ok content ->
     Forall passed_over (readlines content) ->
     main args
     = (printed ++ [error_line "No valid timestamps found in range"], 1)) /\
  (forall e,
     open_text session_file = Raise e ->
     main args = (printed ++ [error_line (str_exn e)], 1)).
Proof.
  intros Hloc Hs He printed. subst printed.
  assert (Hrun := analyze_session_file_run session_file _ _ _ _ Hs He).
  rewrite (main_run _ _ Hloc), Hrun. cbv zeta. cbn [fst snd]. split.
  - intros content Hopen Hall. rewrite Hopen. simpl bind.
    rewrite (read_lines_passed_over _ _ _ _ Hall). reflexivity.
  - intros e Hopen. rewrite Hopen. reflexivity.
Qed.
End WindowFacts.

Local Open Scope Q_scope.

(** The three rates stand in a fixed order, whatever the order of the
    timestamps: with a non-negative event count the rate per minute is
    never negative and never above the rate per hour, and whenever there is
    active time the rate over active time is no lower than the rate over
    the whole session. *)
Theorem rates_ordered (ts : list datetime) (n : Z) :
  ts <> [] -> comparable ts -> (0 <= n)%Z ->
  exists m,
    analyze_timestamps ts n = Ok (Analysis m) /\
    0 <= events_per_minute m /\
    events_per_minute m <= events_per_hour m /\
    (0 < total_active_time_hours m ->
     events_per_minute m <= active_events_per_minute m).
Proof.
  intros Hne Hc Hn. destruct ts as [|a rest]; [congruence|].
  destruct (analyze_timestamps_comparable a rest n Hc) as [Hsub Hg].
  destruct (analyze_timestamps_Ok a rest n _ _ Hsub Hg)
    as (m & Hm & _ & _ & _ & _ & Heph & Hepm & Haepm & Hact & _).
  cbv zeta in Heph, Hepm, Haepm, Hact.
  set (d := total_seconds (instant_us (last (a :: rest) a) - instant_us a)) in *.
  pose proof (py_sum_long_nonneg (gaps_of (a :: rest))) as Hi0.
  set (idle := py_sum (filter is_long (gaps_of (a :: rest)))) in *.
  assert (Hq : 0 <= inject_Z n).
  { change 0 with (inject_Z 0). now rewrite <- Zle_Qle. }
  assert (Hrate : 0 < d -> 0 < d / 60 /\ 0 <= inject_Z n / (d / 60)).
  { intros Hd.
    assert (HD : 0 < d / 60).
    { assert (d == d / 60 * 60) by field. lra. }
    split; [exact HD|]. apply Qle_shift_div_l; [exact HD | lra]. }
  exists m. split; [exact Hm|]. rewrite Heph, Hepm, Haepm, Hact.
  split; [|split].
  - destruct (Qltb 0 d) eqn:E; [|lra].
    apply Qltb_true in E. now apply Hrate.
  - destruct (Qltb 0 d) eqn:E; [|lra].
    apply Qltb_true in E. destruct (Hrate E) as [HD Hr].
    assert (E60 : inject_Z n / (d / 3600) == 60 * (inject_Z n / (d / 60)))
      by (field; lra).
    lra.
  - intros Hpos.
    assert (Ha : 0 < d / 60 - idle).
    { assert (d / 60 - idle == (d / 60 - idle) / 60 * 60) by field. lra. }
    rewrite (proj2 (Qltb_true _ _) Ha).
    assert (Hd : 0 < d).
    { assert (d == d / 60 * 60) by field. lra. }
    rewrite (proj2 (Qltb_true _ _) Hd).
    destruct (Hrate Hd) as [HD Hr].
    apply Qle_shift_div_l; [exact Ha|].
    assert (E : inject_Z n / (d / 60) * (d / 60 - idle)
                == inject_Z n - inject_Z n / (d / 60) * idle) by (field; lra).
    rewrite E.
    assert (0 <= inject_Z n / (d / 60) * idle) by (apply Qmult_le_0_compat; assumption).
    lra.
Qed.

Lemma rates_ordered_witness :
  exists m,
    analyze_timestamps [utc 1 1 10 0 0; utc 1 1 10 2 0; utc 1 1 10 40 0] 3
    = Ok (Analysis m) /\
    events_per_minute m <= events_per_hour m /\
    events_per_minute m <= active_events_per_minute m.
Proof.
  destruct (rates_ordered [utc 1 1 10 0 0; utc 1 1 10 2 0; utc 1 1 10 40 0] 3)
    as (m & Hm & _ & Hh & Ha).
  - discriminate.
  - apply comparable_cons. intros x Hx. simpl in Hx.
    destruct Hx as [<-|[<-|[]]]; reflexivity.
  - lia.
  - exists m. split; [exact Hm|]. split; [exact Hh|].
    apply Ha.
    assert (E : Ok (Analysis m)
                = analyze_timestamps
                    [utc 1 1 10 0 0; utc 1 1 10 2 0; utc 1 1 10 40 0] 3)
      by (symmetry; exact Hm).
    vm_compute in E. injection E as ->.
    vm_compute. reflexivity.
Defined.

Local Open Scope Z_scope.

Lemma window_is_a_filter_witness :
  read_lines (R := sample_runtime)
    (Some (utc 1 1 10 2 0)) (Some (utc 1 1 10 40 0)) ([], 0)
    (readlines sample_good_log)
  = Ok ([utc 1 1 10 2 0; utc 1 1 10 40 0], 2).
Proof.
  apply (window_is_a_filter (R := sample_runtime)
           (Some (utc 1 1 10 2 0)) (Some (utc 1 1 10 40 0))
           (readlines sample_good_log)
           [utc 1 1 10 0 0; utc 1 1 10 2 0; utc 1 1 10 40 0] 3).
  - reflexivity.
  - repeat constructor.
Defined.

Lemma unusable_log_witness :
  main (R := sample_runtime)
    (sample_args "2024-01-01T00:00:00Z" "/home/u/.claude/projects/--work-lib/b.jsonl")
  = (["🔍 Analyzing session: /home/u/.claude/projects/--work-lib/b.jsonl";
      "📖 Reading session file: b.jsonl";
      "❌ Error: No valid timestamps found in range"], 1) /\
  main (R := sample_runtime) (sample_args "2024-01-01T00:00:00Z" "/logs/none.jsonl")
  = (["🔍 Analyzing session: /logs/none.jsonl";
      "📖 Reading session file: none.jsonl";
      "❌ Error: No such file or directory: /logs/none.jsonl"], 1).
Proof.
  split.
  - destruct (unusable_log (R := sample_runtime)
                (sample_args "2024-01-01T00:00:00Z"
                   "/home/u/.claude/projects/--work-lib/b.jsonl")
                "/home/u/.claude/projects/--work-lib/b.jsonl"
                (Some (utc 1 1 0 0 0)) None eq_refl eq_refl eq_refl) as [H _].
    apply (H (text_of_lines ["{}"]) eq_refl).
    constructor; [|constructor].
    right. exists []. split; reflexivity.
  - destruct (unusable_log (R := sample_runtime)
                (sample_args "2024-01-01T00:00:00Z" "/logs/none.jsonl")
                "/logs/none.jsonl"
                (Some (utc 1 1 0 0 0)) None eq_refl eq_refl eq_refl) as [_ H].
    apply (H (FileNotFoundError "No such file or directory: /logs/none.jsonl")).
    reflexivity.
Defined.
